(** * Math Tug-of-War: the game logic engine

    A shallow embedding of the game engine of the children-games-arena
    repository: [QuestionGenerator], [GameState], [ScoreManager] and the
    controller [MathTugOfWar] (index.js), followed by the properties the
    specification states about them.

    Conventions of the embedding.
    - JavaScript numbers that only ever hold small integers (rope position,
      scores, counters, the player id) are values of [Z].
    - The numbers the question generator and [validateAnswer] compute
      with are IEEE-754 binary64 values, taken from [SpecFloat] at
      precision 53 and exponent bound 1024: random values, their products,
      operands and answers round, and turn into [NaN], the way the
      program's do.
    - Strings are byte strings (UTF-8).
    - A property read [object[key]] on an object literal finds the own
      members first and then the members every object inherits from
      [Object.prototype].
    - [Math.random()] reads the next value of a sequence of binary64
      numbers; the contract of the built-in is that each value is [+0] or
      a positive number below 1.
    - Calls into the presentation layer (UIController, RopeRenderer,
      SoundManager playback) are recorded in a log of effects; the DOM
      properties the controller reads back or that gate user events
      ([value], [disabled]) are fields of the controller state. *)

From Stdlib Require Import ZArith String Ascii List Lia Bool.
From Stdlib Require Import DecimalString.
From Stdlib Require Import Floats.SpecFloat.
Import ListNotations.

Local Open Scope string_scope.
Local Open Scope Z_scope.

(* ================================================================== *)
(** * The built-ins of the host language the engine relies on           *)
(* ================================================================== *)

Module JS.

(** ** binary64 numbers *)

Definition prec : Z := 53.
Definition emax : Z := 1024.

Definition number := spec_float.

Definition NaN : number := S754_nan.
Definition pos_zero : number := S754_zero false.

(** The Number value for a mathematical integer (round to nearest, ties
    to even). *)
Definition of_Z (z : Z) : number := binary_normalize prec emax z 0 false.

(** The Number value for [(-1)^s * m * 10^e], correctly rounded: an
    integer is normalised directly, a proper fraction is the rounded
    quotient of numerator and denominator. *)
Definition of_decimal (s : bool) (m : Z) (e : Z) : number :=
  match m with
  | Zpos p =>
      match e with
      | Zneg k => SFdiv prec emax (S754_finite s p 0)
                                  (S754_finite false (10 ^ k)%positive 0)
      | _ => match m * 10 ^ e with
             | Zpos q => binary_round prec emax s q 0
             | _ => S754_zero s
             end
      end
  | _ => S754_zero s
  end.

Definition add : number -> number -> number := SFadd prec emax.
Definition sub : number -> number -> number := SFsub prec emax.
Definition mul : number -> number -> number := SFmul prec emax.
Definition div : number -> number -> number := SFdiv prec emax.
Definition Math_abs : number -> number := SFabs.
Definition lt : number -> number -> bool := SFltb.

(** Two Numbers that are the same value: [NaN] is [NaN], and [+0] is not
    [-0]. *)
Definition same (x y : number) : bool :=
  match x, y with
  | S754_zero s, S754_zero t => Bool.eqb s t
  | S754_infinity s, S754_infinity t => Bool.eqb s t
  | S754_nan, S754_nan => true
  | S754_finite s m e, S754_finite t n f =>
      Bool.eqb s t && Pos.eqb m n && Z.eqb e f
  | _, _ => false
  end.

(** [Math.floor]: a number whose exponent is not negative is whole
    already; otherwise the mantissa is cut at the binary point, and moved
    one down for a negative number that was not whole. *)
Definition Math_floor (x : number) : number :=
  match x with
  | S754_finite s m e =>
      if 0 <=? e then x
      else
        let q := Z.shiftr (Zpos m) (- e) in
        if s then of_Z (- (if Z.shiftl q (- e) =? Zpos m then q else q + 1))
        else of_Z q
  | _ => x
  end.

Definition is_nan (x : number) : bool :=
  match x with S754_nan => true | _ => false end.

(** ** characters and white space *)

Definition code (c : ascii) : Z := Z.of_N (N_of_ascii c).

Definition is_ascii_ws (c : ascii) : bool :=
  let n := code c in
  ((9 <=? n) && (n <=? 13)) || (n =? 32).

(** [String.prototype.trim]'s leading half.  The white space and line
    terminator code points outside ASCII are matched on their UTF-8
    encodings: U+00A0, U+1680, U+2000..U+200A, U+2028, U+2029, U+202F,
    U+205F, U+3000 and U+FEFF. *)
Fixpoint trimStart (s : string) : string :=
  match s with
  | EmptyString => EmptyString
  | String c r =>
      if is_ascii_ws c then trimStart r
      else
        match r with
        | String c1 r1 =>
            if (code c =? 194) && (code c1 =? 160) then trimStart r1
            else
              match r1 with
              | String c2 r2 =>
                  let three a b d :=
                    (code c =? a) && (code c1 =? b) && (code c2 =? d) in
                  if three 225 154 128
                     || ((code c =? 226) && (code c1 =? 128)
                         && (128 <=? code c2) && (code c2 <=? 138))
                     || three 226 128 168 || three 226 128 169
                     || three 226 128 175 || three 226 129 159
                     || three 227 128 128 || three 239 187 191
                  then trimStart r2
                  else s
              | EmptyString => s
              end
        | EmptyString => s
        end
  end.

Definition all_ws (s : string) : bool :=
  match trimStart s with EmptyString => true | _ => false end.

Fixpoint trimEnd (s : string) : string :=
  match s with
  | EmptyString => EmptyString
  | String c r => if all_ws s then EmptyString else String c (trimEnd r)
  end.

Definition trim (s : string) : string := trimEnd (trimStart s).

(** ** digits *)

(** The value of a character as a digit of the given radix. *)
Definition digit_of (radix : Z) (c : ascii) : option Z :=
  let n := code c in
  let v :=
    if (48 <=? n) && (n <=? 57) then n - 48
    else if (97 <=? n) && (n <=? 122) then n - 87
    else if (65 <=? n) && (n <=? 90) then n - 55
    else radix in
  if v <? radix then Some v else None.

(** The longest prefix of digits: its value read on from [acc], the
    number of digits, and the rest of the string. *)
Fixpoint digits (radix : Z) (acc : Z) (s : string) : Z * Z * string :=
  match s with
  | EmptyString => (acc, 0, s)
  | String c r =>
      match digit_of radix c with
      | Some d => let '(v, n, rest) := digits radix (radix * acc + d) r in
                  (v, n + 1, rest)
      | None => (acc, 0, s)
      end
  end.

Definition startsWith (p s : string) : bool := String.prefix p s.

Definition drop (n : nat) (s : string) : string :=
  String.substring n ((String.length s - n)%nat) s.

(** ** values and conversions *)

(** The values an answer or an expected result can be: [undefined],
    [null], a string, or a number. *)
Inductive value :=
| undefined
| null
| Str (s : string)
| Num (x : number).

(** ExponentPart, optional: [e] or [E], an optional sign, at least one
    digit, and nothing after it. *)
Definition exponentPart (r : string) : option Z :=
  match r with
  | EmptyString => Some 0
  | String c r' =>
      if (code c =? 101) || (code c =? 69) then
        let '(neg, ds) :=
          match r' with
          | String "-"%char d => (true, d)
          | String "+"%char d => (false, d)
          | _ => (false, r')
          end in
        match digits 10 0 ds with
        | (v, n, EmptyString) =>
            if n =? 0 then None else Some (if neg then - v else v)
        | _ => None
        end
      else None
  end.

(** StrUnsignedDecimalLiteral: [Infinity], or digits with an optional
    fraction and exponent; at least one digit before or after the dot. *)
Definition strUnsignedDecimalLiteral (s : bool) (u : string)
  : option number :=
  if String.eqb u "Infinity" then Some (S754_infinity s)
  else
    let '(ip, n1, r1) := digits 10 0 u in
    match r1 with
    | String "."%char r2 =>
        let '(m, n2, r3) := digits 10 ip r2 in
        if n1 + n2 =? 0 then None
        else option_map (fun e => of_decimal s m (e - n2)) (exponentPart r3)
    | _ =>
        if n1 =? 0 then None
        else option_map (fun e => of_decimal s ip e) (exponentPart r1)
    end.

(** NonDecimalIntegerLiteral of the given radix, after its prefix. *)
Definition nonDecimalIntegerLiteral (radix : Z) (ds : string)
  : option number :=
  match digits radix 0 ds with
  | (v, n, EmptyString) => if n =? 0 then None else Some (of_Z v)
  | _ => None
  end.

Definition strNumericLiteral (t : string) : option number :=
  if startsWith "0x" t || startsWith "0X" t
  then nonDecimalIntegerLiteral 16 (drop 2 t)
  else if startsWith "0o" t || startsWith "0O" t
  then nonDecimalIntegerLiteral 8 (drop 2 t)
  else if startsWith "0b" t || startsWith "0B" t
  then nonDecimalIntegerLiteral 2 (drop 2 t)
  else
    match t with
    | String "-"%char u => strUnsignedDecimalLiteral true u
    | String "+"%char u => strUnsignedDecimalLiteral false u
    | _ => strUnsignedDecimalLiteral false t
    end.

(** StringToNumber: white space is trimmed, the empty string is [+0],
    a numeric literal is its rounded value, anything else is [NaN]. *)
Definition StringToNumber (s : string) : number :=
  match trim s with
  | EmptyString => pos_zero
  | t => match strNumericLiteral t with
         | Some x => x
         | None => NaN
         end
  end.

(** [Number(v)]. *)
Definition Number (v : value) : number :=
  match v with
  | undefined => NaN
  | null => pos_zero
  | Str s => StringToNumber s
  | Num x => x
  end.

(** The global [isNaN(v)]. *)
Definition isNaN (v : value) : bool := is_nan (Number v).

(** [parseInt(s)] with no radix: leading white space, a sign, an
    optional [0x], then the longest run of digits; [None] stands for
    [NaN].  The result is the mathematical integer read; the program
    only compares it with small constants and stores it when it lies
    between them, where it is exactly a Number. *)
Definition parseInt (s : string) : option Z :=
  let t := trimStart s in
  let '(neg, u) :=
    match t with
    | String "-"%char u => (true, u)
    | String "+"%char u => (false, u)
    | _ => (false, t)
    end in
  let '(radix, ds) :=
    if startsWith "0x" u || startsWith "0X" u then (16, drop 2 u)
    else (10, u) in
  let '(v, n, _) := digits radix 0 ds in
  if n =? 0 then None else Some (if neg then - v else v).

(** The decimal digits of an integer, with its sign. *)
Definition toString (z : Z) : string := NilZero.string_of_int (Z.to_int z).

(** [Math.max] and [Math.min] where the program uses them. *)
Definition Math_max (a b : Z) : Z := Z.max a b.
Definition Math_min (a b : Z) : Z := Z.min a b.

(** ** Number::toString *)

(** [k] copies of the digit 0. *)
Fixpoint zero_digits (k : nat) : string :=
  match k with O => "" | S k => String "0" (zero_digits k) end.

(** Step 5 of Number::toString for a positive [x] of value [num / den]:
    the digits [s], their number [k], as small as possible, and the
    exponent [n] with [s * 10^(n-k)] read back as [x]; of the candidates
    of that length the closest to [x], the even one on a tie.  [n0] is the
    exponent of [x] itself, [10^(n0-1) <= x < 10^n0], and the search
    starts at [k] digits. *)
Fixpoint shortest (fuel : nat) (x : number) (num den n0 k : Z) : Z * Z * Z :=
  let '(a, b) := if 0 <=? k - n0 then (num * 10 ^ (k - n0), den)
                 else (num, den * 10 ^ (n0 - k)) in
  let lo := a / b in
  let hi := lo + 1 in
  let ok_lo := same (of_decimal false lo (n0 - k)) x in
  let ok_hi := same (of_decimal false hi (n0 - k)) x in
  let rem := a mod b in
  let pick :=
    if ok_lo && ok_hi then
      (if 2 * rem <? b then Some lo
       else if b <? 2 * rem then Some hi
       else Some (if Z.even lo then lo else hi))
    else if ok_lo then Some lo
    else if ok_hi then Some hi
    else None in
  match pick, fuel with
  | Some s, _ => if s =? 10 ^ k then (10 ^ (k - 1), k, n0 + 1) else (s, k, n0)
  | None, S fuel => shortest fuel x num den n0 (k + 1)
  | None, O => (lo, k, n0)
  end.

(** Number::toString(x) in radix 10, which a template literal applies to
    a Number. *)
Definition Number_toString (x : number) : string :=
  match x with
  | S754_nan => "NaN"
  | S754_zero _ => "0"
  | S754_infinity s => if s then "-Infinity" else "Infinity"
  | S754_finite sg m e =>
      let '(num, den) := if 0 <=? e then (Zpos m * 2 ^ e, 1)
                         else (Zpos m, 2 ^ (- e)) in
      let len z := Z.of_nat (String.length (toString z)) in
      let g := len num - len den in
      let n0 := if (if 0 <=? g then den * 10 ^ g <=? num
                    else den <=? num * 10 ^ (- g))
                then g + 1 else g in
      let '(s, k, n) := shortest 17 (S754_finite false m e) num den n0 1 in
      let ds := toString s in
      let body :=
        if (k <=? n) && (n <=? 21) then ds ++ zero_digits (Z.to_nat (n - k))
        else if (0 <? n) && (n <=? 21) then
          substring 0 (Z.to_nat n) ds ++ "."
          ++ substring (Z.to_nat n) (Z.to_nat (k - n)) ds
        else if (-6 <? n) && (n <=? 0) then
          "0." ++ zero_digits (Z.to_nat (- n)) ++ ds
        else
          let ex := n - 1 in
          let tail :=
            (if 0 <=? ex then "e+" else "e-") ++ toString (Z.abs ex) in
          if k =? 1 then ds ++ tail
          else substring 0 1 ds ++ "."
               ++ substring 1 (Z.to_nat (k - 1)) ds ++ tail in
      if sg then "-" ++ body else body
  end.

(** ** arrays and objects *)

(** [array[x]] for a Number [x]: the element at that index when [x] is a
    whole number that is not negative ([-0] is index 0), [undefined],
    here [None], otherwise. *)
Definition element {A : Type} (array : list A) (x : number) : option A :=
  let at_ (i : Z) :=
    if i <? Z.of_nat (List.length array)
    then nth_error array (Z.to_nat i) else None in
  match x with
  | S754_zero _ => at_ 0
  | S754_finite false m e =>
      if 0 <=? e then at_ (Zpos m * 2 ^ e)
      else
        let q := Z.shiftr (Zpos m) (- e) in
        if Z.shiftl q (- e) =? Zpos m then at_ q else None
  | _ => None
  end.

(** The names of the members every object inherits from
    [Object.prototype]. *)
Definition Object_prototype : list string :=
  ["constructor"; "hasOwnProperty"; "isPrototypeOf";
   "propertyIsEnumerable"; "toLocaleString"; "toString"; "valueOf";
   "__proto__"; "__defineGetter__"; "__defineSetter__";
   "__lookupGetter__"; "__lookupSetter__"].

(** What [object[key]] is for an object literal: its own member of that
    name; else the member of that name it inherits, which is a function
    or, under [__proto__], [Object.prototype] itself, and so truthy and
    without the members of the literal's values; else [undefined]. *)
Inductive property (A : Type) : Type :=
| own (a : A)
| inherited
| missing.
Arguments own {A} a.
Arguments inherited {A}.
Arguments missing {A}.

Definition get {A : Type} (object : list (string * A)) (key : string)
  : property A :=
  match find (fun member => String.eqb (fst member) key) object with
  | Some member => own (snd member)
  | None =>
      if existsb (String.eqb key) Object_prototype then inherited
      else missing
  end.

(** ** the random source *)

(** [Math.random()] hands out the values of a sequence one after the
    other.  A computation that draws is a state transformer over the
    source. *)
Record source := { draws : nat -> number; cursor : nat }.

Definition Rand (A : Type) : Type := source -> A * source.

Definition ret {A} (a : A) : Rand A := fun r => (a, r).

Definition bind {A B} (m : Rand A) (k : A -> Rand B) : Rand B :=
  fun r => let '(a, r') := m r in k a r'.

(** The source after one value has been taken. *)
Definition next (r : source) : source :=
  {| draws := draws r; cursor := S (cursor r) |}.

Definition Math_random : Rand number :=
  fun r => (draws r (cursor r), next r).

(** The contract of [Math.random()]: a Number of positive sign, at least
    [+0] and below 1. *)
Definition unit_interval (x : number) : bool :=
  match x with
  | S754_zero false => true
  | S754_finite false m e => bounded prec emax m e && lt x (of_Z 1)
  | _ => false
  end.

Definition in_unit_interval (r : source) : Prop :=
  forall i, unit_interval (draws r i) = true.

End JS.

Notation "x <- m ;; k" := (JS.bind m (fun x => k))
  (at level 61, m at next level, right associativity).

(* ================================================================== *)
(** * QuestionGenerator.js                                              *)
(* ================================================================== *)

(** A question as the generator returns it and the game state stores it;
    [answer] is [None] for the [null] of a state that has no question
    yet. *)
Module Question.
Import JS.
Record t := {
  text : string;
  answer : option number;
  operation : string
}.
End Question.

Module QuestionGenerator.
Import JS.

Record Range := { min : number; max : number }.

(** [this.difficultyRanges], the object literal of the constructor. *)
Definition difficultyRanges : list (string * Range) :=
  [("easy", {| min := of_Z 1; max := of_Z 10 |});
   ("medium", {| min := of_Z 1; max := of_Z 50 |});
   ("hard", {| min := of_Z 1; max := of_Z 100 |})].

Definition operations : list string :=
  ["addition"; "subtraction"; "multiplication"; "division"].

(** [operations[Math.floor(Math.random() * operations.length)]];
    [None] is the [undefined] of an index outside the array. *)
Definition _getRandomOperation : Rand (option string) :=
  r <- Math_random ;;
  ret (element operations
         (Math_floor (mul r (of_Z (Z.of_nat (List.length operations)))))).

(** [range.max] and [range.min] of what
    [this.difficultyRanges[difficulty] || this.difficultyRanges.medium]
    is: a range has them, an inherited member has not. *)
Definition member (field : Range -> number) (range : property Range)
  : value :=
  match range with
  | own range => Num (field range)
  | _ => undefined
  end.

Definition _getRandomNumber (difficulty : string) : Rand number :=
  let range :=
    match get difficultyRanges difficulty with
    | missing => get difficultyRanges "medium"
    | found => found
    end in
  r <- Math_random ;;
  ret (add (Math_floor
              (mul r (add (sub (Number (member max range))
                               (Number (member min range)))
                          (of_Z 1))))
           (Number (member min range))).

Definition _generateAddition (difficulty : string) : Rand Question.t :=
  a <- _getRandomNumber difficulty ;;
  b <- _getRandomNumber difficulty ;;
  ret {| Question.text := Number_toString a ++ " + " ++ Number_toString b;
         Question.answer := Some (add a b);
         Question.operation := "addition" |}.

Definition _generateSubtraction (difficulty : string) : Rand Question.t :=
  a <- _getRandomNumber difficulty ;;
  b <- _getRandomNumber difficulty ;;
  let '(a, b) := if lt a b then (b, a) else (a, b) in
  ret {| Question.text := Number_toString a ++ " - " ++ Number_toString b;
         Question.answer := Some (sub a b);
         Question.operation := "subtraction" |}.

(** [Math.floor(Math.random() * n) + k] *)
Definition draw (n k : Z) : Rand number :=
  r <- Math_random ;;
  ret (add (Math_floor (mul r (of_Z n))) (of_Z k)).

Definition _generateMultiplication (difficulty : string) : Rand Question.t :=
  ab <- (if String.eqb difficulty "easy" then
           a <- draw 10 1 ;; b <- draw 10 1 ;; ret (a, b)
         else if String.eqb difficulty "medium" then
           a <- draw 12 1 ;; b <- draw 10 1 ;; ret (a, b)
         else
           a <- draw 20 1 ;; b <- draw 20 1 ;; ret (a, b)) ;;
  let '(a, b) := ab in
  ret {| Question.text := Number_toString a ++ " × " ++ Number_toString b;
         Question.answer := Some (mul a b);
         Question.operation := "multiplication" |}.

Definition _generateDivision (difficulty : string) : Rand Question.t :=
  dq <- (if String.eqb difficulty "easy" then
           divisor <- draw 9 2 ;; quotient <- draw 10 1 ;;
           ret (divisor, quotient)
         else if String.eqb difficulty "medium" then
           divisor <- draw 9 2 ;; quotient <- draw 20 1 ;;
           ret (divisor, quotient)
         else
           divisor <- draw 12 2 ;; quotient <- draw 30 1 ;;
           ret (divisor, quotient)) ;;
  let '(divisor, quotient) := dq in
  let dividend := mul divisor quotient in
  ret {| Question.text :=
           Number_toString dividend ++ " ÷ " ++ Number_toString divisor;
         Question.answer := Some quotient;
         Question.operation := "division" |}.

(** Both arguments are given at the one call site, so the default of
    [difficulty] plays no part. *)
Definition generateQuestion (operation difficulty : string)
  : Rand Question.t :=
  selectedOp <- (if String.eqb operation "mixed"
                 then _getRandomOperation
                 else ret (Some operation)) ;;
  match selectedOp with
  | Some op =>
      if String.eqb op "addition" then _generateAddition difficulty
      else if String.eqb op "subtraction" then _generateSubtraction difficulty
      else if String.eqb op "multiplication"
      then _generateMultiplication difficulty
      else if String.eqb op "division" then _generateDivision difficulty
      else _generateAddition difficulty
  | None => _generateAddition difficulty
  end.

Definition symbols : list (string * string) :=
  [("addition", "+"); ("subtraction", "-"); ("multiplication", "×");
   ("division", "÷")].

(** [symbols[operation] || '+']: the symbol of one of the four
    operations, ['+'] for a name the object does not know, and for the
    name of an inherited member that member, which is no string, here
    [None]. *)
Definition getOperationSymbol (operation : string) : option string :=
  match get symbols operation with
  | own symbol => Some symbol
  | inherited => None
  | missing => Some "+"
  end.

(** [validateAnswer(userAnswer, correctAnswer)] *)
Definition validateAnswer (userAnswer correctAnswer : value) : bool :=
  match userAnswer with
  | Str EmptyString | null | undefined => false
  | _ =>
      let numericAnswer := Number userAnswer in
      if is_nan numericAnswer then false
      else lt (Math_abs (sub numericAnswer (Number correctAnswer)))
              (of_decimal false 1 (-2))
  end.

End QuestionGenerator.

(* ================================================================== *)
(** * GameState.js                                                      *)
(* ================================================================== *)

Record Scores := { player1 : Z; player2 : Z }.

Module GameState.
Import JS.

Inductive Status := idle | playing | paused | ended.

(** [teacherMode] is not among the keys [reset()] writes; it is [None]
    until [updateSettings] adds it. *)
Record Settings := {
  difficulty : string;
  operation : string;
  timerEnabled : bool;
  timerValue : Z;
  soundEnabled : bool;
  questionLimitEnabled : bool;
  questionLimit : Z;
  teacherMode : option bool
}.

(** The argument of [updateSettings]: an object carrying some of the
    keys. *)
Record SettingsPatch := {
  new_difficulty : option string;
  new_operation : option string;
  new_timerEnabled : option bool;
  new_timerValue : option Z;
  new_soundEnabled : option bool;
  new_questionLimitEnabled : option bool;
  new_questionLimit : option Z;
  new_teacherMode : option bool
}.

Record Stats := {
  totalQuestions : Z;
  correctAnswers : Z;
  wrongAnswers : Z;
  timeouts : Z
}.

Record t := {
  currentPlayer : Z;
  ropePosition : Z;
  scores : Scores;
  settings : Settings;
  gameStatus : Status;
  currentQuestion : Question.t;
  stats : Stats
}.

(** The three constants [reset()] stores on the object; nothing else
    assigns them. *)
Definition WIN_THRESHOLD : Z := 8.
Definition CORRECT_PULL_STRENGTH : Z := 2.
Definition WRONG_PULL_STRENGTH : Z := 1.

Definition defaultSettings : Settings :=
  {| difficulty := "medium";
     operation := "mixed";
     timerEnabled := true;
     timerValue := 20;
     soundEnabled := true;
     questionLimitEnabled := false;
     questionLimit := 40;
     teacherMode := None |}.

Definition reset (this : t) : t :=
  {| currentPlayer := 1;
     ropePosition := 0;
     scores := {| player1 := 0; player2 := 0 |};
     settings := defaultSettings;
     gameStatus := idle;
     currentQuestion := {| Question.text := ""; Question.answer := None;
                          Question.operation := "" |};
     stats := {| totalQuestions := 0; correctAnswers := 0;
                 wrongAnswers := 0; timeouts := 0 |} |}.

(** field updates *)
Definition set_currentPlayer (v : Z) (this : t) : t :=
  {| currentPlayer := v; ropePosition := ropePosition this;
     scores := scores this; settings := settings this;
     gameStatus := gameStatus this;
     currentQuestion := currentQuestion this; stats := stats this |}.
Definition set_ropePosition (v : Z) (this : t) : t :=
  {| currentPlayer := currentPlayer this; ropePosition := v;
     scores := scores this; settings := settings this;
     gameStatus := gameStatus this;
     currentQuestion := currentQuestion this; stats := stats this |}.
Definition set_scores (v : Scores) (this : t) : t :=
  {| currentPlayer := currentPlayer this;
     ropePosition := ropePosition this;
     scores := v; settings := settings this;
     gameStatus := gameStatus this;
     currentQuestion := currentQuestion this; stats := stats this |}.
Definition set_settings (v : Settings) (this : t) : t :=
  {| currentPlayer := currentPlayer this;
     ropePosition := ropePosition this;
     scores := scores this; settings := v;
     gameStatus := gameStatus this;
     currentQuestion := currentQuestion this; stats := stats this |}.
Definition set_gameStatus (v : Status) (this : t) : t :=
  {| currentPlayer := currentPlayer this;
     ropePosition := ropePosition this;
     scores := scores this; settings := settings this;
     gameStatus := v;
     currentQuestion := currentQuestion this; stats := stats this |}.
Definition set_stats (v : Stats) (this : t) : t :=
  {| currentPlayer := currentPlayer this;
     ropePosition := ropePosition this;
     scores := scores this; settings := settings this;
     gameStatus := gameStatus this;
     currentQuestion := currentQuestion this; stats := v |}.

Definition updateRopePosition (isCorrect : bool) (this : t) : t :=
  let direction := if currentPlayer this =? 1 then -1 else 1 in
  let strength :=
    if isCorrect then CORRECT_PULL_STRENGTH else WRONG_PULL_STRENGTH in
  let this :=
    if isCorrect
    then set_ropePosition (ropePosition this + direction * strength) this
    else set_ropePosition (ropePosition this - direction * strength) this in
  set_ropePosition (Math_max (-10) (Math_min 10 (ropePosition this))) this.

Definition switchPlayer (this : t) : t :=
  set_currentPlayer (if currentPlayer this =? 1 then 2 else 1) this.

Definition incrementScore (player : Z) (this : t) : t :=
  if player =? 1 then
    set_scores {| player1 := player1 (scores this) + 1;
                  player2 := player2 (scores this) |} this
  else if player =? 2 then
    set_scores {| player1 := player1 (scores this);
                  player2 := player2 (scores this) + 1 |} this
  else this.

Definition updateStats (isCorrect isTimeout : bool) (this : t) : t :=
  let st := stats this in
  let st := {| totalQuestions := totalQuestions st + 1;
               correctAnswers := correctAnswers st;
               wrongAnswers := wrongAnswers st;
               timeouts := timeouts st |} in
  let st :=
    if isTimeout then
      {| totalQuestions := totalQuestions st;
         correctAnswers := correctAnswers st;
         wrongAnswers := wrongAnswers st;
         timeouts := timeouts st + 1 |}
    else if isCorrect then
      {| totalQuestions := totalQuestions st;
         correctAnswers := correctAnswers st + 1;
         wrongAnswers := wrongAnswers st;
         timeouts := timeouts st |}
    else
      {| totalQuestions := totalQuestions st;
         correctAnswers := correctAnswers st;
         wrongAnswers := wrongAnswers st + 1;
         timeouts := timeouts st |} in
  set_stats st this.

(** ['player1'], ['player2'] or [null] *)
Definition checkWinCondition (this : t) : option string :=
  if ropePosition this <=? - WIN_THRESHOLD then Some "player1"
  else if ropePosition this >=? WIN_THRESHOLD then Some "player2"
  else None.

Definition or_else {A} (new : option A) (old : A) : A :=
  match new with Some v => v | None => old end.

(** [{ ...this.settings, ...newSettings }]: a key of the argument
    overrides, every other key stays. *)
Definition spread (old : Settings) (newSettings : SettingsPatch)
  : Settings :=
  {| difficulty := or_else (new_difficulty newSettings) (difficulty old);
     operation := or_else (new_operation newSettings) (operation old);
     timerEnabled :=
       or_else (new_timerEnabled newSettings) (timerEnabled old);
     timerValue := or_else (new_timerValue newSettings) (timerValue old);
     soundEnabled :=
       or_else (new_soundEnabled newSettings) (soundEnabled old);
     questionLimitEnabled :=
       or_else (new_questionLimitEnabled newSettings)
               (questionLimitEnabled old);
     questionLimit :=
       or_else (new_questionLimit newSettings) (questionLimit old);
     teacherMode :=
       match new_teacherMode newSettings with
       | Some v => Some v
       | None => teacherMode old
       end |}.

Definition updateSettings (newSettings : SettingsPatch) (this : t) : t :=
  set_settings (spread (settings this) newSettings) this.

Definition setCurrentQuestion (question : Question.t) (this : t) : t :=
  {| currentPlayer := currentPlayer this;
     ropePosition := ropePosition this;
     scores := scores this; settings := settings this;
     gameStatus := gameStatus this;
     currentQuestion := question; stats := stats this |}.

(** [new GameState()]: the constructor calls [reset()] on the fresh
    object, which assigns every field. *)
Definition new : t :=
  reset {| currentPlayer := 0; ropePosition := 0;
           scores := {| player1 := 0; player2 := 0 |};
           settings := defaultSettings; gameStatus := idle;
           currentQuestion := {| Question.text := "";
                                 Question.answer := None;
                                 Question.operation := "" |};
           stats := {| totalQuestions := 0; correctAnswers := 0;
                       wrongAnswers := 0; timeouts := 0 |} |}.

Definition start (this : t) : t := set_gameStatus playing this.
Definition pause (this : t) : t := set_gameStatus paused this.
Definition resume (this : t) : t := set_gameStatus playing this.
Definition end_ (this : t) : t := set_gameStatus ended this.

End GameState.

(* ================================================================== *)
(** * ScoreManager.js and SoundManager.js                               *)
(* ================================================================== *)

Module ScoreManager.

Record t := { scores : Scores }.

Definition new : t := {| scores := {| player1 := 0; player2 := 0 |} |}.

Definition updateScore (player points : Z) (this : t) : t :=
  if player =? 1 then
    {| scores := {| player1 := player1 (scores this) + points;
                    player2 := player2 (scores this) |} |}
  else if player =? 2 then
    {| scores := {| player1 := player1 (scores this);
                    player2 := player2 (scores this) + points |} |}
  else this.

Definition getScores (this : t) : Scores := scores this.

(** ['player1'], ['player2'] or ['tie'] *)
Definition determineWinner (this : t) : string :=
  if player1 (scores this) >? player2 (scores this) then "player1"
  else if player2 (scores this) >? player1 (scores this) then "player2"
  else "tie".

Definition reset (this : t) : t :=
  {| scores := {| player1 := 0; player2 := 0 |} |}.

(** [player === 1 ? this.scores.player1 : this.scores.player2] *)
Definition getPlayerScore (player : Z) (this : t) : Z :=
  if player =? 1 then player1 (scores this) else player2 (scores this).

Definition formatScoreDisplay (this : t) : string :=
  JS.toString (player1 (scores this)) ++ " - "
  ++ JS.toString (player2 (scores this)).

Definition getScoreDifference (this : t) : Z :=
  Z.abs (player1 (scores this) - player2 (scores this)).

End ScoreManager.

Module SoundManager.

Record t := { enabled : bool }.

Definition new : t := {| enabled := true |}.

Definition toggleSound (this : t) : bool * t :=
  (negb (enabled this), {| enabled := negb (enabled this) |}).

Definition isEnabled (this : t) : bool := enabled this.

End SoundManager.

(* ================================================================== *)
(** * index.js: the controller                                          *)
(* ================================================================== *)

Module MathTugOfWar.
Import JS.

(** What the controller asks of the presentation layer, in the order of
    the calls (the log keeps the latest call first).  A sound is logged
    when the SoundManager is enabled, which is when it plays.  Output to
    the console is left out. *)
Inductive Effect :=
| updateQuestion (questionText : string)
| updateCurrentPlayer (player : Z)
| showFeedback (isCorrect : bool) (correctAnswer : option JS.number)
               (userAnswer : string)
| displayScore (scores : Scores)
| updateTimer (seconds : Z)
| showWinOverlay (winner : string) (scores : Scores)
| hideWinOverlay
| updateSoundToggle (enabled : bool)
| showTeacherMode (teacherMode : bool)
| animateTo (newPosition : Z)
| play (soundName : string)
| questionDisplayText (textContent : string)
| pauseBtnText (textContent : string)
| settingsPanelToggle
| settingsPanelHide.

(** The properties of the page's elements that the controller reads
    back or that decide whether a user event reaches it. *)
Record Elements := {
  answerInput_value : string;
  answerInput_disabled : bool;
  submitBtn_disabled : bool;
  startBtn_disabled : bool;
  pauseBtn_disabled : bool;
  difficultySelect_disabled : bool;
  operationSelect_disabled : bool;
  timerToggle_disabled : bool;
  timerValueInput_disabled : bool;
  questionLimitToggle_disabled : bool;
  questionLimitInput_disabled : bool
}.

(** [timerInterval] is [true] while an interval is set;
    [nextQuestionTimeouts] counts the callbacks [processAnswer] has
    scheduled with [setTimeout] that have not run yet. *)
Record t := {
  gameState : GameState.t;
  scoreManager : ScoreManager.t;
  soundManager : SoundManager.t;
  timerInterval : bool;
  timeRemaining : Z;
  nextQuestionTimeouts : nat;
  elements : Elements;
  random : source;
  log : list Effect
}.

(** field updates *)
Definition set_gameState (v : GameState.t) (this : t) : t :=
  {| gameState := v; scoreManager := scoreManager this;
     soundManager := soundManager this;
     timerInterval := timerInterval this;
     timeRemaining := timeRemaining this;
     nextQuestionTimeouts := nextQuestionTimeouts this;
     elements := elements this; random := random this;
     log := log this |}.
Definition set_scoreManager (v : ScoreManager.t) (this : t) : t :=
  {| gameState := gameState this; scoreManager := v;
     soundManager := soundManager this;
     timerInterval := timerInterval this;
     timeRemaining := timeRemaining this;
     nextQuestionTimeouts := nextQuestionTimeouts this;
     elements := elements this; random := random this;
     log := log this |}.
Definition set_soundManager (v : SoundManager.t) (this : t) : t :=
  {| gameState := gameState this; scoreManager := scoreManager this;
     soundManager := v;
     timerInterval := timerInterval this;
     timeRemaining := timeRemaining this;
     nextQuestionTimeouts := nextQuestionTimeouts this;
     elements := elements this; random := random this;
     log := log this |}.
Definition set_timerInterval (v : bool) (this : t) : t :=
  {| gameState := gameState this; scoreManager := scoreManager this;
     soundManager := soundManager this;
     timerInterval := v;
     timeRemaining := timeRemaining this;
     nextQuestionTimeouts := nextQuestionTimeouts this;
     elements := elements this; random := random this;
     log := log this |}.
Definition set_timeRemaining (v : Z) (this : t) : t :=
  {| gameState := gameState this; scoreManager := scoreManager this;
     soundManager := soundManager this;
     timerInterval := timerInterval this;
     timeRemaining := v;
     nextQuestionTimeouts := nextQuestionTimeouts this;
     elements := elements this; random := random this;
     log := log this |}.
Definition set_nextQuestionTimeouts (v : nat) (this : t) : t :=
  {| gameState := gameState this; scoreManager := scoreManager this;
     soundManager := soundManager this;
     timerInterval := timerInterval this;
     timeRemaining := timeRemaining this;
     nextQuestionTimeouts := v;
     elements := elements this; random := random this;
     log := log this |}.
Definition set_elements (v : Elements) (this : t) : t :=
  {| gameState := gameState this; scoreManager := scoreManager this;
     soundManager := soundManager this;
     timerInterval := timerInterval this;
     timeRemaining := timeRemaining this;
     nextQuestionTimeouts := nextQuestionTimeouts this;
     elements := v; random := random this;
     log := log this |}.
Definition set_random (v : source) (this : t) : t :=
  {| gameState := gameState this; scoreManager := scoreManager this;
     soundManager := soundManager this;
     timerInterval := timerInterval this;
     timeRemaining := timeRemaining this;
     nextQuestionTimeouts := nextQuestionTimeouts this;
     elements := elements this; random := v;
     log := log this |}.
Definition emit (e : Effect) (this : t) : t :=
  {| gameState := gameState this; scoreManager := scoreManager this;
     soundManager := soundManager this;
     timerInterval := timerInterval this;
     timeRemaining := timeRemaining this;
     nextQuestionTimeouts := nextQuestionTimeouts this;
     elements := elements this; random := random this;
     log := e :: log this |}.

(** ** the calls into UIController and SoundManager that write state *)

(** [uiController.clearInput()] *)
Definition clearInput (this : t) : t :=
  let el := elements this in
  set_elements
    {| answerInput_value := "";
       answerInput_disabled := answerInput_disabled el;
       submitBtn_disabled := submitBtn_disabled el;
       startBtn_disabled := startBtn_disabled el;
       pauseBtn_disabled := pauseBtn_disabled el;
       difficultySelect_disabled := difficultySelect_disabled el;
       operationSelect_disabled := operationSelect_disabled el;
       timerToggle_disabled := timerToggle_disabled el;
       timerValueInput_disabled := timerValueInput_disabled el;
       questionLimitToggle_disabled := questionLimitToggle_disabled el;
       questionLimitInput_disabled := questionLimitInput_disabled el |}
    this.

(** [uiController.setInputEnabled(enabled)] *)
Definition setInputEnabled (enabled : bool) (this : t) : t :=
  let el := elements this in
  set_elements
    {| answerInput_value := answerInput_value el;
       answerInput_disabled := negb enabled;
       submitBtn_disabled := negb enabled;
       startBtn_disabled := startBtn_disabled el;
       pauseBtn_disabled := pauseBtn_disabled el;
       difficultySelect_disabled := difficultySelect_disabled el;
       operationSelect_disabled := operationSelect_disabled el;
       timerToggle_disabled := timerToggle_disabled el;
       timerValueInput_disabled := timerValueInput_disabled el;
       questionLimitToggle_disabled := questionLimitToggle_disabled el;
       questionLimitInput_disabled := questionLimitInput_disabled el |}
    this.

(** The user typing into the answer field. *)
Definition setAnswerInputValue (value : string) (this : t) : t :=
  let el := elements this in
  set_elements
    {| answerInput_value := value;
       answerInput_disabled := answerInput_disabled el;
       submitBtn_disabled := submitBtn_disabled el;
       startBtn_disabled := startBtn_disabled el;
       pauseBtn_disabled := pauseBtn_disabled el;
       difficultySelect_disabled := difficultySelect_disabled el;
       operationSelect_disabled := operationSelect_disabled el;
       timerToggle_disabled := timerToggle_disabled el;
       timerValueInput_disabled := timerValueInput_disabled el;
       questionLimitToggle_disabled := questionLimitToggle_disabled el;
       questionLimitInput_disabled := questionLimitInput_disabled el |}
    this.

(** [startBtn.disabled = start; pauseBtn.disabled = pause] *)
Definition setButtonsDisabled (start pause : bool) (this : t) : t :=
  let el := elements this in
  set_elements
    {| answerInput_value := answerInput_value el;
       answerInput_disabled := answerInput_disabled el;
       submitBtn_disabled := submitBtn_disabled el;
       startBtn_disabled := start;
       pauseBtn_disabled := pause;
       difficultySelect_disabled := difficultySelect_disabled el;
       operationSelect_disabled := operationSelect_disabled el;
       timerToggle_disabled := timerToggle_disabled el;
       timerValueInput_disabled := timerValueInput_disabled el;
       questionLimitToggle_disabled := questionLimitToggle_disabled el;
       questionLimitInput_disabled := questionLimitInput_disabled el |}
    this.

(** [soundManager.playCorrect()] and its siblings: [_play] returns at
    once when sound is off. *)
Definition playSound (soundName : string) (this : t) : t :=
  if SoundManager.enabled (soundManager this)
  then emit (play soundName) this
  else this.

(** ** the methods of [MathTugOfWar] *)

(** The elements listed are the four of [settingsElements]; the two
    question-limit controls are not among them. *)
Definition _setSettingsEnabled (enabled : bool) (this : t) : t :=
  let el := elements this in
  set_elements
    {| answerInput_value := answerInput_value el;
       answerInput_disabled := answerInput_disabled el;
       submitBtn_disabled := submitBtn_disabled el;
       startBtn_disabled := startBtn_disabled el;
       pauseBtn_disabled := pauseBtn_disabled el;
       difficultySelect_disabled := negb enabled;
       operationSelect_disabled := negb enabled;
       timerToggle_disabled := negb enabled;
       timerValueInput_disabled := negb enabled;
       questionLimitToggle_disabled := questionLimitToggle_disabled el;
       questionLimitInput_disabled := questionLimitInput_disabled el |}
    this.

Definition stopTimer (this : t) : t :=
  if timerInterval this then set_timerInterval false this else this.

Definition startTimer (this : t) : t :=
  let this := stopTimer this in
  let this :=
    set_timeRemaining
      (GameState.timerValue (GameState.settings (gameState this))) this in
  let this := emit (updateTimer (timeRemaining this)) this in
  set_timerInterval true this.

Definition nextQuestion (this : t) : t :=
  let '(question, rnd) :=
    QuestionGenerator.generateQuestion
      (GameState.operation (GameState.settings (gameState this)))
      (GameState.difficulty (GameState.settings (gameState this)))
      (random this) in
  let this := set_random rnd this in
  let this :=
    set_gameState (GameState.setCurrentQuestion question (gameState this))
                  this in
  let this := emit (updateQuestion (Question.text question ++ " = ?")) this in
  let this := clearInput this in
  let this :=
    emit (updateCurrentPlayer (GameState.currentPlayer (gameState this)))
         this in
  if GameState.timerEnabled (GameState.settings (gameState this))
  then startTimer this
  else this.

Definition startGame (this : t) : t :=
  let this := _setSettingsEnabled false this in
  let this := emit settingsPanelHide this in
  let this := set_gameState (GameState.start (gameState this)) this in
  let this := nextQuestion this in
  let this := setInputEnabled true this in
  setButtonsDisabled true false this.

Definition handleWin (winner : string) (this : t) : t :=
  let this := set_gameState (GameState.end_ (gameState this)) this in
  let this := stopTimer this in
  let this := setInputEnabled false this in
  let this := playSound "win" this in
  emit (showWinOverlay winner (ScoreManager.getScores (scoreManager this)))
       this.

Definition processAnswer (isCorrect : bool) (userAnswer : string)
           (this : t) : t :=
  let this :=
    set_gameState (GameState.updateStats isCorrect false (gameState this))
                  this in
  let this :=
    if isCorrect then
      let this :=
        set_scoreManager
          (ScoreManager.updateScore
             (GameState.currentPlayer (gameState this)) 1
             (scoreManager this)) this in
      playSound "correct" this
    else playSound "wrong" this in
  let this :=
    emit (showFeedback isCorrect
            (Question.answer (GameState.currentQuestion (gameState this)))
            userAnswer) this in
  let this :=
    emit (displayScore (ScoreManager.getScores (scoreManager this))) this in
  let this :=
    set_gameState (GameState.updateRopePosition isCorrect (gameState this))
                  this in
  let newPosition := GameState.ropePosition (gameState this) in
  let this := emit (animateTo newPosition) this in
  match GameState.checkWinCondition (gameState this) with
  | Some winner => handleWin winner this
  | None =>
      let continue (this : t) : t :=
        let this :=
          set_gameState (GameState.switchPlayer (gameState this)) this in
        set_nextQuestionTimeouts (S (nextQuestionTimeouts this)) this in
      if GameState.questionLimitEnabled (GameState.settings (gameState this))
      then
        if GameState.totalQuestions (GameState.stats (gameState this))
           >=? GameState.questionLimit (GameState.settings (gameState this))
        then
          let scoreWinner :=
            ScoreManager.determineWinner (scoreManager this) in
          if String.eqb scoreWinner "tie"
          then continue this
          else handleWin scoreWinner this
        else continue this
      else continue this
  end.

(** The callback [processAnswer] schedules for two seconds later. *)
Definition nextQuestionCallback (this : t) : t :=
  match GameState.gameStatus (gameState this) with
  | GameState.playing => nextQuestion this
  | _ => this
  end.

(** [currentQuestion.answer] as the value handed to [validateAnswer]. *)
Definition answerValue (a : option number) : value :=
  match a with
  | Some x => Num x
  | None => null
  end.

Definition handleSubmit (this : t) : t :=
  match GameState.gameStatus (gameState this) with
  | GameState.playing =>
      let this := stopTimer this in
      let userAnswer := answerInput_value (elements this) in
      let isCorrect :=
        QuestionGenerator.validateAnswer
          (Str userAnswer)
          (answerValue
             (Question.answer (GameState.currentQuestion (gameState this))))
      in
      processAnswer isCorrect userAnswer this
  | _ => this
  end.

Definition handleKeyPress (key : string) (this : t) : t :=
  if String.eqb key "Enter" then handleSubmit this else this.

Definition handleTimeout (this : t) : t :=
  let this := stopTimer this in
  let this :=
    set_gameState (GameState.updateStats false true (gameState this)) this in
  processAnswer false "(timeout)" this.

(** The callback of the interval [startTimer] sets, run once a
    second. *)
Definition timerCallback (this : t) : t :=
  let this := set_timeRemaining (timeRemaining this - 1) this in
  let this := emit (updateTimer (timeRemaining this)) this in
  if timeRemaining this <=? 0 then handleTimeout this else this.

Definition togglePause (this : t) : t :=
  match GameState.gameStatus (gameState this) with
  | GameState.playing =>
      let this := set_gameState (GameState.pause (gameState this)) this in
      let this := stopTimer this in
      let this := setInputEnabled false this in
      emit (pauseBtnText "Resume") this
  | GameState.paused =>
      let this := set_gameState (GameState.resume (gameState this)) this in
      let this := setInputEnabled true this in
      let this :=
        if GameState.timerEnabled (GameState.settings (gameState this))
        then startTimer this
        else this in
      emit (pauseBtnText "Pause") this
  | _ => this
  end.

Definition resetGame (this : t) : t :=
  let this := stopTimer this in
  let this := set_gameState (GameState.reset (gameState this)) this in
  let this :=
    set_scoreManager (ScoreManager.reset (scoreManager this)) this in
  let this := emit (animateTo 0) this in
  let this :=
    emit (displayScore (ScoreManager.getScores (scoreManager this))) this in
  let this := emit (updateCurrentPlayer 1) this in
  let this := clearInput this in
  let this := setInputEnabled false this in
  let this := emit hideWinOverlay this in
  let this := emit (questionDisplayText "Press Start to Begin!") this in
  let this := _setSettingsEnabled true this in
  let this := setButtonsDisabled false true this in
  emit (pauseBtnText "Pause") this.

Definition toggleSound (this : t) : t :=
  let '(enabled, sm) := SoundManager.toggleSound (soundManager this) in
  let this := set_soundManager sm this in
  let this := emit (updateSoundToggle enabled) this in
  set_gameState
    (GameState.updateSettings
       {| GameState.new_difficulty := None;
          GameState.new_operation := None;
          GameState.new_timerEnabled := None;
          GameState.new_timerValue := None;
          GameState.new_soundEnabled := Some enabled;
          GameState.new_questionLimitEnabled := None;
          GameState.new_questionLimit := None;
          GameState.new_teacherMode := None |}
       (gameState this)) this.

Definition toggleTeacherMode (this : t) : t :=
  let teacherMode :=
    match GameState.teacherMode (GameState.settings (gameState this)) with
    | Some b => b
    | None => false
    end in
  let newMode := negb teacherMode in
  let this :=
    set_gameState
      (GameState.updateSettings
         {| GameState.new_difficulty := None;
            GameState.new_operation := None;
            GameState.new_timerEnabled := None;
            GameState.new_timerValue := None;
            GameState.new_soundEnabled := None;
            GameState.new_questionLimitEnabled := None;
            GameState.new_questionLimit := None;
            GameState.new_teacherMode := Some newMode |}
         (gameState this)) this in
  emit (showTeacherMode newMode) this.

(** ** construction and [init()] *)

(** [new MathTugOfWar()] on a page whose elements are [page], with
    [rnd] the values [Math.random()] is going to return. *)
Definition new (page : Elements) (rnd : source) : t :=
  {| gameState := GameState.new;
     scoreManager := ScoreManager.new;
     soundManager := SoundManager.new;
     timerInterval := false;
     timeRemaining := 0;
     nextQuestionTimeouts := 0;
     elements := page;
     random := rnd;
     log := [] |}.

Definition _initializeUI (this : t) : t :=
  let this :=
    emit (displayScore (ScoreManager.getScores (scoreManager this))) this in
  let this := emit (updateCurrentPlayer 1) this in
  let this := setInputEnabled false this in
  emit (updateSoundToggle (SoundManager.isEnabled (soundManager this))) this.

Definition init (this : t) : t := _initializeUI this.

(** ** the listeners of [_setupEventListeners] and the two timers *)

Inductive Event :=
| submitClick
| answerKeypress (key : string)
| answerTyped (value : string)
| startClick
| pauseClick
| resetClick
| soundToggleClick
| teacherModeToggleClick
| playAgainClick
| difficultyChange (value : string)
| operationChange (value : string)
| timerToggleChange (checked : bool)
| timerValueChange (value : string)
| questionLimitToggleChange (checked : bool)
| questionLimitChange (value : string)
| settingsToggleClick
| closeSettingsClick
| timerFires
| nextQuestionTimeoutFires.

(** What the listener registered for the event does. *)
Definition listener (e : Event) (this : t) : t :=
  match e with
  | submitClick => handleSubmit this
  | answerKeypress key => handleKeyPress key this
  | answerTyped value => setAnswerInputValue value this
  | startClick => startGame this
  | pauseClick => togglePause this
  | resetClick => resetGame this
  | soundToggleClick => toggleSound this
  | teacherModeToggleClick => toggleTeacherMode this
  | playAgainClick =>
      let this := emit hideWinOverlay this in
      let this := resetGame this in
      startGame this
  | difficultyChange value =>
      set_gameState
        (GameState.updateSettings
           {| GameState.new_difficulty := Some value;
              GameState.new_operation := None;
              GameState.new_timerEnabled := None;
              GameState.new_timerValue := None;
              GameState.new_soundEnabled := None;
              GameState.new_questionLimitEnabled := None;
              GameState.new_questionLimit := None;
              GameState.new_teacherMode := None |}
           (gameState this)) this
  | operationChange value =>
      set_gameState
        (GameState.updateSettings
           {| GameState.new_difficulty := None;
              GameState.new_operation := Some value;
              GameState.new_timerEnabled := None;
              GameState.new_timerValue := None;
              GameState.new_soundEnabled := None;
              GameState.new_questionLimitEnabled := None;
              GameState.new_questionLimit := None;
              GameState.new_teacherMode := None |}
           (gameState this)) this
  | timerToggleChange checked =>
      set_gameState
        (GameState.updateSettings
           {| GameState.new_difficulty := None;
              GameState.new_operation := None;
              GameState.new_timerEnabled := Some checked;
              GameState.new_timerValue := None;
              GameState.new_soundEnabled := None;
              GameState.new_questionLimitEnabled := None;
              GameState.new_questionLimit := None;
              GameState.new_teacherMode := None |}
           (gameState this)) this
  | timerValueChange value =>
      match parseInt value with
      | Some value =>
          if (value >=? 5) && (value <=? 60) then
            set_gameState
              (GameState.updateSettings
                 {| GameState.new_difficulty := None;
                    GameState.new_operation := None;
                    GameState.new_timerEnabled := None;
                    GameState.new_timerValue := Some value;
                    GameState.new_soundEnabled := None;
                    GameState.new_questionLimitEnabled := None;
                    GameState.new_questionLimit := None;
                    GameState.new_teacherMode := None |}
                 (gameState this)) this
          else this
      | None => this
      end
  | questionLimitToggleChange checked =>
      set_gameState
        (GameState.updateSettings
           {| GameState.new_difficulty := None;
              GameState.new_operation := None;
              GameState.new_timerEnabled := None;
              GameState.new_timerValue := None;
              GameState.new_soundEnabled := None;
              GameState.new_questionLimitEnabled := Some checked;
              GameState.new_questionLimit := None;
              GameState.new_teacherMode := None |}
           (gameState this)) this
  | questionLimitChange value =>
      match parseInt value with
      | Some value =>
          if (value >=? 5) && (value <=? 100) then
            set_gameState
              (GameState.updateSettings
                 {| GameState.new_difficulty := None;
                    GameState.new_operation := None;
                    GameState.new_timerEnabled := None;
                    GameState.new_timerValue := None;
                    GameState.new_soundEnabled := None;
                    GameState.new_questionLimitEnabled := None;
                    GameState.new_questionLimit := Some value;
                    GameState.new_teacherMode := None |}
                 (gameState this)) this
          else this
      | None => this
      end
  | settingsToggleClick => emit settingsPanelToggle this
  | closeSettingsClick => emit settingsPanelToggle this
  | timerFires => timerCallback this
  | nextQuestionTimeoutFires =>
      nextQuestionCallback
        (set_nextQuestionTimeouts (Nat.pred (nextQuestionTimeouts this))
                                  this)
  end.

(** Whether the event can occur: a disabled control dispatches no user
    event, the interval fires only while it is set, and a timeout fires
    only if one is pending. *)
Definition occurs (e : Event) (this : t) : bool :=
  let el := elements this in
  match e with
  | submitClick => negb (submitBtn_disabled el)
  | answerKeypress _ | answerTyped _ => negb (answerInput_disabled el)
  | startClick => negb (startBtn_disabled el)
  | pauseClick => negb (pauseBtn_disabled el)
  | difficultyChange _ => negb (difficultySelect_disabled el)
  | operationChange _ => negb (operationSelect_disabled el)
  | timerToggleChange _ => negb (timerToggle_disabled el)
  | timerValueChange _ => negb (timerValueInput_disabled el)
  | questionLimitToggleChange _ => negb (questionLimitToggle_disabled el)
  | questionLimitChange _ => negb (questionLimitInput_disabled el)
  | timerFires => timerInterval this
  | nextQuestionTimeoutFires => (0 <? nextQuestionTimeouts this)%nat
  | resetClick | soundToggleClick | teacherModeToggleClick
  | playAgainClick | settingsToggleClick | closeSettingsClick => true
  end.

Definition step (this : t) (e : Event) : t :=
  if occurs e this then listener e this else this.

Definition run (this : t) (es : list Event) : t := fold_left step es this.

(** The states a game can be in: those some sequence of events leads to
    from a freshly initialised game. *)
Definition reachable (this : t) : Prop :=
  exists page rnd es, this = run (init (new page rnd)) es.

End MathTugOfWar.

(* ================================================================== *)
(** * Sequences of calls and sample states                              *)
(* ================================================================== *)

(** [updateRopePosition] called once for each element of [calls], in
    order, with the element as [isCorrect]. *)
Definition updateRopePosition_calls (calls : list bool) (g : GameState.t)
  : GameState.t :=
  fold_left (fun g isCorrect => GameState.updateRopePosition isCorrect g)
            calls g.

(** [updateStats] called once for each [(isCorrect, isTimeout)] of
    [calls], in order. *)
Definition updateStats_calls (calls : list (bool * bool)) (g : GameState.t)
  : GameState.t :=
  fold_left (fun g c => GameState.updateStats (fst c) (snd c) g) calls g.

(** A page with every control enabled and an empty answer field. *)
Definition plainPage : MathTugOfWar.Elements :=
  {| MathTugOfWar.answerInput_value := "";
     MathTugOfWar.answerInput_disabled := false;
     MathTugOfWar.submitBtn_disabled := false;
     MathTugOfWar.startBtn_disabled := false;
     MathTugOfWar.pauseBtn_disabled := false;
     MathTugOfWar.difficultySelect_disabled := false;
     MathTugOfWar.operationSelect_disabled := false;
     MathTugOfWar.timerToggle_disabled := false;
     MathTugOfWar.timerValueInput_disabled := false;
     MathTugOfWar.questionLimitToggle_disabled := false;
     MathTugOfWar.questionLimitInput_disabled := false |}.

(** A random source that always returns 0. *)
Definition zeros : JS.source :=
  {| JS.draws := fun _ => JS.pos_zero; JS.cursor := 0 |}.

(** A freshly loaded game. *)
Definition freshGame : MathTugOfWar.t :=
  MathTugOfWar.init (MathTugOfWar.new plainPage zeros).

(** The fifth question of a game limited to five questions: the four
    questions before it were answered correctly (the source of zeros makes
    every question "1 + 1"), so the score is 2-2, the rope is at the centre
    and it is player 1's turn. *)
Definition fifthQuestion : MathTugOfWar.t :=
  MathTugOfWar.run freshGame
    [MathTugOfWar.questionLimitToggleChange true;
     MathTugOfWar.questionLimitChange "5";
     MathTugOfWar.startClick;
     MathTugOfWar.answerTyped "2"; MathTugOfWar.submitClick;
     MathTugOfWar.nextQuestionTimeoutFires;
     MathTugOfWar.answerTyped "2"; MathTugOfWar.submitClick;
     MathTugOfWar.nextQuestionTimeoutFires;
     MathTugOfWar.answerTyped "2"; MathTugOfWar.submitClick;
     MathTugOfWar.nextQuestionTimeoutFires;
     MathTugOfWar.answerTyped "2"; MathTugOfWar.submitClick;
     MathTugOfWar.nextQuestionTimeoutFires].

(** A game whose countdown is one tick from running out. *)
Definition lastSecond : MathTugOfWar.t :=
  MathTugOfWar.run freshGame
    (MathTugOfWar.startClick :: repeat MathTugOfWar.timerFires 19).

(** A game that has just been started. *)
Definition playingGame : MathTugOfWar.t :=
  MathTugOfWar.run freshGame [MathTugOfWar.startClick].

(** A random source that runs through the Numbers 0/7, 1/7, ..., 6/7
    again and again. *)
Definition sevenths : JS.source :=
  {| JS.draws :=
       fun i => JS.div (JS.of_Z (Z.of_nat (i mod 7))) (JS.of_Z 7);
     JS.cursor := 0 |}.

(** The [disabled] properties of the four elements [_setSettingsEnabled]
    writes. *)
Definition settingsControls (c : MathTugOfWar.t) : bool * bool * bool * bool :=
  (MathTugOfWar.difficultySelect_disabled (MathTugOfWar.elements c),
   MathTugOfWar.operationSelect_disabled (MathTugOfWar.elements c),
   MathTugOfWar.timerToggle_disabled (MathTugOfWar.elements c),
   MathTugOfWar.timerValueInput_disabled (MathTugOfWar.elements c)).

(** The change events of those four elements. *)
Definition lockedControl (e : MathTugOfWar.Event) : bool :=
  match e with
  | MathTugOfWar.difficultyChange _ | MathTugOfWar.operationChange _
  | MathTugOfWar.timerToggleChange _ | MathTugOfWar.timerValueChange _ => true
  | _ => false
  end.

(** What holds of every state of a game: no countdown runs while the round
    is idle, and outside idle the four settings controls are disabled. *)
Definition round_invariant (c : MathTugOfWar.t) : Prop :=
  (GameState.gameStatus (MathTugOfWar.gameState c) = GameState.idle ->
   MathTugOfWar.timerInterval c = false)
  /\ (GameState.gameStatus (MathTugOfWar.gameState c) <> GameState.idle ->
      settingsControls c = (true, true, true, true)).

(** Two states that agree on what the invariant looks at. *)
Definition same_round (c c' : MathTugOfWar.t) : Prop :=
  GameState.gameStatus (MathTugOfWar.gameState c')
  = GameState.gameStatus (MathTugOfWar.gameState c)
  /\ MathTugOfWar.timerInterval c' = MathTugOfWar.timerInterval c
  /\ settingsControls c' = settingsControls c.

(** A setting whose value is a number read with [parseInt] is out of the
    range [[lo, hi]] when no integer was read or the integer is outside. *)
Definition out_of_range (lo hi : Z) (value : string) : Prop :=
  match JS.parseInt value with
  | Some v => v < lo \/ hi < v
  | None => True
  end.

(** The counters satisfy the accounting identity. *)
Definition balanced (s : GameState.Stats) : Prop :=
  GameState.totalQuestions s
  = GameState.correctAnswers s + GameState.wrongAnswers s
    + GameState.timeouts s.

(** The two invariants of the data model: the rope stays on the field and
    the counters add up. *)
Definition data_invariant (g : GameState.t) : Prop :=
  -10 <= GameState.ropePosition g <= 10 /\ balanced (GameState.stats g).

(** Two game states with the same rope position and counters. *)
Definition same_data (g g' : GameState.t) : Prop :=
  GameState.ropePosition g' = GameState.ropePosition g
  /\ GameState.stats g' = GameState.stats g.

(** What the operation named computes from two operands; division is the
    integer quotient. *)
Definition result_of (operation : string) (a b : Z) : Z :=
  if String.eqb operation "addition" then a + b
  else if String.eqb operation "subtraction" then a - b
  else if String.eqb operation "multiplication" then a * b
  else a / b.

(** The integers [0 .. n]. *)
Definition upto (n : nat) : list Z := map Z.of_nat (seq 0 (S n)).

(** Whether, for all integers [m] and [n] of [0 .. bound], the decimal text
    of [m] validates against the answer [n] exactly when [m = n]. *)
Definition integers_decided (bound : nat) : bool :=
  forallb
    (fun n =>
       forallb
         (fun m =>
            Bool.eqb
              (QuestionGenerator.validateAnswer
                 (JS.Str (JS.toString m))
                 (MathTugOfWar.answerValue (Some (JS.of_Z n))))
              (m =? n))
         (upto bound))
    (upto bound).

(** Whether sums, differences and comparisons of the whole numbers of
    [0 .. bound], computed on Numbers, come out as those of the
    integers. *)
Definition sums_exact (bound : nat) : bool :=
  forallb
    (fun a =>
       forallb
         (fun b =>
            JS.same (JS.add (JS.of_Z a) (JS.of_Z b)) (JS.of_Z (a + b))
            && JS.same (JS.sub (JS.of_Z a) (JS.of_Z b)) (JS.of_Z (a - b))
            && Bool.eqb (JS.lt (JS.of_Z a) (JS.of_Z b)) (a <? b))
         (upto bound))
    (upto bound).

(** The same for products. *)
Definition products_exact (bound : nat) : bool :=
  forallb
    (fun a =>
       forallb
         (fun b => JS.same (JS.mul (JS.of_Z a) (JS.of_Z b)) (JS.of_Z (a * b)))
         (upto bound))
    (upto bound).

(** Whether the whole numbers of [0 .. bound] are written with their
    decimal digits. *)
Definition texts_exact (bound : nat) : bool :=
  forallb
    (fun z => String.eqb (JS.Number_toString (JS.of_Z z)) (JS.toString z))
    (upto bound).

(** What [j] steps of [shr_1] leave of a mantissa [M]: the quotient by
    [2^j], with the round bit set only if the remainder is at least half
    of [2^j]. *)
Definition shifted (M j : Z) (r : shr_record) : Prop :=
  0 <= j /\ shr_m r = M / 2 ^ j
  /\ (shr_r r = true -> 2 ^ j <= 2 * (M mod 2 ^ j)).

Definition noScores : Scores := {| player1 := 0; player2 := 0 |}.

Definition noStats : GameState.Stats :=
  {| GameState.totalQuestions := 0; GameState.correctAnswers := 0;
     GameState.wrongAnswers := 0; GameState.timeouts := 0 |}.

Definition is_playing (s : GameState.Status) : bool :=
  match s with GameState.playing => true | _ => false end.

(** Everything in the state of the controller but the log. *)
Definition core (c : MathTugOfWar.t) :=
  (MathTugOfWar.gameState c, MathTugOfWar.scoreManager c,
   MathTugOfWar.soundManager c, MathTugOfWar.timerInterval c,
   MathTugOfWar.timeRemaining c, MathTugOfWar.nextQuestionTimeouts c,
   MathTugOfWar.elements c, MathTugOfWar.random c).

(** Whether the resolution of an answer ends the round: the rope has a
    winner, or the question limit is on and reached and the scores
    differ. *)
Definition round_over (g : GameState.t) (sm : ScoreManager.t) : bool :=
  match GameState.checkWinCondition g with
  | Some _ => true
  | None =>
      GameState.questionLimitEnabled (GameState.settings g)
      && (GameState.totalQuestions (GameState.stats g)
          >=? GameState.questionLimit (GameState.settings g))
      && negb (String.eqb (ScoreManager.determineWinner sm) "tie")
  end.

(** The winner the resolution announces when the round is over. *)
Definition announced (g : GameState.t) (sm : ScoreManager.t) : string :=
  match GameState.checkWinCondition g with
  | Some winner => winner
  | None => ScoreManager.determineWinner sm
  end.

(** The state [processAnswer] has built when it comes to its win check:
    statistics, score, feedback and rope are updated. *)
Definition beforeWinCheck (isCorrect : bool) (userAnswer : string)
           (this : MathTugOfWar.t) : MathTugOfWar.t :=
  let this :=
    MathTugOfWar.set_gameState
      (GameState.updateStats isCorrect false (MathTugOfWar.gameState this))
      this in
  let this :=
    if isCorrect then
      let this :=
        MathTugOfWar.set_scoreManager
          (ScoreManager.updateScore
             (GameState.currentPlayer (MathTugOfWar.gameState this)) 1
             (MathTugOfWar.scoreManager this)) this in
      MathTugOfWar.playSound "correct" this
    else MathTugOfWar.playSound "wrong" this in
  let this :=
    MathTugOfWar.emit
      (MathTugOfWar.showFeedback isCorrect
         (Question.answer
            (GameState.currentQuestion (MathTugOfWar.gameState this)))
         userAnswer) this in
  let this :=
    MathTugOfWar.emit
      (MathTugOfWar.displayScore
         (ScoreManager.getScores (MathTugOfWar.scoreManager this))) this in
  let this :=
    MathTugOfWar.set_gameState
      (GameState.updateRopePosition isCorrect (MathTugOfWar.gameState this))
      this in
  MathTugOfWar.emit
    (MathTugOfWar.animateTo
       (GameState.ropePosition (MathTugOfWar.gameState this))) this.

(** What holds of the state of every game, besides the invariants above:
    the player id, the scores, the counters, the bounded settings, the
    countdown, and how the status shows in the page. *)
Record game_invariant (c : MathTugOfWar.t) : Prop := {
  inv_player :
    GameState.currentPlayer (MathTugOfWar.gameState c) = 1
    \/ GameState.currentPlayer (MathTugOfWar.gameState c) = 2;
  inv_unused_scores :
    GameState.scores (MathTugOfWar.gameState c) = noScores;
  inv_scores :
    0 <= player1 (ScoreManager.scores (MathTugOfWar.scoreManager c))
    /\ 0 <= player2 (ScoreManager.scores (MathTugOfWar.scoreManager c))
    /\ player1 (ScoreManager.scores (MathTugOfWar.scoreManager c))
       + player2 (ScoreManager.scores (MathTugOfWar.scoreManager c))
       = GameState.correctAnswers
           (GameState.stats (MathTugOfWar.gameState c));
  inv_stats :
    0 <= GameState.correctAnswers (GameState.stats (MathTugOfWar.gameState c))
    /\ 0 <= GameState.timeouts (GameState.stats (MathTugOfWar.gameState c))
       <= GameState.wrongAnswers (GameState.stats (MathTugOfWar.gameState c));
  inv_settings :
    5 <= GameState.timerValue (GameState.settings (MathTugOfWar.gameState c))
      <= 60
    /\ 5 <= GameState.questionLimit
              (GameState.settings (MathTugOfWar.gameState c)) <= 100;
  inv_timer :
    MathTugOfWar.timerInterval c = true ->
    GameState.gameStatus (MathTugOfWar.gameState c) = GameState.playing
    /\ 1 <= MathTugOfWar.timeRemaining c
         <= GameState.timerValue
              (GameState.settings (MathTugOfWar.gameState c));
  inv_started :
    GameState.gameStatus (MathTugOfWar.gameState c) <> GameState.idle ->
    MathTugOfWar.startBtn_disabled (MathTugOfWar.elements c) = true
    /\ Question.answer (GameState.currentQuestion (MathTugOfWar.gameState c))
       <> None;
  inv_idle :
    GameState.gameStatus (MathTugOfWar.gameState c) = GameState.idle ->
    GameState.ropePosition (MathTugOfWar.gameState c) = 0
    /\ GameState.stats (MathTugOfWar.gameState c) = noStats
    /\ ScoreManager.scores (MathTugOfWar.scoreManager c) = noScores
    /\ GameState.currentPlayer (MathTugOfWar.gameState c) = 1;
  inv_input :
    MathTugOfWar.answerInput_disabled (MathTugOfWar.elements c)
    = negb (is_playing (GameState.gameStatus (MathTugOfWar.gameState c)))
    /\ MathTugOfWar.submitBtn_disabled (MathTugOfWar.elements c)
       = negb (is_playing (GameState.gameStatus (MathTugOfWar.gameState c)))
}.

Definition wonGame : MathTugOfWar.t :=
  MathTugOfWar.run fifthQuestion
    [MathTugOfWar.answerTyped "2"; MathTugOfWar.submitClick].

Definition ropeAtMinusSix : MathTugOfWar.t :=
  MathTugOfWar.run freshGame
    [MathTugOfWar.startClick;
     MathTugOfWar.answerTyped "2"; MathTugOfWar.submitClick;
     MathTugOfWar.nextQuestionTimeoutFires;
     MathTugOfWar.answerTyped "3"; MathTugOfWar.submitClick;
     MathTugOfWar.nextQuestionTimeoutFires;
     MathTugOfWar.answerTyped "2"; MathTugOfWar.submitClick;
     MathTugOfWar.nextQuestionTimeoutFires;
     MathTugOfWar.answerTyped "3"; MathTugOfWar.submitClick;
     MathTugOfWar.nextQuestionTimeoutFires].

Definition pausedGame : MathTugOfWar.t :=
  MathTugOfWar.run freshGame
    [MathTugOfWar.startClick; MathTugOfWar.timerFires;
     MathTugOfWar.timerFires; MathTugOfWar.pauseClick].

(** Two game states that differ at most in their settings. *)
Definition same_but_settings (g g' : GameState.t) : Prop :=
  GameState.currentPlayer g' = GameState.currentPlayer g
  /\ GameState.ropePosition g' = GameState.ropePosition g
  /\ GameState.scores g' = GameState.scores g
  /\ GameState.gameStatus g' = GameState.gameStatus g
  /\ GameState.currentQuestion g' = GameState.currentQuestion g
  /\ GameState.stats g' = GameState.stats g.

(** Case analysis on every test the goal branches on, innermost first. *)
Ltac split_cases :=
  repeat match goal with
         | |- context [match ?x with _ => _ end] =>
             lazymatch x with
             | context [match _ with _ => _ end] => fail
             | _ => destruct x eqn:?
             end
         end.

(* ================================================================== *)
(** * Properties of GameState                                           *)
(* ================================================================== *)

Section RopePosition.

Lemma updateRopePosition_in_range (isCorrect : bool) (g : GameState.t) :
  -10 <= GameState.ropePosition (GameState.updateRopePosition isCorrect g)
      <= 10.
Proof.
  unfold GameState.updateRopePosition, JS.Math_max, JS.Math_min.
  destruct isCorrect; cbn [GameState.ropePosition GameState.set_ropePosition];
    lia.
Qed.

Lemma updateRopePosition_calls_snoc calls isCorrect g :
  updateRopePosition_calls (calls ++ [isCorrect]) g
  = GameState.updateRopePosition isCorrect
      (updateRopePosition_calls calls g).
Proof. unfold updateRopePosition_calls. now rewrite fold_left_app. Qed.

(** C1. With [direction] the pull direction of the current player (-1
    for player 1, +1 for player 2), [updateRopePosition(isCorrect)] moves
    the rope by [direction * 2] when the answer is correct and by
    [- direction * 1] when it is not, and clamps the result to
    [[-10, 10]]; so the rope position lies in [[-10, 10]] after every
    sequence of such calls (after at least one call whatever the
    position was before, and after none if it was in range already). *)
Theorem updateRopePosition_moves_and_clamps :
  forall (g : GameState.t) (isCorrect : bool) (direction : Z),
    (GameState.currentPlayer g = 1 /\ direction = -1)
    \/ (GameState.currentPlayer g = 2 /\ direction = 1) ->
    GameState.ropePosition (GameState.updateRopePosition isCorrect g)
    = Z.max (-10)
        (Z.min 10
           (if isCorrect
            then GameState.ropePosition g + direction * 2
            else GameState.ropePosition g - direction * 1))
    /\ (forall calls : list bool,
           calls <> [] \/ -10 <= GameState.ropePosition g <= 10 ->
           -10 <= GameState.ropePosition (updateRopePosition_calls calls g)
               <= 10).
Proof.
  intros g isCorrect direction Hplayer. split.
  - unfold GameState.updateRopePosition, JS.Math_max, JS.Math_min,
      GameState.CORRECT_PULL_STRENGTH, GameState.WRONG_PULL_STRENGTH.
    destruct Hplayer as [[Hp Hd] | [Hp Hd]]; rewrite Hp, Hd;
      destruct isCorrect; reflexivity.
  - intros calls.
    induction calls as [| isCorrect' calls' _] using rev_ind.
    + intros [Hne | Hin]; [congruence | exact Hin].
    + intros _. rewrite updateRopePosition_calls_snoc.
      apply updateRopePosition_in_range.
Qed.

Lemma updateRopePosition_moves_and_clamps_witness :
  GameState.ropePosition (GameState.updateRopePosition true GameState.new)
  = Z.max (-10) (Z.min 10 (GameState.ropePosition GameState.new + -1 * 2))
  /\ (forall calls : list bool,
         calls <> []
         \/ -10 <= GameState.ropePosition GameState.new <= 10 ->
         -10 <= GameState.ropePosition
                  (updateRopePosition_calls calls GameState.new)
             <= 10).
Proof.
  apply (updateRopePosition_moves_and_clamps GameState.new true (-1)).
  left. split; reflexivity.
Defined.

End RopePosition.

Section WinCondition.

(** C2. [checkWinCondition()] answers player1 exactly when the rope
    position is at most -8, player2 exactly when it is at least 8, and
    nothing otherwise: -8 itself is a win for player 1 and -7 is not. *)
Theorem checkWinCondition_threshold :
  forall g : GameState.t,
    (GameState.checkWinCondition g = Some "player1"
     <-> GameState.ropePosition g <= -8)
    /\ (GameState.checkWinCondition g = Some "player2"
        <-> GameState.ropePosition g >= 8)
    /\ (GameState.checkWinCondition g = None
        <-> -8 < GameState.ropePosition g < 8)
    /\ GameState.checkWinCondition (GameState.set_ropePosition (-8) g)
       = Some "player1"
    /\ GameState.checkWinCondition (GameState.set_ropePosition (-7) g)
       = None.
Proof.
  intros g. unfold GameState.checkWinCondition, GameState.WIN_THRESHOLD.
  cbn [GameState.ropePosition GameState.set_ropePosition Z.opp].
  destruct (Z.leb_spec (GameState.ropePosition g) (-8));
    [| destruct (Z.geb_spec (GameState.ropePosition g) 8)];
    repeat split; intros; try discriminate; try reflexivity; try lia.
Qed.

End WinCondition.

Section Statistics.

Lemma updateStats_balanced isCorrect isTimeout g :
  balanced (GameState.stats g) ->
  balanced (GameState.stats (GameState.updateStats isCorrect isTimeout g)).
Proof.
  unfold balanced, GameState.updateStats.
  destruct isTimeout, isCorrect; cbn; lia.
Qed.

Lemma updateStats_calls_balanced calls :
  forall g, balanced (GameState.stats g) ->
            balanced (GameState.stats (updateStats_calls calls g)).
Proof.
  unfold updateStats_calls.
  induction calls as [| c calls IH]; intros g Hg; cbn [fold_left].
  - exact Hg.
  - apply IH, updateStats_balanced, Hg.
Qed.

(** C3. One [updateStats(isCorrect, isTimeout)] adds 1 to totalQuestions
    and 1 to exactly one other counter: timeouts when [isTimeout]
    (whatever [isCorrect] is), else correctAnswers when [isCorrect], else
    wrongAnswers.  Hence, from all-zero statistics, every sequence of
    calls leaves totalQuestions = correctAnswers + wrongAnswers +
    timeouts. *)
Theorem updateStats_accounting :
  forall (g : GameState.t) (isCorrect isTimeout : bool),
    let s := GameState.stats g in
    let s' := GameState.stats (GameState.updateStats isCorrect isTimeout g) in
    GameState.totalQuestions s' = GameState.totalQuestions s + 1
    /\ GameState.timeouts s'
       = GameState.timeouts s + (if isTimeout then 1 else 0)
    /\ GameState.correctAnswers s'
       = GameState.correctAnswers s
         + (if negb isTimeout && isCorrect then 1 else 0)
    /\ GameState.wrongAnswers s'
       = GameState.wrongAnswers s
         + (if negb isTimeout && negb isCorrect then 1 else 0)
    /\ (forall (calls : list (bool * bool)) (g0 : GameState.t),
           GameState.stats g0
           = {| GameState.totalQuestions := 0;
                GameState.correctAnswers := 0;
                GameState.wrongAnswers := 0;
                GameState.timeouts := 0 |} ->
           let sN := GameState.stats (updateStats_calls calls g0) in
           GameState.totalQuestions sN
           = GameState.correctAnswers sN + GameState.wrongAnswers sN
             + GameState.timeouts sN).
Proof.
  intros g isCorrect isTimeout s s'. subst s s'.
  repeat split.
  1-4: unfold GameState.updateStats; destruct isTimeout, isCorrect;
    cbn; lia.
  intros calls g0 Hzero sN. subst sN.
  apply updateStats_calls_balanced. unfold balanced. rewrite Hzero.
  reflexivity.
Qed.

End Statistics.

(* ================================================================== *)
(** * Properties of the controller                                      *)
(* ================================================================== *)

Section Resolution.
Import MathTugOfWar.

Lemma handleWin_gameState winner c :
  gameState (handleWin winner c) = GameState.end_ (gameState c).
Proof.
  unfold handleWin, playSound, stopTimer.
  destruct (timerInterval _); cbn;
    destruct (SoundManager.enabled _); reflexivity.
Qed.

Lemma handleWin_log winner c :
  hd_error (log (handleWin winner c))
  = Some (showWinOverlay winner (ScoreManager.scores (scoreManager c))).
Proof.
  unfold handleWin, playSound, stopTimer.
  destruct (timerInterval _); cbn;
    destruct (SoundManager.enabled _); reflexivity.
Qed.

Lemma handleWin_scoreManager winner c :
  scoreManager (handleWin winner c) = scoreManager c.
Proof.
  unfold handleWin, playSound, stopTimer.
  destruct (timerInterval _); cbn;
    destruct (SoundManager.enabled _); reflexivity.
Qed.

Lemma determineWinner_cases (sm : ScoreManager.t) :
  let score1 := player1 (ScoreManager.scores sm) in
  let score2 := player2 (ScoreManager.scores sm) in
  (score1 > score2 -> ScoreManager.determineWinner sm = "player1")
  /\ (score2 > score1 -> ScoreManager.determineWinner sm = "player2")
  /\ (score1 = score2 -> ScoreManager.determineWinner sm = "tie").
Proof.
  unfold ScoreManager.determineWinner. cbv zeta. rewrite !Z.gtb_ltb.
  destruct (Z.ltb_spec (player2 (ScoreManager.scores sm))
                       (player1 (ScoreManager.scores sm)));
    [| destruct (Z.ltb_spec (player1 (ScoreManager.scores sm))
                            (player2 (ScoreManager.scores sm)))];
    repeat split; intros; try reflexivity; lia.
Qed.

(** The statistics [processAnswer] leaves are those of its one
    [updateStats] call. *)
Lemma processAnswer_stats isCorrect userAnswer c :
  GameState.stats (gameState (processAnswer isCorrect userAnswer c))
  = GameState.stats (GameState.updateStats isCorrect false (gameState c)).
Proof.
  unfold processAnswer, playSound.
  split_cases; rewrite ?handleWin_gameState; reflexivity.
Qed.

(** C4. When the countdown runs out, the timed-out question is counted
    twice: [handleTimeout] records it with [updateStats(false, true)] and
    [processAnswer(false, '(timeout)')] records it again with
    [updateStats(false)], so totalQuestions grows by 2, timeouts by 1 and
    wrongAnswers by 1. *)
Theorem timeout_is_counted_twice :
  forall c : MathTugOfWar.t,
    GameState.gameStatus (gameState c) = GameState.playing ->
    timerInterval c = true ->
    timeRemaining c <= 1 ->
    let s := GameState.stats (gameState c) in
    let s' := GameState.stats (gameState (step c timerFires)) in
    step c timerFires
    = handleTimeout
        (emit (updateTimer (timeRemaining c - 1))
              (set_timeRemaining (timeRemaining c - 1) c))
    /\ GameState.stats (gameState (handleTimeout c))
       = GameState.stats
           (GameState.updateStats false false
              (GameState.updateStats false true (gameState c)))
    /\ GameState.totalQuestions s' = GameState.totalQuestions s + 2
    /\ GameState.timeouts s' = GameState.timeouts s + 1
    /\ GameState.wrongAnswers s' = GameState.wrongAnswers s + 1
    /\ GameState.correctAnswers s' = GameState.correctAnswers s.
Proof.
  intros c _ Htimer Hlast s s'.
  assert (Hstep : step c timerFires
                  = handleTimeout
                      (emit (updateTimer (timeRemaining c - 1))
                            (set_timeRemaining (timeRemaining c - 1) c))).
  { unfold step, occurs, listener, timerCallback. rewrite Htimer.
    cbn [timeRemaining set_timeRemaining emit].
    destruct (Z.leb_spec (timeRemaining c - 1) 0); [reflexivity | lia]. }
  assert (Hstats : forall d,
             GameState.stats (gameState (handleTimeout d))
             = GameState.stats
                 (GameState.updateStats false false
                    (GameState.updateStats false true (gameState d)))).
  { intros d. unfold handleTimeout. rewrite processAnswer_stats.
    unfold stopTimer. destruct (timerInterval d); reflexivity. }
  split; [exact Hstep |]. split; [apply Hstats |].
  subst s s'. rewrite Hstep, Hstats. cbn. lia.
Qed.

Lemma timeout_is_counted_twice_witness :
  let s := GameState.stats (gameState lastSecond) in
  let s' := GameState.stats (gameState (step lastSecond timerFires)) in
  step lastSecond timerFires
  = handleTimeout
      (emit (updateTimer (timeRemaining lastSecond - 1))
            (set_timeRemaining (timeRemaining lastSecond - 1) lastSecond))
  /\ GameState.stats (gameState (handleTimeout lastSecond))
     = GameState.stats
         (GameState.updateStats false false
            (GameState.updateStats false true (gameState lastSecond)))
  /\ GameState.totalQuestions s' = GameState.totalQuestions s + 2
  /\ GameState.timeouts s' = GameState.timeouts s + 1
  /\ GameState.wrongAnswers s' = GameState.wrongAnswers s + 1
  /\ GameState.correctAnswers s' = GameState.correctAnswers s.
Proof.
  apply (timeout_is_counted_twice lastSecond).
  - vm_compute; reflexivity.
  - vm_compute; reflexivity.
  - vm_compute; discriminate.
Defined.

(** C6. In [processAnswer], once the rope gives no winner, if the question
    limit is enabled and totalQuestions has reached it, the scores decide:
    the round ends with the higher-scoring player shown as the winner when
    the scores differ, and when they are equal the round stays in play:
    the player is switched and the next question is scheduled. *)
Theorem question_limit_decides_by_score :
  forall (c : MathTugOfWar.t) (isCorrect : bool) (userAnswer : string),
    let g1 :=
      GameState.updateRopePosition isCorrect
        (GameState.updateStats isCorrect false (gameState c)) in
    let sm1 :=
      if isCorrect
      then ScoreManager.updateScore
             (GameState.currentPlayer (gameState c)) 1 (scoreManager c)
      else scoreManager c in
    let score1 := player1 (ScoreManager.scores sm1) in
    let score2 := player2 (ScoreManager.scores sm1) in
    let c' := processAnswer isCorrect userAnswer c in
    GameState.gameStatus (gameState c) = GameState.playing ->
    GameState.checkWinCondition g1 = None ->
    GameState.questionLimitEnabled (GameState.settings g1) = true ->
    GameState.totalQuestions (GameState.stats g1)
    >= GameState.questionLimit (GameState.settings g1) ->
    scoreManager c' = sm1
    /\ (score1 > score2 ->
        GameState.gameStatus (gameState c') = GameState.ended
        /\ hd_error (log c')
           = Some (showWinOverlay "player1" (ScoreManager.scores sm1)))
    /\ (score2 > score1 ->
        GameState.gameStatus (gameState c') = GameState.ended
        /\ hd_error (log c')
           = Some (showWinOverlay "player2" (ScoreManager.scores sm1)))
    /\ (score1 = score2 ->
        GameState.gameStatus (gameState c') = GameState.playing
        /\ gameState c' = GameState.switchPlayer g1
        /\ nextQuestionTimeouts c' = S (nextQuestionTimeouts c)
        /\ step c' nextQuestionTimeoutFires
           = nextQuestion (set_nextQuestionTimeouts (nextQuestionTimeouts c) c')).
Proof.
  intros c isCorrect userAnswer g1 sm1 score1 score2 c'
         Hplaying Hrope Henabled Hlimit.
  assert (Hc' : c' = processAnswer isCorrect userAnswer c) by reflexivity.
  unfold processAnswer in Hc'.
  set (mid :=
         emit (animateTo (GameState.ropePosition g1))
           (set_gameState g1
              (emit (displayScore (ScoreManager.scores sm1))
                 (emit (showFeedback isCorrect
                          (Question.answer
                             (GameState.currentQuestion (gameState c)))
                          userAnswer)
                    (if isCorrect
                     then playSound "correct" (set_scoreManager sm1
                            (set_gameState
                               (GameState.updateStats isCorrect false
                                  (gameState c)) c))
                     else playSound "wrong"
                            (set_gameState
                               (GameState.updateStats isCorrect false
                                  (gameState c)) c)))))).
  assert (Hmid_g : gameState mid = g1) by reflexivity.
  assert (Hmid_sm : scoreManager mid = sm1).
  { subst mid sm1. unfold playSound.
    destruct isCorrect; cbn;
      destruct (SoundManager.enabled (soundManager c)); reflexivity. }
  assert (Hmid_n : nextQuestionTimeouts mid = nextQuestionTimeouts c).
  { subst mid. unfold playSound.
    destruct isCorrect; cbn;
      destruct (SoundManager.enabled (soundManager c)); reflexivity. }
  assert (Hstatus : GameState.gameStatus g1 = GameState.playing).
  { subst g1. unfold GameState.updateRopePosition, GameState.updateStats.
    destruct isCorrect; cbn; exact Hplaying. }
  assert (Hdecide :
            c' = if String.eqb (ScoreManager.determineWinner sm1) "tie"
                 then set_nextQuestionTimeouts (S (nextQuestionTimeouts mid))
                        (set_gameState (GameState.switchPlayer g1) mid)
                 else handleWin (ScoreManager.determineWinner sm1) mid).
  { rewrite Hc'. subst mid sm1 g1. unfold playSound.
    destruct isCorrect; cbn;
      destruct (SoundManager.enabled (soundManager c)); cbn;
      cbn in Hrope, Henabled, Hlimit;
      rewrite Hrope, Henabled;
      (destruct (Z.geb_spec
                   (GameState.totalQuestions (GameState.stats (gameState c)) + 1)
                   (GameState.questionLimit
                      (GameState.settings (gameState c))));
       [reflexivity | lia]). }
  clear Hc'. clearbody mid c'.
  destruct (determineWinner_cases sm1) as (Hfirst & Hsecond & Htie).
  fold score1 score2 in Hfirst, Hsecond, Htie.
  split.
  { destruct (Z.lt_trichotomy score1 score2) as [Hlt | [Heq | Hgt]].
    - rewrite Hsecond in Hdecide by lia. cbn in Hdecide.
      rewrite Hdecide, handleWin_scoreManager. exact Hmid_sm.
    - rewrite Htie in Hdecide by lia. cbn in Hdecide.
      rewrite Hdecide. exact Hmid_sm.
    - rewrite Hfirst in Hdecide by lia. cbn in Hdecide.
      rewrite Hdecide, handleWin_scoreManager. exact Hmid_sm. }
  split; [| split].
  - intros Hgt. rewrite Hfirst in Hdecide by lia. cbn in Hdecide.
    rewrite Hdecide, handleWin_gameState, handleWin_log.
    rewrite Hmid_g, Hmid_sm. split; reflexivity.
  - intros Hgt. rewrite Hsecond in Hdecide by lia. cbn in Hdecide.
    rewrite Hdecide, handleWin_gameState, handleWin_log.
    rewrite Hmid_g, Hmid_sm. split; reflexivity.
  - intros Heq. rewrite Htie in Hdecide by lia. cbn in Hdecide.
    rewrite Hmid_n in Hdecide.
    assert (Hg : gameState c' = GameState.switchPlayer g1)
      by (rewrite Hdecide; reflexivity).
    assert (Hn : nextQuestionTimeouts c' = S (nextQuestionTimeouts c))
      by (rewrite Hdecide; reflexivity).
    assert (Hst : GameState.gameStatus (gameState c') = GameState.playing)
      by (rewrite Hg; exact Hstatus).
    repeat split; try assumption.
    unfold step, occurs, listener, nextQuestionCallback. rewrite Hn.
    cbn [Nat.ltb Nat.leb Nat.pred gameState set_nextQuestionTimeouts].
    rewrite Hst. reflexivity.
Qed.

Lemma question_limit_decides_by_score_witness :
  player1 (ScoreManager.scores
             (ScoreManager.updateScore
                (GameState.currentPlayer (gameState fifthQuestion)) 1
                (scoreManager fifthQuestion)))
  > player2 (ScoreManager.scores
               (ScoreManager.updateScore
                  (GameState.currentPlayer (gameState fifthQuestion)) 1
                  (scoreManager fifthQuestion)))
  /\ GameState.gameStatus
       (gameState (processAnswer true "2" fifthQuestion)) = GameState.ended
  /\ hd_error (log (processAnswer true "2" fifthQuestion))
     = Some (showWinOverlay "player1"
               (ScoreManager.scores
                  (ScoreManager.updateScore
                     (GameState.currentPlayer (gameState fifthQuestion)) 1
                     (scoreManager fifthQuestion)))).
Proof.
  assert (Hlead :
            player1 (ScoreManager.scores
                       (ScoreManager.updateScore
                          (GameState.currentPlayer (gameState fifthQuestion)) 1
                          (scoreManager fifthQuestion)))
            > player2 (ScoreManager.scores
                         (ScoreManager.updateScore
                            (GameState.currentPlayer (gameState fifthQuestion))
                            1 (scoreManager fifthQuestion))))
    by (vm_compute; reflexivity).
  split; [exact Hlead |].
  refine (proj1 (proj2 (question_limit_decides_by_score
                          fifthQuestion true "2" _ _ _ _)) Hlead).
  - vm_compute; reflexivity.
  - vm_compute; reflexivity.
  - vm_compute; reflexivity.
  - vm_compute; discriminate.
Defined.

End Resolution.

Section Reset.
Import MathTugOfWar.

(** C10. [GameState.reset()] reinitialises the settings object along with
    everything else: after it, and so after [resetGame()], the settings are
    the built-in defaults whatever they were before, and any choice the
    user had made is gone. *)
Theorem reset_discards_settings :
  forall (g : GameState.t) (c : MathTugOfWar.t)
         (newSettings : GameState.SettingsPatch),
    GameState.reset g
    = {| GameState.currentPlayer := 1;
         GameState.ropePosition := 0;
         GameState.scores := {| player1 := 0; player2 := 0 |};
         GameState.settings :=
           {| GameState.difficulty := "medium";
              GameState.operation := "mixed";
              GameState.timerEnabled := true;
              GameState.timerValue := 20;
              GameState.soundEnabled := true;
              GameState.questionLimitEnabled := false;
              GameState.questionLimit := 40;
              GameState.teacherMode := None |};
         GameState.gameStatus := GameState.idle;
         GameState.currentQuestion :=
           {| Question.text := ""; Question.answer := None;
              Question.operation := "" |};
         GameState.stats :=
           {| GameState.totalQuestions := 0; GameState.correctAnswers := 0;
              GameState.wrongAnswers := 0; GameState.timeouts := 0 |} |}
    /\ gameState (resetGame c) = GameState.reset (gameState c)
    /\ GameState.settings
         (gameState
            (resetGame
               (set_gameState
                  (GameState.updateSettings newSettings (gameState c)) c)))
       = GameState.settings GameState.new.
Proof.
  intros g c newSettings. split; [reflexivity |].
  assert (H : forall d, gameState (resetGame d) = GameState.reset (gameState d)).
  { intros d. unfold resetGame, stopTimer.
    destruct (timerInterval d); reflexivity. }
  split; [apply H |]. rewrite H. reflexivity.
Qed.

End Reset.

(* ================================================================== *)
(** * Properties of QuestionGenerator                                   *)
(* ================================================================== *)

Section Validation.
Import JS QuestionGenerator.

(** C5. [validateAnswer] is false when the input is the empty string,
    [null] or [undefined], or when [Number] makes [NaN] of it; for every
    other input it is the outcome of [|parsed - expected| < 0.01], computed
    as the program computes it, in binary64 arithmetic.  So it is false for
    the empty string, [null] and "abc" whatever is expected, and against an
    expected 5 it is true for "5" and "5.001" and false for "5.02". *)
Theorem validateAnswer_tolerance :
  forall rawInput expected : value,
    (rawInput = Str "" \/ rawInput = null \/ rawInput = undefined
     \/ isNaN rawInput = true ->
     validateAnswer rawInput expected = false)
    /\ (rawInput <> Str "" /\ rawInput <> null /\ rawInput <> undefined
        /\ isNaN rawInput = false ->
        validateAnswer rawInput expected
        = lt (Math_abs (sub (Number rawInput) (Number expected)))
             (of_decimal false 1 (-2)))
    /\ validateAnswer (Str "") expected = false
    /\ validateAnswer null expected = false
    /\ validateAnswer (Str "abc") expected = false
    /\ validateAnswer (Str "5") (Num (of_Z 5)) = true
    /\ validateAnswer (Str "5.001") (Num (of_Z 5)) = true
    /\ validateAnswer (Str "5.02") (Num (of_Z 5)) = false.
Proof.
  intros rawInput expected.
  split; [| split].
  - intros [-> | [-> | [-> | Hnan]]]; try reflexivity.
    unfold validateAnswer. unfold isNaN in Hnan. rewrite Hnan.
    destruct rawInput as [| | [| ch rest] | x]; reflexivity.
  - intros (Hempty & Hnull & Hundef & Hnum).
    unfold validateAnswer. unfold isNaN in Hnum. rewrite Hnum.
    destruct rawInput as [| | [| ch rest] | x]; try congruence; reflexivity.
  - repeat split; vm_compute; reflexivity.
Qed.

(** At the edge of the tolerance the binary64 values decide: the numbers
    nearest to 5.01 and 4.99 differ from 5 by less than the number nearest
    to 0.01, so both are accepted; and a string of spaces is read as 0 by
    [Number], so it is accepted when 0 is expected. *)
Lemma validateAnswer_at_the_edge :
  validateAnswer (Str "5.01") (Num (of_Z 5)) = true
  /\ validateAnswer (Str "4.99") (Num (of_Z 5)) = true
  /\ validateAnswer (Str "   ") (Num (of_Z 0)) = true
  /\ validateAnswer (Str "   ") (Num (of_Z 5)) = false.
Proof. repeat split; vm_compute; reflexivity. Qed.

End Validation.

Section Numbers.
Import JS.

Lemma same_eq (x y : number) : same x y = true -> x = y.
Proof.
  destruct x as [s | s | | s m e], y as [t | t | | t n f];
    cbn [same]; try discriminate; intros H.
  - apply Bool.eqb_prop in H. congruence.
  - apply Bool.eqb_prop in H. congruence.
  - reflexivity.
  - apply andb_prop in H. destruct H as [H He].
    apply andb_prop in H. destruct H as [Hs Hm].
    apply Bool.eqb_prop in Hs. apply Pos.eqb_eq in Hm. apply Z.eqb_eq in He.
    congruence.
Qed.

Lemma In_upto (bound : nat) (z : Z) :
  0 <= z <= Z.of_nat bound -> In z (upto bound).
Proof.
  intros Hz. unfold upto. apply in_map_iff.
  exists (Z.to_nat z). split; [lia |]. apply in_seq. lia.
Qed.

Lemma sums_exact_spec (bound : nat) :
  sums_exact bound = true ->
  forall a b : Z,
    0 <= a <= Z.of_nat bound -> 0 <= b <= Z.of_nat bound ->
    add (of_Z a) (of_Z b) = of_Z (a + b)
    /\ sub (of_Z a) (of_Z b) = of_Z (a - b)
    /\ lt (of_Z a) (of_Z b) = (a <? b).
Proof.
  unfold sums_exact. intros H a b Ha Hb.
  rewrite forallb_forall in H.
  specialize (H a (In_upto bound a Ha)). cbv beta in H.
  rewrite forallb_forall in H.
  specialize (H b (In_upto bound b Hb)). cbv beta in H.
  apply andb_prop in H. destruct H as [H Hlt].
  apply andb_prop in H. destruct H as [Hadd Hsub].
  split; [apply same_eq, Hadd | split; [apply same_eq, Hsub |]].
  apply Bool.eqb_prop, Hlt.
Qed.

Lemma products_exact_spec (bound : nat) :
  products_exact bound = true ->
  forall a b : Z,
    0 <= a <= Z.of_nat bound -> 0 <= b <= Z.of_nat bound ->
    mul (of_Z a) (of_Z b) = of_Z (a * b).
Proof.
  unfold products_exact. intros H a b Ha Hb.
  rewrite forallb_forall in H.
  specialize (H a (In_upto bound a Ha)). cbv beta in H.
  rewrite forallb_forall in H.
  specialize (H b (In_upto bound b Hb)). cbv beta in H.
  apply same_eq, H.
Qed.

Lemma texts_exact_spec (bound : nat) :
  texts_exact bound = true ->
  forall z : Z,
    0 <= z <= Z.of_nat bound -> Number_toString (of_Z z) = toString z.
Proof.
  unfold texts_exact. intros H z Hz.
  rewrite forallb_forall in H.
  specialize (H z (In_upto bound z Hz)). cbv beta in H.
  apply String.eqb_eq, H.
Qed.

Lemma sums_exact_100 : sums_exact 100 = true.
Proof. vm_compute. reflexivity. Qed.

Lemma products_exact_30 : products_exact 30 = true.
Proof. vm_compute. reflexivity. Qed.

Lemma texts_exact_400 : texts_exact 400 = true.
Proof. vm_compute. reflexivity. Qed.

(** On the whole numbers of 0 .. 100 the arithmetic of Numbers is that of
    the integers. *)
Lemma sums (a b : Z) :
  0 <= a <= 100 -> 0 <= b <= 100 ->
  add (of_Z a) (of_Z b) = of_Z (a + b)
  /\ sub (of_Z a) (of_Z b) = of_Z (a - b)
  /\ lt (of_Z a) (of_Z b) = (a <? b).
Proof. exact (sums_exact_spec 100 sums_exact_100 a b). Qed.

Lemma products (a b : Z) :
  0 <= a <= 30 -> 0 <= b <= 30 -> mul (of_Z a) (of_Z b) = of_Z (a * b).
Proof. exact (products_exact_spec 30 products_exact_30 a b). Qed.

Lemma texts (z : Z) :
  0 <= z <= 400 -> Number_toString (of_Z z) = toString z.
Proof. exact (texts_exact_spec 400 texts_exact_400 z). Qed.

(** ** The floor of a rounded product *)

Lemma digits2_pos_bounds (p : positive) :
  2 ^ (Zpos (digits2_pos p) - 1) <= Zpos p < 2 ^ Zpos (digits2_pos p).
Proof.
  induction p as [p IH | p IH |]; cbn [digits2_pos].
  - rewrite Pos2Z.inj_succ.
    replace (Z.succ (Zpos (digits2_pos p)) - 1)
      with (Z.succ (Zpos (digits2_pos p) - 1)) by lia.
    rewrite !Z.pow_succ_r by lia. lia.
  - rewrite Pos2Z.inj_succ.
    replace (Z.succ (Zpos (digits2_pos p)) - 1)
      with (Z.succ (Zpos (digits2_pos p) - 1)) by lia.
    rewrite !Z.pow_succ_r by lia. lia.
  - cbn. lia.
Qed.

Lemma Zdigits2_le (m b : Z) :
  0 <= m -> 0 <= b -> m < 2 ^ b -> Zdigits2 m <= b.
Proof.
  intros Hm Hb Hlt. destruct m as [| p | p]; cbn [Zdigits2]; try lia.
  destruct (digits2_pos_bounds p) as [Hlo _].
  assert (H : 2 ^ (Zpos (digits2_pos p) - 1) < 2 ^ b) by lia.
  apply Z.pow_lt_mono_r_iff in H; lia.
Qed.

Lemma shr_1_shifted (M j : Z) (r : shr_record) :
  0 <= M -> shifted M j r -> shifted M (j + 1) (shr_1 r).
Proof.
  intros HM (Hj & Hm & Hr).
  assert (Hpow : 0 < 2 ^ j) by (apply Z.pow_pos_nonneg; lia).
  assert (Hdiv : M / 2 ^ (j + 1) = M / 2 ^ j / 2)
    by (rewrite Z.pow_add_r, Z.pow_1_r by lia;
        rewrite Z.div_div by lia; reflexivity).
  assert (Hmod : M mod 2 ^ (j + 1)
                 = M mod 2 ^ j + 2 ^ j * ((M / 2 ^ j) mod 2))
    by (rewrite Z.pow_add_r, Z.pow_1_r by lia; apply Z.rem_mul_r; lia).
  assert (Hrem : 0 <= M mod 2 ^ j) by (apply Z.mod_pos_bound; lia).
  assert (Hsucc : 2 ^ (j + 1) = 2 * 2 ^ j)
    by (rewrite Z.pow_add_r, Z.pow_1_r by lia; lia).
  destruct r as [m r0 s]. cbn [shr_m shr_r] in *.
  unfold shifted. rewrite Hdiv, Hmod, Hsucc, <- Hm.
  destruct m as [| [p | p |] | p]; cbn [shr_1 shr_m shr_r];
    (split; [lia | split]).
  - reflexivity.
  - discriminate.
  - rewrite Pos2Z.inj_xI. apply Z.div_unique with 1; lia.
  - intros _. rewrite Pos2Z.inj_xI.
    replace ((2 * Zpos p + 1) mod 2) with 1; [lia |].
    apply Z.mod_unique with (Zpos p); lia.
  - rewrite Pos2Z.inj_xO. apply Z.div_unique with 0; lia.
  - discriminate.
  - reflexivity.
  - intros _. change (1 mod 2) with 1. lia.
  - exfalso. assert (0 <= M / 2 ^ j) by (apply Z.div_pos; lia). lia.
  - exfalso. assert (0 <= M / 2 ^ j) by (apply Z.div_pos; lia). lia.
Qed.

Lemma iter_pos_shifted (M : Z) (p : positive) :
  0 <= M ->
  forall (j : Z) (r : shr_record),
    shifted M j r -> shifted M (j + Zpos p) (iter_pos shr_1 p r).
Proof.
  intros HM. induction p as [p IH | p IH |]; intros j r H; cbn [iter_pos].
  - replace (j + Zpos p~1) with (j + 1 + Zpos p + Zpos p) by lia.
    apply IH, IH, shr_1_shifted; assumption.
  - replace (j + Zpos p~0) with (j + Zpos p + Zpos p) by lia.
    apply IH, IH; assumption.
  - apply shr_1_shifted; assumption.
Qed.

(** [shr_fexp] on an exact mantissa divides it by a power of two. *)
Lemma shr_fexp_exact (M E : Z) :
  0 <= M ->
  let k := Z.max 0 (fexp prec emax (Zdigits2 M + E) - E) in
  let '(r, e) := shr_fexp prec emax M E loc_Exact in
  e = E + k /\ shifted M k r.
Proof.
  intros HM k. unfold shr_fexp, shr. subst k.
  cbn [shr_record_of_loc].
  assert (H0 : shifted M 0 {| shr_m := M; shr_r := false; shr_s := false |}).
  { unfold shifted. cbn [shr_m shr_r]. rewrite Z.pow_0_r, Z.div_1_r.
    split; [lia | split; [reflexivity | discriminate]]. }
  destruct (fexp prec emax (Zdigits2 M + E) - E) as [| p | p] eqn:Hk.
  - rewrite Z.max_l by lia. split; [lia | exact H0].
  - rewrite Z.max_r by lia. split; [reflexivity |].
    apply (iter_pos_shifted M p HM 0 _ H0).
  - rewrite Z.max_l by lia. split; [lia | exact H0].
Qed.

Lemma round_nearest_even_bounds (r : shr_record) :
  let m := round_nearest_even (shr_m r) (loc_of_shr_record r) in
  shr_m r <= m <= shr_m r + 1 /\ (m = shr_m r + 1 -> shr_r r = true).
Proof.
  destruct r as [m [|] [|]];
    cbn [loc_of_shr_record round_nearest_even shr_m shr_r];
    try destruct (Z.even m); split; try lia; try reflexivity; intros; lia.
Qed.

(** The floor of the product of a number below 1 and a whole number [n]
    is a whole number below [n], although the product is rounded: the
    number is at most [1 - 2^-53], so that the product lies below [n] by
    more than half the distance between [n] and the Number before it. *)
Lemma Math_floor_mul (mx : positive) (ex : Z) (mn : positive) (en n : Z) :
  Zpos mx < 2 ^ 53 -> ex <= 0 -> Zpos mx < 2 ^ (- ex) ->
  2 ^ 52 <= Zpos mn < 2 ^ 53 -> -52 <= en <= -32 ->
  Zpos mn = n * 2 ^ (- en) ->
  exists q : Z,
    Math_floor (mul (S754_finite false mx ex) (S754_finite false mn en))
    = of_Z q
    /\ 0 <= q < n.
Proof.
  intros Hmx Hex Hlt1 Hmn Hen Hn.
  unfold mul, SFmul. cbn [xorb]. unfold binary_round_aux.
  set (M := Zpos (mx * mn)). set (E := ex + en).
  assert (HM : M = Zpos mx * Zpos mn) by (subst M; apply Pos2Z.inj_mul).
  assert (HM0 : 0 <= M) by (subst M; lia).
  set (W := 2 ^ (- ex)) in *. set (V := 2 ^ (- en)) in *.
  assert (HW : 0 < W) by (apply Z.pow_pos_nonneg; lia).
  assert (HV : 0 < V) by (apply Z.pow_pos_nonneg; lia).
  assert (HVW : 2 ^ (- E) = V * W)
    by (subst E V W; rewrite <- Z.pow_add_r by lia; f_equal; lia).
  assert (Hn0 : 0 < n) by nia.
  assert (HMW : M + Zpos mn <= n * (V * W)) by nia.
  (* the digits of the product *)
  set (d := Zdigits2 M).
  assert (Hd : 2 ^ (d - 1) <= M < 2 ^ d)
    by (subst d M; cbn [Zdigits2]; apply digits2_pos_bounds).
  assert (Hd0 : 0 < d) by (subst d M; cbn [Zdigits2]; lia).
  assert (HMlt : M < 2 ^ 53 * Zpos mn) by nia.
  assert (HdE : d + E <= 21).
  { assert (H : 2 ^ (d - 1) < 2 ^ (53 + - ex)).
    { rewrite Z.pow_add_r by lia. fold W. nia. }
    apply Z.pow_lt_mono_r_iff in H; lia. }
  (* the first shift, to the precision *)
  pose proof (shr_fexp_exact M E HM0) as H1. cbv zeta in H1. fold d in H1.
  destruct (shr_fexp prec emax M E loc_Exact) as [r1 e1].
  unfold fexp, emin, prec, emax in H1.
  change (3 - 1024 - 53) with (-1074) in H1.
  set (k1 := Z.max 0 (Z.max (d + E - 53) (-1074) - E)) in H1.
  destruct H1 as (He1 & _ & Hm1 & Hr1).
  pose proof (round_nearest_even_bounds r1) as Hround. cbv zeta in Hround.
  set (m2 := round_nearest_even (shr_m r1) (loc_of_shr_record r1)) in *.
  set (m1 := shr_m r1) in *.
  destruct Hround as [Hm2 Hup].
  assert (Hk1 : 0 <= k1) by lia.
  set (P := 2 ^ k1) in *.
  assert (HP : 0 < P) by (apply Z.pow_pos_nonneg; lia).
  assert (He1lo : -1074 <= e1 <= -32) by lia.
  set (Q := 2 ^ (- e1)).
  assert (HQ : 0 < Q) by (apply Z.pow_pos_nonneg; lia).
  assert (HQP : Q * P = V * W).
  { rewrite <- HVW. subst Q P. rewrite <- Z.pow_add_r by lia. f_equal. lia. }
  assert (Hm1' : M = m1 * P + M mod P)
    by (rewrite Hm1; rewrite (Z.div_mod M P) at 1 by lia; lia).
  assert (Hrem : 0 <= M mod P < P) by (apply Z.mod_pos_bound; lia).
  assert (Hm1lo : 0 <= m1) by (rewrite Hm1; apply Z.div_pos; lia).
  assert (Hm153 : m1 < 2 ^ 53).
  { rewrite Hm1. apply Z.div_lt_upper_bound; [lia |].
    subst P. rewrite <- Z.pow_add_r by lia.
    apply Z.lt_le_trans with (2 ^ d); [lia |].
    apply Z.pow_le_mono_r; lia. }
  (* the rounded mantissa is below [n] at its exponent *)
  assert (Hvalue : m2 < n * Q).
  { destruct (Z.eq_dec m2 (m1 + 1)) as [Hplus | Hsame].
    - specialize (Hr1 (Hup Hplus)). fold P in Hr1.
      assert (Hk1pos : 0 < k1).
      { destruct (Z.eq_dec k1 0) as [H0 |]; [exfalso | lia].
        unfold P in Hr1. rewrite H0, Z.pow_0_r, Z.mod_1_r in Hr1. lia. }
      destruct (Z.le_gt_cases (d + E - 53) (-1074)) as [Hsub | Hnorm].
      + assert (e1 = -1074) by lia.
        assert (HQ' : 2 ^ 54 <= Q).
        { subst Q. apply Z.pow_le_mono_r; lia. }
        assert (Q <= n * Q)
          by (rewrite <- (Z.mul_1_l Q) at 1;
              apply Z.mul_le_mono_nonneg_r; lia).
        change (2 ^ 54) with (2 * 2 ^ 53) in HQ'. lia.
      + assert (Hk : k1 = d - 53) by lia.
        assert (HP2 : P * 2 ^ 52 = 2 ^ (d - 1)).
        { subst P. rewrite <- Z.pow_add_r by lia. f_equal. lia. }
        assert (HPmn : P < 2 * Zpos mn).
        { change (2 ^ 53) with (2 * 2 ^ 52) in HMlt. nia. }
        rewrite Hplus. apply Z.mul_lt_mono_pos_r with P; [lia |].
        replace (n * Q * P) with (n * (V * W)) by (rewrite <- HQP; ring).
        lia.
    - replace m2 with m1 by lia.
      apply Z.mul_lt_mono_pos_r with P; [lia |].
      replace (n * Q * P) with (n * (V * W)) by (rewrite <- HQP; ring).
      lia. }
  (* the second shift, after a carry *)
  assert (Hm20 : 0 <= m2) by lia.
  pose proof (shr_fexp_exact m2 e1 Hm20) as H2. cbv zeta in H2.
  destruct (shr_fexp prec emax m2 e1 loc_Exact) as [r2 e2].
  unfold fexp, emin, prec, emax in H2.
  change (3 - 1024 - 53) with (-1074) in H2.
  assert (Hd2 : Zdigits2 m2 <= 54).
  { apply Zdigits2_le; [lia | lia |].
    change (2 ^ 54) with (2 * 2 ^ 53). lia. }
  set (k2 := Z.max 0 (Z.max (Zdigits2 m2 + e1 - 53) (-1074) - e1)) in H2.
  destruct H2 as (He2 & _ & Hm3 & _).
  assert (Hk2 : 0 <= k2 <= 1) by lia.
  assert (He2' : e2 < 0) by lia.
  assert (Hm30 : 0 <= shr_m r2)
    by (rewrite Hm3; apply Z.div_pos; [lia | apply Z.pow_pos_nonneg; lia]).
  destruct (shr_m r2) as [| m3 | m3] eqn:Hr2; [| | lia].
  - exists 0. split; [reflexivity | lia].
  - replace (e2 <=? emax - prec) with true
      by (symmetry; apply Z.leb_le; unfold emax, prec; lia).
    unfold Math_floor.
    replace (0 <=? e2) with false by (symmetry; apply Z.leb_gt; lia).
    exists (Z.shiftr (Zpos m3) (- e2)). split; [reflexivity |].
    rewrite Z.shiftr_div_pow2 by lia. rewrite Hm3.
    rewrite Z.div_div by (try apply Z.pow_pos_nonneg; lia).
    rewrite <- Z.pow_add_r by lia.
    replace (k2 + - e2) with (- e1) by lia. fold Q.
    split; [apply Z.div_pos; lia |].
    apply Z.div_lt_upper_bound; lia.
Qed.

(** What the contract of [Math.random()] says about a value. *)
Lemma unit_interval_cases (x : number) :
  unit_interval x = true ->
  x = pos_zero
  \/ exists (m : positive) (e : Z),
       x = S754_finite false m e
       /\ Zpos m < 2 ^ 53 /\ e <= 0 /\ Zpos m < 2 ^ (- e).
Proof.
  destruct x as [[|] | [|] | | [|] m e]; cbn [unit_interval];
    try discriminate; intros H; [left; reflexivity | right].
  apply andb_prop in H. destruct H as [Hbounded Hlt].
  unfold bounded, canonical_mantissa, fexp, emin, prec, emax in Hbounded.
  apply andb_prop in Hbounded. destruct Hbounded as [Hcanonical _].
  apply Z.eqb_eq in Hcanonical.
  change (3 - 1024 - 53) with (-1074) in Hcanonical.
  destruct (digits2_pos_bounds m) as [_ Hdigits].
  assert (Hm : Zpos m < 2 ^ 53).
  { apply Z.lt_le_trans with (2 ^ Zpos (digits2_pos m)); [exact Hdigits |].
    apply Z.pow_le_mono_r; lia. }
  change (of_Z 1) with (S754_finite false 4503599627370496 (-52)) in Hlt.
  unfold lt, SFltb in Hlt. cbn [SFcompare] in Hlt.
  exists m, e. split; [reflexivity | split; [exact Hm |]].
  destruct (Z.compare_spec e (-52)) as [He | He | He];
    [| | discriminate Hlt].
  - rewrite Pos.compare_cont_spec in Hlt.
    destruct (Pos.compare_spec m 4503599627370496) as [| Hlt' |];
      try discriminate Hlt.
    subst e. split; [discriminate |].
    replace (2 ^ (- -52)) with 4503599627370496
      by (vm_compute; reflexivity).
    exact Hlt'.
  - split; [lia |].
    apply Z.lt_le_trans with (2 ^ 53); [exact Hm |].
    apply Z.pow_le_mono_r; lia.
Qed.

(** The sizes [n] of the products [Math.random() * n] of the program. *)
Lemma Math_floor_unit (x : number) (n : Z) :
  unit_interval x = true ->
  In n [4; 9; 10; 12; 20; 30; 50; 100] ->
  exists q : Z, Math_floor (mul x (of_Z n)) = of_Z q /\ 0 <= q < n.
Proof.
  intros Hx Hn.
  destruct (unit_interval_cases x Hx)
    as [-> | (m & e & -> & Hm & He & Hlt)].
  - exists 0. cbn [In] in Hn.
    repeat (destruct Hn as [<- | Hn]; [split; [reflexivity | lia] |]).
    contradiction.
  - cbn [In] in Hn.
    repeat (destruct Hn as [<- | Hn];
            [match goal with
             | |- context [of_Z ?k] =>
                 let y := eval vm_compute in (of_Z k) in
                 change (of_Z k) with y at 1;
                 match y with
                 | S754_finite _ ?mn ?en =>
                     apply (Math_floor_mul m e mn en k);
                     [exact Hm | exact He | exact Hlt
                     | split; [vm_compute; discriminate
                              | vm_compute; reflexivity]
                     | lia | reflexivity]
                 end
             end |]).
    contradiction.
Qed.

End Numbers.

Section Generation.
Import JS QuestionGenerator.

Lemma in_unit_interval_next (r : source) :
  in_unit_interval r -> in_unit_interval (next r).
Proof. intros H i. exact (H i). Qed.

(** One [Math.floor(Math.random() * n) + k] of the generators is a whole
    number of [k .. k + n - 1]. *)
Lemma draw_whole (n k : Z) (r : source) :
  in_unit_interval r -> In n [9; 10; 12; 20; 30] -> 1 <= k <= 2 ->
  exists q : Z, 0 <= q < n /\ draw n k r = (of_Z (q + k), next r).
Proof.
  intros Hr Hn Hk.
  assert (Hsize : In n [4; 9; 10; 12; 20; 30; 50; 100] /\ n <= 30)
    by (cbn [In] in *; intuition lia).
  destruct Hsize as [Hsize Hsmall].
  destruct (Math_floor_unit (draws r (cursor r)) n (Hr _) Hsize)
    as (q & Hq & Hrange).
  exists q. split; [exact Hrange |].
  unfold draw, bind, ret, Math_random. rewrite Hq.
  destruct (sums q k) as [-> _]; [lia | lia | reflexivity].
Qed.

(** Which generator [generateQuestion] runs, and on which state of the
    source: the one it was given, or that one after the draw that picks
    the operation in mixed mode. *)
Lemma generateQuestion_dispatch (operation difficulty : string) (r : source) :
  let r' := if String.eqb operation "mixed" then next r else r in
  generateQuestion operation difficulty r = _generateAddition difficulty r'
  \/ generateQuestion operation difficulty r
     = _generateSubtraction difficulty r'
  \/ generateQuestion operation difficulty r
     = _generateMultiplication difficulty r'
  \/ generateQuestion operation difficulty r = _generateDivision difficulty r'.
Proof.
  assert (Hswitch : forall (op : string) (r' : source),
             let chosen :=
               if String.eqb op "addition" then _generateAddition difficulty
               else if String.eqb op "subtraction"
               then _generateSubtraction difficulty
               else if String.eqb op "multiplication"
               then _generateMultiplication difficulty
               else if String.eqb op "division"
               then _generateDivision difficulty
               else _generateAddition difficulty in
             chosen r' = _generateAddition difficulty r'
             \/ chosen r' = _generateSubtraction difficulty r'
             \/ chosen r' = _generateMultiplication difficulty r'
             \/ chosen r' = _generateDivision difficulty r').
  { intros op r'. cbv zeta.
    destruct (String.eqb op "addition"); [left; reflexivity |].
    destruct (String.eqb op "subtraction"); [right; left; reflexivity |].
    destruct (String.eqb op "multiplication");
      [right; right; left; reflexivity |].
    destruct (String.eqb op "division");
      [right; right; right; reflexivity | left; reflexivity]. }
  cbv zeta. unfold generateQuestion.
  destruct (String.eqb operation "mixed").
  - unfold bind at 1. unfold _getRandomOperation, bind, ret, Math_random.
    cbv beta iota zeta.
    destruct (element operations _) as [op |];
      [apply Hswitch | left; reflexivity].
  - unfold bind at 1, ret. apply Hswitch.
Qed.

Lemma _generateAddition_operation difficulty r :
  Question.operation (fst (_generateAddition difficulty r)) = "addition".
Proof.
  unfold _generateAddition, bind, ret.
  destruct (_getRandomNumber difficulty r) as [a r1].
  destruct (_getRandomNumber difficulty r1) as [b r2]. reflexivity.
Qed.

Lemma _generateSubtraction_operation difficulty r :
  Question.operation (fst (_generateSubtraction difficulty r)) = "subtraction".
Proof.
  unfold _generateSubtraction, bind, ret.
  destruct (_getRandomNumber difficulty r) as [a r1].
  destruct (_getRandomNumber difficulty r1) as [b r2].
  destruct (lt a b); reflexivity.
Qed.

Lemma _generateMultiplication_operation difficulty r :
  Question.operation (fst (_generateMultiplication difficulty r))
  = "multiplication".
Proof.
  unfold _generateMultiplication, bind, ret, draw, Math_random.
  destruct (String.eqb difficulty "easy");
    [| destruct (String.eqb difficulty "medium")]; reflexivity.
Qed.

Lemma _generateDivision_operation difficulty r :
  Question.operation (fst (_generateDivision difficulty r)) = "division".
Proof.
  unfold _generateDivision, bind, ret, draw, Math_random.
  destruct (String.eqb difficulty "easy");
    [| destruct (String.eqb difficulty "medium")]; reflexivity.
Qed.

(** The range [_getRandomNumber] takes for a difficulty that is not the
    name of an inherited member: the range of that name, the medium one
    for any other name. *)
Lemma range_of_difficulty (difficulty : string) :
  ~ In difficulty Object_prototype ->
  exists size : Z,
    (difficulty = "easy" /\ size = 10
     \/ difficulty = "medium" /\ size = 50
     \/ difficulty = "hard" /\ size = 100
     \/ difficulty <> "easy" /\ difficulty <> "medium"
        /\ difficulty <> "hard" /\ size = 50)
    /\ match get difficultyRanges difficulty with
       | missing => get difficultyRanges "medium"
       | found => found
       end
       = own {| min := of_Z 1; max := of_Z size |}.
Proof.
  intros Hown. unfold get at 1. unfold difficultyRanges at 1.
  cbn [find fst snd].
  destruct (String.eqb_spec "easy" difficulty) as [He | He];
    [exists 10; split; [left; split; congruence | reflexivity] |].
  destruct (String.eqb_spec "medium" difficulty) as [Hm | Hm];
    [exists 50; split; [right; left; split; congruence | reflexivity] |].
  destruct (String.eqb_spec "hard" difficulty) as [Hh | Hh];
    [exists 100; split; [right; right; left; split; congruence
                        | reflexivity] |].
  destruct (existsb (String.eqb difficulty) Object_prototype) eqn:Hin.
  - apply existsb_exists in Hin. destruct Hin as (name & Hin & Heq).
    apply String.eqb_eq in Heq. subst name. contradiction.
  - exists 50. split; [| reflexivity].
    right; right; right. repeat split; congruence.
Qed.

(** [_getRandomNumber] for such a difficulty: a whole number of the
    range, from one random value. *)
Lemma _getRandomNumber_whole (difficulty : string) (r : source) :
  in_unit_interval r -> ~ In difficulty Object_prototype ->
  exists size q : Z,
    (difficulty = "easy" /\ size = 10
     \/ difficulty = "medium" /\ size = 50
     \/ difficulty = "hard" /\ size = 100
     \/ difficulty <> "easy" /\ difficulty <> "medium"
        /\ difficulty <> "hard" /\ size = 50)
    /\ 0 <= q < size
    /\ Math_floor (mul (draws r (cursor r)) (of_Z size)) = of_Z q
    /\ _getRandomNumber difficulty r = (of_Z (q + 1), next r).
Proof.
  intros Hr Hown.
  destruct (range_of_difficulty difficulty Hown) as (size & Hsize & Hrange).
  assert (Hin : In size [4; 9; 10; 12; 20; 30; 50; 100] /\ 1 <= size <= 100)
    by (cbn [In]; intuition lia).
  destruct Hin as [Hin Hbound].
  destruct (Math_floor_unit (draws r (cursor r)) size (Hr _) Hin)
    as (q & Hq & Hq').
  exists size, q. split; [exact Hsize |]. split; [exact Hq' |].
  split; [exact Hq |].
  unfold _getRandomNumber, bind, ret, Math_random. rewrite Hrange.
  cbn [member Number max min].
  destruct (sums size 1) as (_ & -> & _); [lia | lia |].
  destruct (sums (size - 1) 1) as (-> & _); [lia | lia |].
  replace (size - 1 + 1) with size by lia. rewrite Hq.
  destruct (sums q 1) as (-> & _); [lia | lia | reflexivity].
Qed.

(** For the name of an inherited member, [range] is that member, a
    function or [Object.prototype]: its [max] and [min] are [undefined]
    and the number is [NaN]. *)
Lemma _getRandomNumber_inherited (difficulty : string) (r : source) :
  In difficulty Object_prototype ->
  _getRandomNumber difficulty r = (NaN, next r).
Proof.
  intros Hin. unfold _getRandomNumber, bind, ret, Math_random.
  assert (Hget : match get difficultyRanges difficulty with
                 | missing => get difficultyRanges "medium"
                 | found => found
                 end = inherited).
  { cbn [In Object_prototype] in Hin.
    repeat (destruct Hin as [<- | Hin]; [reflexivity |]). contradiction. }
  rewrite Hget. cbn [member Number].
  change (add (sub NaN NaN) (of_Z 1)) with NaN.
  destruct (draws r (cursor r)); reflexivity.
Qed.

(** What [_generateDivision] builds from its two draws. *)
Lemma _generateDivision_exact (difficulty : string) (r : source) :
  in_unit_interval r ->
  let q := fst (_generateDivision difficulty r) in
  let x1 := draws r (cursor r) in
  let x2 := draws r (S (cursor r)) in
  exists divisor quotient dividend : Z,
    (difficulty = "easy" ->
     of_Z divisor = add (Math_floor (mul x1 (of_Z 9))) (of_Z 2)
     /\ of_Z quotient = add (Math_floor (mul x2 (of_Z 10))) (of_Z 1)
     /\ 2 <= divisor <= 10 /\ 1 <= quotient <= 10)
    /\ (difficulty = "medium" ->
        of_Z divisor = add (Math_floor (mul x1 (of_Z 9))) (of_Z 2)
        /\ of_Z quotient = add (Math_floor (mul x2 (of_Z 20))) (of_Z 1)
        /\ 2 <= divisor <= 10 /\ 1 <= quotient <= 20)
    /\ (difficulty <> "easy" -> difficulty <> "medium" ->
        of_Z divisor = add (Math_floor (mul x1 (of_Z 12))) (of_Z 2)
        /\ of_Z quotient = add (Math_floor (mul x2 (of_Z 30))) (of_Z 1)
        /\ 2 <= divisor <= 13 /\ 1 <= quotient <= 30)
    /\ dividend = divisor * quotient
    /\ Question.text q = toString dividend ++ " ÷ " ++ toString divisor
    /\ Question.answer q = Some (of_Z quotient)
    /\ dividend mod divisor = 0
    /\ dividend / divisor = quotient.
Proof.
  intros Hr q x1 x2.
  pose proof (in_unit_interval_next r Hr) as Hr1.
  assert (Hbuilt :
            forall n1 n2 : Z,
              In n1 [9; 12] -> In n2 [10; 20; 30] ->
              exists d k : Z,
                0 <= d < n1 /\ 0 <= k < n2
                /\ draw n1 2 r = (of_Z (d + 2), next r)
                /\ draw n2 1 (next r) = (of_Z (k + 1), next (next r))).
  { intros n1 n2 H1 H2.
    destruct (draw_whole n1 2 r Hr) as (d & Hd & Hdraw1);
      [cbn [In] in *; intuition lia | lia |].
    destruct (draw_whole n2 1 (next r) Hr1) as (k & Hk & Hdraw2);
      [cbn [In] in *; intuition lia | lia |].
    exists d, k. repeat split; try lia; assumption. }
  assert (Hshape :
            forall n1 n2 d k : Z,
              0 <= d <= 11 -> 0 <= k <= 29 ->
              draw n1 2 r = (of_Z (d + 2), next r) ->
              draw n2 1 (next r) = (of_Z (k + 1), next (next r)) ->
              let built :=
                fst ((dq <- (divisor <- draw n1 2 ;; quotient <- draw n2 1 ;;
                             ret (divisor, quotient)) ;;
                      let '(divisor, quotient) := dq in
                      let dividend := mul divisor quotient in
                      ret {| Question.text :=
                               Number_toString dividend ++ " ÷ "
                               ++ Number_toString divisor;
                             Question.answer := Some quotient;
                             Question.operation := "division" |}) r) in
              of_Z (d + 2) = add (Math_floor (mul x1 (of_Z n1))) (of_Z 2)
              /\ of_Z (k + 1) = add (Math_floor (mul x2 (of_Z n2))) (of_Z 1)
              /\ Question.text built
                 = toString ((d + 2) * (k + 1)) ++ " ÷ " ++ toString (d + 2)
              /\ Question.answer built = Some (of_Z (k + 1))).
  { intros n1 n2 d k Hd Hk Hdraw1 Hdraw2 built. subst built.
    split; [change (add (Math_floor (mul x1 (of_Z n1))) (of_Z 2))
              with (fst (draw n1 2 r)); rewrite Hdraw1; reflexivity |].
    split; [change (add (Math_floor (mul x2 (of_Z n2))) (of_Z 1))
              with (fst (draw n2 1 (next r))); rewrite Hdraw2;
            reflexivity |].
    unfold bind. rewrite Hdraw1, Hdraw2. unfold ret. cbn [fst].
    cbn [Question.text Question.answer].
    rewrite products by lia. rewrite !texts by nia.
    split; reflexivity. }
  subst q. unfold _generateDivision.
  destruct (String.eqb_spec difficulty "easy") as [He | He];
    [| destruct (String.eqb_spec difficulty "medium") as [Hm | Hm]].
  - destruct (Hbuilt 9 10) as (d & k & Hd & Hk & H1 & H2);
      [cbn; auto | cbn; auto |].
    destruct (Hshape 9 10 d k) as (E1 & E2 & Htext & Hanswer);
      [lia | lia | exact H1 | exact H2 |].
    exists (d + 2), (k + 1), ((d + 2) * (k + 1)).
    split; [intros _; repeat split; try assumption; lia |].
    split; [intros Habs; congruence |].
    split; [intros Habs; congruence |].
    split; [reflexivity |]. split; [exact Htext |].
    split; [exact Hanswer |].
    split; [rewrite Z.mul_comm; apply Z_mod_mult
           | rewrite Z.mul_comm; apply Z_div_mult; lia].
  - destruct (Hbuilt 9 20) as (d & k & Hd & Hk & H1 & H2);
      [cbn; auto | cbn; auto |].
    destruct (Hshape 9 20 d k) as (E1 & E2 & Htext & Hanswer);
      [lia | lia | exact H1 | exact H2 |].
    exists (d + 2), (k + 1), ((d + 2) * (k + 1)).
    split; [intros Habs; congruence |].
    split; [intros _; repeat split; try assumption; lia |].
    split; [intros _ Habs; congruence |].
    split; [reflexivity |]. split; [exact Htext |].
    split; [exact Hanswer |].
    split; [rewrite Z.mul_comm; apply Z_mod_mult
           | rewrite Z.mul_comm; apply Z_div_mult; lia].
  - destruct (Hbuilt 12 30) as (d & k & Hd & Hk & H1 & H2);
      [cbn; auto | cbn; auto |].
    destruct (Hshape 12 30 d k) as (E1 & E2 & Htext & Hanswer);
      [lia | lia | exact H1 | exact H2 |].
    exists (d + 2), (k + 1), ((d + 2) * (k + 1)).
    split; [intros Habs; congruence |].
    split; [intros Habs; congruence |].
    split; [intros _ _; repeat split; try assumption; lia |].
    split; [reflexivity |]. split; [exact Htext |].
    split; [exact Hanswer |].
    split; [rewrite Z.mul_comm; apply Z_mod_mult
           | rewrite Z.mul_comm; apply Z_div_mult; lia].
Qed.

(** C8. A generated Division question is made of a divisor and a quotient
    drawn from the ranges of the difficulty: the divisor is
    [Math.floor(x1 * 9) + 2] for easy and medium and
    [Math.floor(x1 * 12) + 2] otherwise, so for hard, and the quotient is
    [Math.floor(x2 * n) + 1] with [n] 10, 20 or 30, where [x1] and [x2]
    are the next two random values; these are whole numbers of 2-10 and
    1-10, 2-10 and 1-20, 2-13 and 1-30.  With dividend = divisor *
    quotient, the text shows dividend and divisor, the recorded answer is
    the quotient, and so dividend mod divisor = 0 and dividend / divisor
    is the recorded answer. *)
Theorem division_question_is_exact :
  forall (operation difficulty : string) (r : source),
    in_unit_interval r ->
    let q := fst (generateQuestion operation difficulty r) in
    Question.operation q = "division" ->
    let r' := if String.eqb operation "mixed" then next r else r in
    let x1 := draws r (cursor r') in
    let x2 := draws r (S (cursor r')) in
    exists divisor quotient dividend : Z,
      (difficulty = "easy" ->
       of_Z divisor = add (Math_floor (mul x1 (of_Z 9))) (of_Z 2)
       /\ of_Z quotient = add (Math_floor (mul x2 (of_Z 10))) (of_Z 1)
       /\ 2 <= divisor <= 10 /\ 1 <= quotient <= 10)
      /\ (difficulty = "medium" ->
          of_Z divisor = add (Math_floor (mul x1 (of_Z 9))) (of_Z 2)
          /\ of_Z quotient = add (Math_floor (mul x2 (of_Z 20))) (of_Z 1)
          /\ 2 <= divisor <= 10 /\ 1 <= quotient <= 20)
      /\ (difficulty <> "easy" -> difficulty <> "medium" ->
          of_Z divisor = add (Math_floor (mul x1 (of_Z 12))) (of_Z 2)
          /\ of_Z quotient = add (Math_floor (mul x2 (of_Z 30))) (of_Z 1)
          /\ 2 <= divisor <= 13 /\ 1 <= quotient <= 30)
      /\ dividend = divisor * quotient
      /\ Question.text q = toString dividend ++ " ÷ " ++ toString divisor
      /\ Question.answer q = Some (of_Z quotient)
      /\ dividend mod divisor = 0
      /\ dividend / divisor = quotient.
Proof.
  intros operation difficulty r Hr q Hop r' x1 x2. subst q.
  assert (Hr' : in_unit_interval r')
    by (subst r'; destruct (String.eqb operation "mixed");
        [apply in_unit_interval_next |]; exact Hr).
  assert (Hdraws : draws r' = draws r)
    by (subst r'; destruct (String.eqb operation "mixed"); reflexivity).
  destruct (generateQuestion_dispatch operation difficulty r)
    as [Hgen | [Hgen | [Hgen | Hgen]]];
    fold r' in Hgen; rewrite Hgen in Hop |- *.
  - rewrite _generateAddition_operation in Hop. discriminate.
  - rewrite _generateSubtraction_operation in Hop. discriminate.
  - rewrite _generateMultiplication_operation in Hop. discriminate.
  - pose proof (_generateDivision_exact difficulty r' Hr') as H.
    cbv zeta in H. rewrite Hdraws in H. exact H.
Qed.

(** What [_generateSubtraction] builds from its two operands. *)
Lemma _generateSubtraction_swaps (difficulty : string) (r : source) :
  in_unit_interval r -> ~ In difficulty Object_prototype ->
  let q := fst (_generateSubtraction difficulty r) in
  exists a b minuend subtrahend : Z,
    _getRandomNumber difficulty r = (of_Z a, next r)
    /\ _getRandomNumber difficulty (next r) = (of_Z b, next (next r))
    /\ 1 <= a <= 100 /\ 1 <= b <= 100
    /\ ((a < b /\ minuend = b /\ subtrahend = a)
        \/ (a >= b /\ minuend = a /\ subtrahend = b))
    /\ Question.text q = toString minuend ++ " - " ++ toString subtrahend
    /\ Question.answer q = Some (of_Z (minuend - subtrahend))
    /\ minuend >= subtrahend
    /\ minuend - subtrahend >= 0.
Proof.
  intros Hr Hown q. subst q.
  destruct (_getRandomNumber_whole difficulty r Hr Hown)
    as (size1 & q1 & Hsize1 & Hq1 & _ & Ha).
  destruct (_getRandomNumber_whole difficulty (next r)
              (in_unit_interval_next r Hr) Hown)
    as (size2 & q2 & Hsize2 & Hq2 & _ & Hb).
  assert (Hrange : 1 <= q1 + 1 <= 100 /\ 1 <= q2 + 1 <= 100) by lia.
  destruct Hrange as [Hra Hrb].
  unfold _generateSubtraction, bind. rewrite Ha, Hb. unfold ret.
  destruct (sums (q1 + 1) (q2 + 1)) as (_ & _ & ->); [lia | lia |].
  destruct (Z.ltb_spec (q1 + 1) (q2 + 1)) as [Hlt | Hge];
    [exists (q1 + 1), (q2 + 1), (q2 + 1), (q1 + 1)
    | exists (q1 + 1), (q2 + 1), (q1 + 1), (q2 + 1)];
    cbn [fst Question.text Question.answer];
    rewrite !texts by lia;
    (split; [reflexivity |]); (split; [reflexivity |]);
    (split; [exact Hra |]); (split; [exact Hrb |]).
  - destruct (sums (q2 + 1) (q1 + 1)) as (_ & -> & _); [lia | lia |].
    split; [left; repeat split; lia |].
    repeat split; try reflexivity; lia.
  - destruct (sums (q1 + 1) (q2 + 1)) as (_ & -> & _); [lia | lia |].
    split; [right; repeat split; lia |].
    repeat split; try reflexivity; lia.
Qed.

(** C9. A generated Subtraction question, for a difficulty that names a
    range or is unknown, is made of two drawn operands, whole numbers,
    exchanged when the first is the smaller, so that the larger one is the
    minuend: the minuend is at least the subtrahend and the recorded
    answer, their difference, is not negative. *)
Theorem subtraction_question_is_nonnegative :
  forall (operation difficulty : string) (r : source),
    in_unit_interval r ->
    ~ In difficulty Object_prototype ->
    let q := fst (generateQuestion operation difficulty r) in
    Question.operation q = "subtraction" ->
    let r' := if String.eqb operation "mixed" then next r else r in
    exists a b minuend subtrahend : Z,
      _getRandomNumber difficulty r' = (of_Z a, next r')
      /\ _getRandomNumber difficulty (next r') = (of_Z b, next (next r'))
      /\ 1 <= a <= 100 /\ 1 <= b <= 100
      /\ ((a < b /\ minuend = b /\ subtrahend = a)
          \/ (a >= b /\ minuend = a /\ subtrahend = b))
      /\ Question.text q = toString minuend ++ " - " ++ toString subtrahend
      /\ Question.answer q = Some (of_Z (minuend - subtrahend))
      /\ minuend >= subtrahend
      /\ minuend - subtrahend >= 0.
Proof.
  intros operation difficulty r Hr Hown q Hop r'. subst q.
  assert (Hr' : in_unit_interval r')
    by (subst r'; destruct (String.eqb operation "mixed");
        [apply in_unit_interval_next |]; exact Hr).
  destruct (generateQuestion_dispatch operation difficulty r)
    as [Hgen | [Hgen | [Hgen | Hgen]]];
    fold r' in Hgen; rewrite Hgen in Hop |- *.
  - rewrite _generateAddition_operation in Hop. discriminate.
  - exact (_generateSubtraction_swaps difficulty r' Hr' Hown).
  - rewrite _generateMultiplication_operation in Hop. discriminate.
  - rewrite _generateDivision_operation in Hop. discriminate.
Qed.

Lemma sevenths_in_unit_interval : in_unit_interval sevenths.
Proof.
  intros i. unfold sevenths. cbn [draws].
  pose proof (Nat.mod_upper_bound i 7 ltac:(discriminate)) as H.
  revert H. generalize (i mod 7)%nat. intros k Hk.
  do 7 (destruct k as [| k]; [vm_compute; reflexivity |]).
  lia.
Qed.

Lemma division_question_is_exact_witness :
  let r := {| draws := draws sevenths; cursor := 6 |} in
  let q := fst (generateQuestion "mixed" "medium" r) in
  let r' := if String.eqb "mixed" "mixed" then next r else r in
  let x1 := draws r (cursor r') in
  let x2 := draws r (S (cursor r')) in
  exists divisor quotient dividend : Z,
    ("medium" = "easy" ->
     of_Z divisor = add (Math_floor (mul x1 (of_Z 9))) (of_Z 2)
     /\ of_Z quotient = add (Math_floor (mul x2 (of_Z 10))) (of_Z 1)
     /\ 2 <= divisor <= 10 /\ 1 <= quotient <= 10)
    /\ ("medium" = "medium" ->
        of_Z divisor = add (Math_floor (mul x1 (of_Z 9))) (of_Z 2)
        /\ of_Z quotient = add (Math_floor (mul x2 (of_Z 20))) (of_Z 1)
        /\ 2 <= divisor <= 10 /\ 1 <= quotient <= 20)
    /\ ("medium" <> "easy" -> "medium" <> "medium" ->
        of_Z divisor = add (Math_floor (mul x1 (of_Z 12))) (of_Z 2)
        /\ of_Z quotient = add (Math_floor (mul x2 (of_Z 30))) (of_Z 1)
        /\ 2 <= divisor <= 13 /\ 1 <= quotient <= 30)
    /\ dividend = divisor * quotient
    /\ Question.text q = toString dividend ++ " ÷ " ++ toString divisor
    /\ Question.answer q = Some (of_Z quotient)
    /\ dividend mod divisor = 0
    /\ dividend / divisor = quotient.
Proof.
  apply (division_question_is_exact "mixed" "medium"
           {| draws := draws sevenths; cursor := 6 |}).
  - exact sevenths_in_unit_interval.
  - vm_compute. reflexivity.
Defined.

Lemma subtraction_question_is_nonnegative_witness :
  let q := fst (generateQuestion "subtraction" "easy" sevenths) in
  let r' := if String.eqb "subtraction" "mixed" then next sevenths
            else sevenths in
  exists a b minuend subtrahend : Z,
    _getRandomNumber "easy" r' = (of_Z a, next r')
    /\ _getRandomNumber "easy" (next r') = (of_Z b, next (next r'))
    /\ 1 <= a <= 100 /\ 1 <= b <= 100
    /\ ((a < b /\ minuend = b /\ subtrahend = a)
        \/ (a >= b /\ minuend = a /\ subtrahend = b))
    /\ Question.text q = toString minuend ++ " - " ++ toString subtrahend
    /\ Question.answer q = Some (of_Z (minuend - subtrahend))
    /\ minuend >= subtrahend
    /\ minuend - subtrahend >= 0.
Proof.
  apply (subtraction_question_is_nonnegative "subtraction" "easy" sevenths).
  - exact sevenths_in_unit_interval.
  - cbn [In Object_prototype]. intuition discriminate.
  - vm_compute. reflexivity.
Defined.

End Generation.


(* ================================================================== *)
(** * The settings and the state of the round                           *)
(* ================================================================== *)

Section Settings.
Import JS MathTugOfWar.

Lemma same_round_invariant c c' :
  same_round c c' -> round_invariant c -> round_invariant c'.
Proof.
  unfold same_round, round_invariant.
  intros (-> & -> & ->) H. exact H.
Qed.

Lemma handleWin_controls winner c :
  settingsControls (handleWin winner c) = settingsControls c.
Proof. unfold handleWin, playSound, stopTimer. split_cases; reflexivity. Qed.

Lemma processAnswer_controls isCorrect userAnswer c :
  settingsControls (processAnswer isCorrect userAnswer c) = settingsControls c.
Proof.
  unfold processAnswer, playSound.
  split_cases; rewrite ?handleWin_controls; reflexivity.
Qed.

Lemma processAnswer_status isCorrect userAnswer c :
  GameState.gameStatus (gameState (processAnswer isCorrect userAnswer c))
  = GameState.gameStatus (gameState c)
  \/ GameState.gameStatus (gameState (processAnswer isCorrect userAnswer c))
     = GameState.ended.
Proof.
  unfold processAnswer, playSound.
  split_cases; rewrite ?handleWin_gameState; try (right; reflexivity);
    left; destruct isCorrect; reflexivity.
Qed.

Lemma nextQuestion_frame c :
  GameState.gameStatus (gameState (nextQuestion c))
  = GameState.gameStatus (gameState c)
  /\ settingsControls (nextQuestion c) = settingsControls c.
Proof.
  unfold nextQuestion, startTimer, stopTimer. split_cases; split; reflexivity.
Qed.

Lemma startGame_frame c :
  GameState.gameStatus (gameState (startGame c)) = GameState.playing
  /\ settingsControls (startGame c) = (true, true, true, true).
Proof.
  unfold startGame, nextQuestion, startTimer, stopTimer.
  split_cases; split; reflexivity.
Qed.

Lemma resetGame_frame c :
  GameState.gameStatus (gameState (resetGame c)) = GameState.idle
  /\ timerInterval (resetGame c) = false.
Proof.
  unfold resetGame, stopTimer.
  split_cases; split; try reflexivity; assumption.
Qed.

Lemma startGame_invariant c : round_invariant (startGame c).
Proof.
  destruct (startGame_frame c) as [Hs Hc]. unfold round_invariant.
  rewrite Hs, Hc. split; [discriminate | reflexivity].
Qed.

Lemma resetGame_invariant c : round_invariant (resetGame c).
Proof.
  destruct (resetGame_frame c) as [Hs Ht]. unfold round_invariant.
  rewrite Hs, Ht. split; [reflexivity | congruence].
Qed.

(** After [processAnswer] on a state that is not idle, whose controls are
    as in [c]. *)
Lemma processAnswer_invariant isCorrect userAnswer c d :
  round_invariant c ->
  GameState.gameStatus (gameState c) <> GameState.idle ->
  GameState.gameStatus (gameState d) = GameState.gameStatus (gameState c) ->
  settingsControls d = settingsControls c ->
  round_invariant (processAnswer isCorrect userAnswer d).
Proof.
  intros [_ Hlocked] Hidle Hstatus Hcontrols.
  assert (Hafter : GameState.gameStatus
                     (gameState (processAnswer isCorrect userAnswer d))
                   <> GameState.idle).
  { destruct (processAnswer_status isCorrect userAnswer d) as [-> | ->];
      [rewrite Hstatus; exact Hidle | discriminate]. }
  split; [intros Habs; contradiction |].
  intros _. rewrite processAnswer_controls, Hcontrols. apply Hlocked, Hidle.
Qed.

Lemma handleSubmit_invariant c :
  round_invariant c -> round_invariant (handleSubmit c).
Proof.
  intros Hinv. unfold handleSubmit.
  destruct (GameState.gameStatus (gameState c)) eqn:Hs; try exact Hinv.
  apply processAnswer_invariant with (c := c); try assumption.
  - rewrite Hs. discriminate.
  - unfold stopTimer. split_cases; reflexivity.
  - unfold stopTimer. split_cases; reflexivity.
Qed.

Lemma timerCallback_invariant c :
  round_invariant c -> timerInterval c = true ->
  round_invariant (timerCallback c).
Proof.
  intros Hinv Hon.
  assert (Hidle : GameState.gameStatus (gameState c) <> GameState.idle).
  { intros Habs. apply (proj1 Hinv) in Habs. congruence. }
  unfold timerCallback.
  match goal with |- context [if ?b then _ else _] => destruct b end.
  - unfold handleTimeout.
    apply processAnswer_invariant with (c := c); try assumption;
      unfold stopTimer; split_cases; reflexivity.
  - apply (same_round_invariant c); [| exact Hinv].
    repeat split.
Qed.

Lemma togglePause_invariant c :
  round_invariant c -> round_invariant (togglePause c).
Proof.
  intros Hinv. unfold togglePause.
  destruct (GameState.gameStatus (gameState c)) eqn:Hs; try exact Hinv.
  - unfold stopTimer. split_cases;
      (split; [cbn; discriminate | intros _; apply (proj2 Hinv); congruence]).
  - unfold startTimer, stopTimer. split_cases;
      (split; [cbn; discriminate | intros _; apply (proj2 Hinv); congruence]).
Qed.

Lemma nextQuestionCallback_invariant c d :
  round_invariant c -> same_round c d ->
  nextQuestionTimeouts d = Nat.pred (nextQuestionTimeouts c) ->
  round_invariant (nextQuestionCallback d).
Proof.
  intros Hinv Hsame _.
  pose proof (same_round_invariant c d Hsame Hinv) as Hd.
  unfold nextQuestionCallback.
  destruct (GameState.gameStatus (gameState d)) eqn:Hs; try exact Hd.
  destruct (nextQuestion_frame d) as [Hstatus Hcontrols].
  split.
  - rewrite Hstatus, Hs. discriminate.
  - intros _. rewrite Hcontrols. apply (proj2 Hd). rewrite Hs. discriminate.
Qed.

Lemma step_invariant c e : round_invariant c -> round_invariant (step c e).
Proof.
  intros Hinv. unfold step.
  destruct (occurs e c) eqn:Hoccurs; [| exact Hinv].
  destruct e; cbn [listener occurs] in *.
  - apply handleSubmit_invariant, Hinv.
  - unfold handleKeyPress.
    destruct (String.eqb key "Enter");
      [apply handleSubmit_invariant |]; exact Hinv.
  - exact Hinv.
  - apply startGame_invariant.
  - apply togglePause_invariant, Hinv.
  - apply resetGame_invariant.
  - exact Hinv.
  - exact Hinv.
  - apply startGame_invariant.
  - exact Hinv.
  - exact Hinv.
  - exact Hinv.
  - split_cases; exact Hinv.
  - exact Hinv.
  - split_cases; exact Hinv.
  - exact Hinv.
  - exact Hinv.
  - apply timerCallback_invariant; assumption.
  - apply nextQuestionCallback_invariant with (c := c);
      [exact Hinv | repeat split | reflexivity].
Qed.

Lemma run_invariant es :
  forall c, round_invariant c -> round_invariant (run c es).
Proof.
  unfold run. induction es as [| e es IH]; intros c Hinv; cbn [fold_left].
  - exact Hinv.
  - apply IH, step_invariant, Hinv.
Qed.

(** Every state of a game satisfies the invariant. *)
Lemma reachable_invariant c : reachable c -> round_invariant c.
Proof.
  intros (page & rnd & es & ->). apply run_invariant.
  split; [reflexivity | intros H; exfalso; apply H; reflexivity].
Qed.

(** C7, as the code has it.  [GameState.updateSettings] merges the keys
    it is given whatever the status of the round.  Through the settings
    controls a change of difficulty, operation, timer toggle or timer
    value is stored when its control is enabled and leaves the whole state
    unchanged when it is disabled; in every state of a game these four
    controls are disabled while the round is not idle, because
    [startGame()] disables them and only [resetGame()] enables them
    again, after which each of the four changes is stored.  A timer value
    that does not read as an integer in [[5, 60]] and a question limit that
    does not read as an integer in [[5, 100]] are rejected with the state
    unchanged.  The sound toggle writes [soundEnabled] whatever the status
    of the round. *)
Theorem locked_settings_and_rejected_values :
  forall c : MathTugOfWar.t,
    reachable c ->
    (* updateSettings looks at no status *)
    (forall (g : GameState.t) (newSettings : GameState.SettingsPatch),
        let g' := GameState.updateSettings newSettings g in
        let st := GameState.settings g in
        GameState.settings g'
        = {| GameState.difficulty :=
               match GameState.new_difficulty newSettings with
               | Some v => v | None => GameState.difficulty st end;
             GameState.operation :=
               match GameState.new_operation newSettings with
               | Some v => v | None => GameState.operation st end;
             GameState.timerEnabled :=
               match GameState.new_timerEnabled newSettings with
               | Some v => v | None => GameState.timerEnabled st end;
             GameState.timerValue :=
               match GameState.new_timerValue newSettings with
               | Some v => v | None => GameState.timerValue st end;
             GameState.soundEnabled :=
               match GameState.new_soundEnabled newSettings with
               | Some v => v | None => GameState.soundEnabled st end;
             GameState.questionLimitEnabled :=
               match GameState.new_questionLimitEnabled newSettings with
               | Some v => v | None => GameState.questionLimitEnabled st end;
             GameState.questionLimit :=
               match GameState.new_questionLimit newSettings with
               | Some v => v | None => GameState.questionLimit st end;
             GameState.teacherMode :=
               match GameState.new_teacherMode newSettings with
               | Some v => Some v | None => GameState.teacherMode st end |}
        /\ same_but_settings g g')
    (* the four controls: stored when enabled, ignored when disabled *)
    /\ (forall value : string,
           GameState.settings (gameState (step c (difficultyChange value)))
           = if difficultySelect_disabled (elements c)
             then GameState.settings (gameState c)
             else
               let st := GameState.settings (gameState c) in
               {| GameState.difficulty := value;
                  GameState.operation := GameState.operation st;
                  GameState.timerEnabled := GameState.timerEnabled st;
                  GameState.timerValue := GameState.timerValue st;
                  GameState.soundEnabled := GameState.soundEnabled st;
                  GameState.questionLimitEnabled :=
                    GameState.questionLimitEnabled st;
                  GameState.questionLimit := GameState.questionLimit st;
                  GameState.teacherMode := GameState.teacherMode st |})
    /\ (forall value : string,
           GameState.settings (gameState (step c (operationChange value)))
           = if operationSelect_disabled (elements c)
             then GameState.settings (gameState c)
             else
               let st := GameState.settings (gameState c) in
               {| GameState.difficulty := GameState.difficulty st;
                  GameState.operation := value;
                  GameState.timerEnabled := GameState.timerEnabled st;
                  GameState.timerValue := GameState.timerValue st;
                  GameState.soundEnabled := GameState.soundEnabled st;
                  GameState.questionLimitEnabled :=
                    GameState.questionLimitEnabled st;
                  GameState.questionLimit := GameState.questionLimit st;
                  GameState.teacherMode := GameState.teacherMode st |})
    /\ (forall checked : bool,
           GameState.settings (gameState (step c (timerToggleChange checked)))
           = if timerToggle_disabled (elements c)
             then GameState.settings (gameState c)
             else
               let st := GameState.settings (gameState c) in
               {| GameState.difficulty := GameState.difficulty st;
                  GameState.operation := GameState.operation st;
                  GameState.timerEnabled := checked;
                  GameState.timerValue := GameState.timerValue st;
                  GameState.soundEnabled := GameState.soundEnabled st;
                  GameState.questionLimitEnabled :=
                    GameState.questionLimitEnabled st;
                  GameState.questionLimit := GameState.questionLimit st;
                  GameState.teacherMode := GameState.teacherMode st |})
    /\ (forall (value : string) (v : Z),
           parseInt value = Some v -> 5 <= v <= 60 ->
           GameState.settings (gameState (step c (timerValueChange value)))
           = if timerValueInput_disabled (elements c)
             then GameState.settings (gameState c)
             else
               let st := GameState.settings (gameState c) in
               {| GameState.difficulty := GameState.difficulty st;
                  GameState.operation := GameState.operation st;
                  GameState.timerEnabled := GameState.timerEnabled st;
                  GameState.timerValue := v;
                  GameState.soundEnabled := GameState.soundEnabled st;
                  GameState.questionLimitEnabled :=
                    GameState.questionLimitEnabled st;
                  GameState.questionLimit := GameState.questionLimit st;
                  GameState.teacherMode := GameState.teacherMode st |})
    (* locked while the round is not idle *)
    /\ (GameState.gameStatus (gameState c) <> GameState.idle ->
        settingsControls c = (true, true, true, true)
        /\ forall e : Event, lockedControl e = true -> step c e = c)
    (* open again after a reset *)
    /\ (GameState.gameStatus (gameState (resetGame c)) = GameState.idle
        /\ settingsControls (resetGame c) = (false, false, false, false)
        /\ (forall value : string,
               GameState.difficulty
                 (GameState.settings
                    (gameState (step (resetGame c) (difficultyChange value))))
               = value)
        /\ (forall value : string,
               GameState.operation
                 (GameState.settings
                    (gameState (step (resetGame c) (operationChange value))))
               = value)
        /\ (forall checked : bool,
               GameState.timerEnabled
                 (GameState.settings
                    (gameState
                       (step (resetGame c) (timerToggleChange checked))))
               = checked)
        /\ (forall (value : string) (v : Z),
               parseInt value = Some v -> 5 <= v <= 60 ->
               GameState.timerValue
                 (GameState.settings
                    (gameState (step (resetGame c) (timerValueChange value))))
               = v))
    (* values out of range *)
    /\ (forall value : string,
           out_of_range 5 60 value -> step c (timerValueChange value) = c)
    /\ (forall value : string,
           out_of_range 5 100 value -> step c (questionLimitChange value) = c)
    (* the sound toggle *)
    /\ GameState.soundEnabled
         (GameState.settings (gameState (step c soundToggleClick)))
       = negb (SoundManager.enabled (soundManager c)).
Proof.
  intros c Hreach.
  pose proof (reachable_invariant c Hreach) as [_ Hlocked].
  assert (Hin : forall (d : MathTugOfWar.t) (value : string) (v : Z),
             parseInt value = Some v -> 5 <= v <= 60 ->
             listener (timerValueChange value) d
             = set_gameState
                 (GameState.updateSettings
                    {| GameState.new_difficulty := None;
                       GameState.new_operation := None;
                       GameState.new_timerEnabled := None;
                       GameState.new_timerValue := Some v;
                       GameState.new_soundEnabled := None;
                       GameState.new_questionLimitEnabled := None;
                       GameState.new_questionLimit := None;
                       GameState.new_teacherMode := None |}
                    (gameState d)) d).
  { intros d value v Hparse Hrange. cbn [listener]. rewrite Hparse.
    destruct (Z.geb_spec v 5); [| lia].
    destruct (Z.leb_spec v 60); [reflexivity | lia]. }
  assert (Hopen : settingsControls (resetGame c)
                  = (false, false, false, false))
    by (unfold resetGame, stopTimer; split_cases; reflexivity).
  split; [| split; [| split; [| split; [| split; [| split; [| split;
    [| split; [| split]]]]]]]].
  - intros g newSettings g' st. subst g' st.
    split; [reflexivity | repeat split].
  - intros value. unfold step. cbn [occurs].
    destruct (difficultySelect_disabled (elements c)); reflexivity.
  - intros value. unfold step. cbn [occurs].
    destruct (operationSelect_disabled (elements c)); reflexivity.
  - intros checked. unfold step. cbn [occurs].
    destruct (timerToggle_disabled (elements c)); reflexivity.
  - intros value v Hparse Hrange. unfold step. cbn [occurs].
    destruct (timerValueInput_disabled (elements c)); cbn [negb];
      [reflexivity |].
    rewrite (Hin c value v Hparse Hrange). reflexivity.
  - intros Hstatus. specialize (Hlocked Hstatus).
    split; [exact Hlocked |].
    unfold settingsControls in Hlocked.
    injection Hlocked as Hd Ho Ht Hv.
    intros e He.
    unfold step. destruct e; try discriminate He; cbn [occurs];
      rewrite ?Hd, ?Ho, ?Ht, ?Hv; reflexivity.
  - split; [apply resetGame_frame |]. split; [exact Hopen |].
    unfold settingsControls in Hopen.
    assert (Hd : difficultySelect_disabled (elements (resetGame c)) = false)
      by congruence.
    assert (Ho : operationSelect_disabled (elements (resetGame c)) = false)
      by congruence.
    assert (Ht : timerToggle_disabled (elements (resetGame c)) = false)
      by congruence.
    assert (Hv : timerValueInput_disabled (elements (resetGame c)) = false)
      by congruence.
    split; [| split; [| split]].
    + intros value. unfold step. cbn [occurs]. rewrite Hd. reflexivity.
    + intros value. unfold step. cbn [occurs]. rewrite Ho. reflexivity.
    + intros checked. unfold step. cbn [occurs]. rewrite Ht. reflexivity.
    + intros value v Hparse Hrange. unfold step. cbn [occurs]. rewrite Hv.
      cbn [negb]. rewrite (Hin _ value v Hparse Hrange). reflexivity.
  - intros value Hout. unfold step, out_of_range in *. cbn [listener].
    destruct (occurs _ c); [| reflexivity].
    destruct (parseInt value) as [v |]; [| reflexivity].
    destruct (Z.geb_spec v 5); [| reflexivity].
    destruct (Z.leb_spec v 60); [lia | reflexivity].
  - intros value Hout. unfold step, out_of_range in *. cbn [listener].
    destruct (occurs _ c); [| reflexivity].
    destruct (parseInt value) as [v |]; [| reflexivity].
    destruct (Z.geb_spec v 5); [| reflexivity].
    destruct (Z.leb_spec v 100); [lia | reflexivity].
  - unfold step. cbn [occurs listener]. reflexivity.
Qed.

Lemma locked_settings_and_rejected_values_witness :
  (forall (g : GameState.t) (newSettings : GameState.SettingsPatch),
      let g' := GameState.updateSettings newSettings g in
      let st := GameState.settings g in
      GameState.settings g'
      = {| GameState.difficulty :=
             match GameState.new_difficulty newSettings with
             | Some v => v | None => GameState.difficulty st end;
           GameState.operation :=
             match GameState.new_operation newSettings with
             | Some v => v | None => GameState.operation st end;
           GameState.timerEnabled :=
             match GameState.new_timerEnabled newSettings with
             | Some v => v | None => GameState.timerEnabled st end;
           GameState.timerValue :=
             match GameState.new_timerValue newSettings with
             | Some v => v | None => GameState.timerValue st end;
           GameState.soundEnabled :=
             match GameState.new_soundEnabled newSettings with
             | Some v => v | None => GameState.soundEnabled st end;
           GameState.questionLimitEnabled :=
             match GameState.new_questionLimitEnabled newSettings with
             | Some v => v | None => GameState.questionLimitEnabled st end;
           GameState.questionLimit :=
             match GameState.new_questionLimit newSettings with
             | Some v => v | None => GameState.questionLimit st end;
           GameState.teacherMode :=
             match GameState.new_teacherMode newSettings with
             | Some v => Some v | None => GameState.teacherMode st end |}
      /\ same_but_settings g g')
  /\ (forall value : string,
         GameState.settings
           (gameState (step playingGame (difficultyChange value)))
         = if difficultySelect_disabled (elements playingGame)
           then GameState.settings (gameState playingGame)
           else
             let st := GameState.settings (gameState playingGame) in
             {| GameState.difficulty := value;
                GameState.operation := GameState.operation st;
                GameState.timerEnabled := GameState.timerEnabled st;
                GameState.timerValue := GameState.timerValue st;
                GameState.soundEnabled := GameState.soundEnabled st;
                GameState.questionLimitEnabled :=
                  GameState.questionLimitEnabled st;
                GameState.questionLimit := GameState.questionLimit st;
                GameState.teacherMode := GameState.teacherMode st |})
  /\ (forall value : string,
         GameState.settings
           (gameState (step playingGame (operationChange value)))
         = if operationSelect_disabled (elements playingGame)
           then GameState.settings (gameState playingGame)
           else
             let st := GameState.settings (gameState playingGame) in
             {| GameState.difficulty := GameState.difficulty st;
                GameState.operation := value;
                GameState.timerEnabled := GameState.timerEnabled st;
                GameState.timerValue := GameState.timerValue st;
                GameState.soundEnabled := GameState.soundEnabled st;
                GameState.questionLimitEnabled :=
                  GameState.questionLimitEnabled st;
                GameState.questionLimit := GameState.questionLimit st;
                GameState.teacherMode := GameState.teacherMode st |})
  /\ (forall checked : bool,
         GameState.settings
           (gameState (step playingGame (timerToggleChange checked)))
         = if timerToggle_disabled (elements playingGame)
           then GameState.settings (gameState playingGame)
           else
             let st := GameState.settings (gameState playingGame) in
             {| GameState.difficulty := GameState.difficulty st;
                GameState.operation := GameState.operation st;
                GameState.timerEnabled := checked;
                GameState.timerValue := GameState.timerValue st;
                GameState.soundEnabled := GameState.soundEnabled st;
                GameState.questionLimitEnabled :=
                  GameState.questionLimitEnabled st;
                GameState.questionLimit := GameState.questionLimit st;
                GameState.teacherMode := GameState.teacherMode st |})
  /\ (forall (value : string) (v : Z),
         parseInt value = Some v -> 5 <= v <= 60 ->
         GameState.settings
           (gameState (step playingGame (timerValueChange value)))
         = if timerValueInput_disabled (elements playingGame)
           then GameState.settings (gameState playingGame)
           else
             let st := GameState.settings (gameState playingGame) in
             {| GameState.difficulty := GameState.difficulty st;
                GameState.operation := GameState.operation st;
                GameState.timerEnabled := GameState.timerEnabled st;
                GameState.timerValue := v;
                GameState.soundEnabled := GameState.soundEnabled st;
                GameState.questionLimitEnabled :=
                  GameState.questionLimitEnabled st;
                GameState.questionLimit := GameState.questionLimit st;
                GameState.teacherMode := GameState.teacherMode st |})
  /\ (GameState.gameStatus (gameState playingGame) <> GameState.idle ->
      settingsControls playingGame = (true, true, true, true)
      /\ forall e : Event,
          lockedControl e = true -> step playingGame e = playingGame)
  /\ (GameState.gameStatus (gameState (resetGame playingGame)) = GameState.idle
      /\ settingsControls (resetGame playingGame) = (false, false, false, false)
      /\ (forall value : string,
             GameState.difficulty
               (GameState.settings
                  (gameState
                     (step (resetGame playingGame) (difficultyChange value))))
             = value)
      /\ (forall value : string,
             GameState.operation
               (GameState.settings
                  (gameState
                     (step (resetGame playingGame) (operationChange value))))
             = value)
      /\ (forall checked : bool,
             GameState.timerEnabled
               (GameState.settings
                  (gameState
                     (step (resetGame playingGame)
                           (timerToggleChange checked))))
             = checked)
      /\ (forall (value : string) (v : Z),
             parseInt value = Some v -> 5 <= v <= 60 ->
             GameState.timerValue
               (GameState.settings
                  (gameState
                     (step (resetGame playingGame) (timerValueChange value))))
             = v))
  /\ (forall value : string,
         out_of_range 5 60 value ->
         step playingGame (timerValueChange value) = playingGame)
  /\ (forall value : string,
         out_of_range 5 100 value ->
         step playingGame (questionLimitChange value) = playingGame)
  /\ GameState.soundEnabled
       (GameState.settings (gameState (step playingGame soundToggleClick)))
     = negb (SoundManager.enabled (soundManager playingGame)).
Proof.
  apply (locked_settings_and_rejected_values playingGame).
  exists plainPage, zeros, [startClick]. reflexivity.
Defined.

(** C7 as the specification words it fails: the game just started is
    playing, and a click on the sound toggle changes its settings;
    [GameState.updateSettings] itself looks at no status. *)
Lemma settings_change_while_playing :
  reachable playingGame
  /\ GameState.gameStatus (gameState playingGame) = GameState.playing
  /\ GameState.settings (gameState (step playingGame soundToggleClick))
     <> GameState.settings (gameState playingGame)
  /\ GameState.soundEnabled
       (GameState.settings (gameState (step playingGame soundToggleClick)))
     = false
  /\ GameState.soundEnabled (GameState.settings (gameState playingGame))
     = true
  /\ GameState.difficulty
       (GameState.settings
          (GameState.updateSettings
             {| GameState.new_difficulty := Some "hard";
                GameState.new_operation := None;
                GameState.new_timerEnabled := None;
                GameState.new_timerValue := None;
                GameState.new_soundEnabled := None;
                GameState.new_questionLimitEnabled := None;
                GameState.new_questionLimit := None;
                GameState.new_teacherMode := None |}
             (gameState playingGame)))
     = "hard".
Proof.
  split; [exists plainPage, zeros, [startClick]; reflexivity |].
  split; [vm_compute; reflexivity |].
  split; [intros H; vm_compute in H; discriminate H |].
  repeat split; vm_compute; reflexivity.
Qed.

(** The two question-limit controls are not among those [startGame()]
    disables: on a page that loads them enabled, a new limit typed during
    play is stored. *)
Lemma question_limit_editable_while_playing :
  GameState.gameStatus (gameState playingGame) = GameState.playing
  /\ GameState.questionLimit (GameState.settings (gameState playingGame)) = 40
  /\ GameState.questionLimit
       (GameState.settings
          (gameState (step playingGame (questionLimitChange "10"))))
     = 10.
Proof. repeat split; vm_compute; reflexivity. Qed.

End Settings.

(* ================================================================== *)
(** * The invariants of the data model, in every state of a game        *)
(* ================================================================== *)

Section DataInvariants.
Import JS MathTugOfWar.

Lemma same_data_invariant g g' :
  same_data g g' -> data_invariant g -> data_invariant g'.
Proof. unfold same_data, data_invariant. intros [-> ->] H. exact H. Qed.

Lemma processAnswer_ropePosition isCorrect userAnswer c :
  GameState.ropePosition (gameState (processAnswer isCorrect userAnswer c))
  = GameState.ropePosition
      (GameState.updateRopePosition isCorrect
         (GameState.updateStats isCorrect false (gameState c))).
Proof.
  unfold processAnswer, playSound.
  split_cases; rewrite ?handleWin_gameState; reflexivity.
Qed.

Lemma processAnswer_data isCorrect userAnswer c :
  data_invariant (gameState c) ->
  data_invariant (gameState (processAnswer isCorrect userAnswer c)).
Proof.
  intros [_ Hstats]. split.
  - rewrite processAnswer_ropePosition. apply updateRopePosition_in_range.
  - rewrite processAnswer_stats.
    apply (updateStats_balanced isCorrect false (gameState c)), Hstats.
Qed.

Lemma nextQuestion_data c :
  same_data (gameState c) (gameState (nextQuestion c)).
Proof.
  unfold nextQuestion, startTimer, stopTimer. split_cases; split; reflexivity.
Qed.

Lemma startGame_data c : same_data (gameState c) (gameState (startGame c)).
Proof.
  unfold startGame, nextQuestion, startTimer, stopTimer.
  split_cases; split; reflexivity.
Qed.

Lemma resetGame_data c : data_invariant (gameState (resetGame c)).
Proof.
  unfold resetGame, stopTimer.
  split_cases; (split; [cbn; lia | reflexivity]).
Qed.

Lemma handleSubmit_data c :
  data_invariant (gameState c) -> data_invariant (gameState (handleSubmit c)).
Proof.
  intros Hinv. unfold handleSubmit.
  destruct (GameState.gameStatus (gameState c)); try exact Hinv.
  apply processAnswer_data. unfold stopTimer. split_cases; exact Hinv.
Qed.

Lemma handleTimeout_data c :
  data_invariant (gameState c) -> data_invariant (gameState (handleTimeout c)).
Proof.
  intros [Hrope Hstats]. unfold handleTimeout.
  apply processAnswer_data. split.
  - unfold stopTimer. split_cases; exact Hrope.
  - cbn [gameState set_gameState].
    apply (updateStats_balanced false true).
    unfold stopTimer. split_cases; exact Hstats.
Qed.

Lemma step_data c e :
  data_invariant (gameState c) -> data_invariant (gameState (step c e)).
Proof.
  intros Hinv. unfold step.
  destruct (occurs e c); [| exact Hinv].
  destruct e; cbn [listener].
  - apply handleSubmit_data, Hinv.
  - unfold handleKeyPress.
    destruct (String.eqb key "Enter"); [apply handleSubmit_data |]; exact Hinv.
  - exact Hinv.
  - apply (same_data_invariant _ _ (startGame_data c)), Hinv.
  - unfold togglePause, startTimer, stopTimer. split_cases; exact Hinv.
  - apply resetGame_data.
  - exact Hinv.
  - exact Hinv.
  - apply (same_data_invariant _ _ (startGame_data _)), resetGame_data.
  - exact Hinv.
  - exact Hinv.
  - exact Hinv.
  - split_cases; exact Hinv.
  - exact Hinv.
  - split_cases; exact Hinv.
  - exact Hinv.
  - exact Hinv.
  - unfold timerCallback.
    match goal with |- context [if ?b then _ else _] => destruct b end;
      [apply handleTimeout_data |]; exact Hinv.
  - unfold nextQuestionCallback. cbn [gameState set_nextQuestionTimeouts].
    destruct (GameState.gameStatus (gameState c)); try exact Hinv.
    apply (same_data_invariant _ _ (nextQuestion_data _)), Hinv.
Qed.

(** In every state of a game the rope position is in [[-10, 10]] and
    totalQuestions = correctAnswers + wrongAnswers + timeouts (the second
    although a timed-out question is counted twice). *)
Lemma reachable_data_invariant c :
  reachable c -> data_invariant (gameState c).
Proof.
  intros (page & rnd & es & ->). unfold run.
  assert (Hinit : data_invariant (gameState (init (new page rnd))))
    by (split; [cbn; lia | reflexivity]).
  revert Hinit. generalize (init (new page rnd)).
  induction es as [| e es IH]; intros c Hinv; cbn [fold_left].
  - exact Hinv.
  - apply IH, step_data, Hinv.
Qed.

End DataInvariants.

(* ================================================================== *)
(** * More on the questions                                             *)
(* ================================================================== *)

Section Questions.
Import JS QuestionGenerator.

(** X2. For a difficulty that is not the name of an inherited member,
    [_getRandomNumber] returns [Math.floor(x * size) + 1] for the next
    random value [x] and the size of the range of the difficulty, a whole
    number of 1-10, 1-50 or 1-100, and of the medium range 1-50 for a
    difficulty that is none of the three; it takes one value from the
    source. *)
Theorem random_number_in_difficulty_range :
  forall (difficulty : string) (r : source),
    in_unit_interval r ->
    ~ In difficulty Object_prototype ->
    let x := draws r (cursor r) in
    exists n : Z,
      _getRandomNumber difficulty r = (of_Z n, next r)
      /\ (difficulty = "easy" ->
          1 <= n <= 10
          /\ of_Z n = add (Math_floor (mul x (of_Z 10))) (of_Z 1))
      /\ (difficulty = "medium" ->
          1 <= n <= 50
          /\ of_Z n = add (Math_floor (mul x (of_Z 50))) (of_Z 1))
      /\ (difficulty = "hard" ->
          1 <= n <= 100
          /\ of_Z n = add (Math_floor (mul x (of_Z 100))) (of_Z 1))
      /\ (difficulty <> "easy" -> difficulty <> "hard" ->
          1 <= n <= 50
          /\ of_Z n = add (Math_floor (mul x (of_Z 50))) (of_Z 1))
      /\ 1 <= n <= 100.
Proof.
  intros difficulty r Hr Hown x.
  destruct (_getRandomNumber_whole difficulty r Hr Hown)
    as (size & q & Hsize & Hq & Hfloor & Hnumber).
  fold x in Hfloor.
  assert (Hsum : of_Z (q + 1) = add (Math_floor (mul x (of_Z size))) (of_Z 1)).
  { rewrite Hfloor. destruct (sums q 1) as (-> & _); [lia | lia |].
    reflexivity. }
  exists (q + 1). split; [exact Hnumber |].
  assert (Hbound : 1 <= size <= 100) by lia.
  split; [| split; [| split; [| split]]].
  - intros He. assert (size = 10) by (destruct Hsize as
      [[? ?] | [[? ?] | [[? ?] | (? & ? & ? & ?)]]]; congruence).
    subst size. split; [lia | exact Hsum].
  - intros Hm. assert (size = 50) by (destruct Hsize as
      [[? ?] | [[? ?] | [[? ?] | (? & ? & ? & ?)]]]; congruence).
    subst size. split; [lia | exact Hsum].
  - intros Hh. assert (size = 100) by (destruct Hsize as
      [[? ?] | [[? ?] | [[? ?] | (? & ? & ? & ?)]]]; congruence).
    subst size. split; [lia | exact Hsum].
  - intros He Hh. assert (size = 50) by (destruct Hsize as
      [[? ?] | [[? ?] | [[? ?] | (? & ? & ? & ?)]]]; congruence).
    subst size. split; [lia | exact Hsum].
  - lia.
Qed.

Lemma random_number_in_difficulty_range_witness :
  let x := draws sevenths (cursor sevenths) in
  exists n : Z,
    _getRandomNumber "easy" sevenths = (of_Z n, next sevenths)
    /\ ("easy" = "easy" ->
        1 <= n <= 10
        /\ of_Z n = add (Math_floor (mul x (of_Z 10))) (of_Z 1))
    /\ ("easy" = "medium" ->
        1 <= n <= 50
        /\ of_Z n = add (Math_floor (mul x (of_Z 50))) (of_Z 1))
    /\ ("easy" = "hard" ->
        1 <= n <= 100
        /\ of_Z n = add (Math_floor (mul x (of_Z 100))) (of_Z 1))
    /\ ("easy" <> "easy" -> "easy" <> "hard" ->
        1 <= n <= 50
        /\ of_Z n = add (Math_floor (mul x (of_Z 50))) (of_Z 1))
    /\ 1 <= n <= 100.
Proof.
  apply (random_number_in_difficulty_range "easy" sevenths).
  - exact sevenths_in_unit_interval.
  - cbn [In Object_prototype]. intuition discriminate.
Defined.

(** X21. For a difficulty that is the name of a member every object
    inherits, such as [constructor], [toString] or [__proto__], the
    lookup in [difficultyRanges] finds that member, which is truthy, so
    that the medium range is not taken: [_getRandomNumber] returns [NaN],
    an Addition question reads "NaN + NaN" and a Subtraction question
    "NaN - NaN", with the answer [NaN], against which [validateAnswer]
    accepts nothing. *)
Theorem inherited_difficulty_gives_NaN :
  forall (difficulty : string) (r : source),
    In difficulty Object_prototype ->
    _getRandomNumber difficulty r = (NaN, next r)
    /\ fst (generateQuestion "addition" difficulty r)
       = {| Question.text := "NaN + NaN";
            Question.answer := Some NaN;
            Question.operation := "addition" |}
    /\ fst (generateQuestion "subtraction" difficulty r)
       = {| Question.text := "NaN - NaN";
            Question.answer := Some NaN;
            Question.operation := "subtraction" |}
    /\ forall userAnswer : value,
        validateAnswer userAnswer (MathTugOfWar.answerValue (Some NaN))
        = false.
Proof.
  intros difficulty r Hin.
  pose proof (_getRandomNumber_inherited difficulty) as Hnan.
  split; [apply Hnan, Hin |].
  split; [| split].
  - change (generateQuestion "addition" difficulty r)
      with (_generateAddition difficulty r).
    unfold _generateAddition, bind.
    rewrite (Hnan r Hin), (Hnan (next r) Hin). reflexivity.
  - change (generateQuestion "subtraction" difficulty r)
      with (_generateSubtraction difficulty r).
    unfold _generateSubtraction, bind.
    rewrite (Hnan r Hin), (Hnan (next r) Hin). reflexivity.
  - intros userAnswer. unfold validateAnswer, MathTugOfWar.answerValue.
    assert (H : forall x : number, lt (Math_abs (sub x NaN))
                                      (of_decimal false 1 (-2)) = false)
      by (intros [| | |]; reflexivity).
    destruct userAnswer as [| | [| ch rest] | x]; try reflexivity;
      destruct (is_nan _); try reflexivity; apply H.
Qed.

Lemma inherited_difficulty_gives_NaN_witness :
  _getRandomNumber "constructor" sevenths = (NaN, next sevenths)
  /\ fst (generateQuestion "addition" "constructor" sevenths)
     = {| Question.text := "NaN + NaN";
          Question.answer := Some NaN;
          Question.operation := "addition" |}
  /\ fst (generateQuestion "subtraction" "constructor" sevenths)
     = {| Question.text := "NaN - NaN";
          Question.answer := Some NaN;
          Question.operation := "subtraction" |}
  /\ forall userAnswer : value,
      validateAnswer userAnswer (MathTugOfWar.answerValue (Some NaN))
      = false.
Proof.
  apply (inherited_difficulty_gives_NaN "constructor" sevenths).
  cbn [In Object_prototype]. left. reflexivity.
Defined.

Lemma _generateAddition_agrees (difficulty : string) (r : source) :
  in_unit_interval r -> ~ In difficulty Object_prototype ->
  exists a b : Z,
    1 <= a <= 100 /\ 1 <= b <= 100
    /\ fst (_generateAddition difficulty r)
       = {| Question.text := toString a ++ " + " ++ toString b;
            Question.answer := Some (of_Z (a + b));
            Question.operation := "addition" |}.
Proof.
  intros Hr Hown.
  destruct (_getRandomNumber_whole difficulty r Hr Hown)
    as (size1 & q1 & Hsize1 & Hq1 & _ & Ha).
  destruct (_getRandomNumber_whole difficulty (next r)
              (in_unit_interval_next r Hr) Hown)
    as (size2 & q2 & Hsize2 & Hq2 & _ & Hb).
  exists (q1 + 1), (q2 + 1).
  split; [lia |]. split; [lia |].
  unfold _generateAddition, bind. rewrite Ha, Hb. unfold ret. cbn [fst].
  rewrite !texts by lia.
  destruct (sums (q1 + 1) (q2 + 1)) as (-> & _); [lia | lia |].
  reflexivity.
Qed.

Lemma _generateSubtraction_agrees (difficulty : string) (r : source) :
  in_unit_interval r -> ~ In difficulty Object_prototype ->
  exists a b : Z,
    1 <= b <= a /\ a <= 100
    /\ fst (_generateSubtraction difficulty r)
       = {| Question.text := toString a ++ " - " ++ toString b;
            Question.answer := Some (of_Z (a - b));
            Question.operation := "subtraction" |}.
Proof.
  intros Hr Hown.
  destruct (_generateSubtraction_swaps difficulty r Hr Hown)
    as (a & b & minuend & subtrahend & _ & _ & Ha & Hb & Hswap & Htext
        & Hanswer & _).
  pose proof (_generateSubtraction_operation difficulty r) as Hop.
  exists minuend, subtrahend.
  split; [lia |]. split; [lia |].
  destruct (fst (_generateSubtraction difficulty r)) as [text answer op].
  cbn [Question.text Question.answer Question.operation] in *.
  congruence.
Qed.

Lemma _generateMultiplication_agrees (difficulty : string) (r : source) :
  in_unit_interval r ->
  exists a b : Z,
    (difficulty = "easy" -> 1 <= a <= 10 /\ 1 <= b <= 10)
    /\ (difficulty = "medium" -> 1 <= a <= 12 /\ 1 <= b <= 10)
    /\ (1 <= a <= 20 /\ 1 <= b <= 20)
    /\ fst (_generateMultiplication difficulty r)
       = {| Question.text := toString a ++ " × " ++ toString b;
            Question.answer := Some (of_Z (a * b));
            Question.operation := "multiplication" |}.
Proof.
  intros Hr.
  pose proof (in_unit_interval_next r Hr) as Hr1.
  assert (Hbuilt :
            forall n1 n2 : Z,
              In n1 [10; 12; 20] -> In n2 [10; 20] ->
              exists a b : Z,
                1 <= a <= n1 /\ 1 <= b <= n2
                /\ fst ((ab <- (a <- draw n1 1 ;; b <- draw n2 1 ;;
                                ret (a, b)) ;;
                         let '(a, b) := ab in
                         ret {| Question.text :=
                                  Number_toString a ++ " × "
                                  ++ Number_toString b;
                                Question.answer := Some (mul a b);
                                Question.operation := "multiplication" |})
                          r)
                   = {| Question.text := toString a ++ " × " ++ toString b;
                        Question.answer := Some (of_Z (a * b));
                        Question.operation := "multiplication" |}).
  { intros n1 n2 H1 H2.
    destruct (draw_whole n1 1 r Hr) as (d & Hd & Hdraw1);
      [cbn [In] in *; intuition lia | lia |].
    destruct (draw_whole n2 1 (next r) Hr1) as (k & Hk & Hdraw2);
      [cbn [In] in *; intuition lia | lia |].
    assert (Hsmall : n1 <= 20 /\ n2 <= 20) by (cbn [In] in *; intuition lia).
    exists (d + 1), (k + 1). split; [lia |]. split; [lia |].
    unfold bind. rewrite Hdraw1, Hdraw2. unfold ret. cbn [fst].
    rewrite products by lia. rewrite !texts by lia. reflexivity. }
  unfold _generateMultiplication.
  destruct (String.eqb_spec difficulty "easy") as [He | He];
    [| destruct (String.eqb_spec difficulty "medium") as [Hm | Hm]].
  - destruct (Hbuilt 10 10) as (a & b & Ha & Hb & Hq);
      [cbn; auto | cbn; auto |].
    exists a, b. repeat split; try lia; try exact Hq; congruence.
  - destruct (Hbuilt 12 10) as (a & b & Ha & Hb & Hq);
      [cbn; auto | cbn; auto |].
    exists a, b. repeat split; try lia; try exact Hq; congruence.
  - destruct (Hbuilt 20 20) as (a & b & Ha & Hb & Hq);
      [cbn; auto | cbn; auto |].
    exists a, b. repeat split; try lia; try exact Hq; congruence.
Qed.

Lemma generateQuestion_not_mixed (operation difficulty : string) (r : source) :
  operation <> "mixed" ->
  generateQuestion operation difficulty r
  = (if String.eqb operation "addition" then _generateAddition difficulty
     else if String.eqb operation "subtraction"
     then _generateSubtraction difficulty
     else if String.eqb operation "multiplication"
     then _generateMultiplication difficulty
     else if String.eqb operation "division"
     then _generateDivision difficulty
     else _generateAddition difficulty) r.
Proof.
  intros Hmixed. unfold generateQuestion.
  destruct (String.eqb_spec operation "mixed"); [contradiction | reflexivity].
Qed.

(** In mixed mode the operation is the element of [operations] at
    [Math.floor(x * 4)] for the next random value [x]. *)
Lemma generateQuestion_mixed (difficulty : string) (r : source) :
  in_unit_interval r ->
  element operations (Math_floor (mul (draws r (cursor r)) (of_Z 4)))
  = Some (Question.operation (fst (generateQuestion "mixed" difficulty r))).
Proof.
  intros Hr.
  destruct (Math_floor_unit (draws r (cursor r)) 4 (Hr _))
    as (q & Hq & Hrange); [cbn; auto |].
  unfold generateQuestion. cbn [String.eqb Ascii.eqb Bool.eqb].
  unfold bind at 1. unfold _getRandomOperation, bind, ret, Math_random.
  cbv beta iota zeta.
  change (of_Z (Z.of_nat (List.length operations))) with (of_Z 4).
  rewrite Hq.
  assert (Hq4 : q = 0 \/ q = 1 \/ q = 2 \/ q = 3) by lia.
  destruct Hq4 as [-> | [-> | [-> | ->]]].
  - change (element operations (of_Z 0)) with (Some "addition").
    cbn [String.eqb Ascii.eqb Bool.eqb].
    rewrite _generateAddition_operation. reflexivity.
  - change (element operations (of_Z 1)) with (Some "subtraction").
    cbn [String.eqb Ascii.eqb Bool.eqb].
    rewrite _generateSubtraction_operation. reflexivity.
  - change (element operations (of_Z 2)) with (Some "multiplication").
    cbn [String.eqb Ascii.eqb Bool.eqb].
    rewrite _generateMultiplication_operation. reflexivity.
  - change (element operations (of_Z 3)) with (Some "division").
    cbn [String.eqb Ascii.eqb Bool.eqb].
    rewrite _generateDivision_operation. reflexivity.
Qed.

(** The operands behind a generated question. *)
Lemma generateQuestion_operands (operation difficulty : string) (r : source) :
  in_unit_interval r -> ~ In difficulty Object_prototype ->
  let q := fst (generateQuestion operation difficulty r) in
  exists (a b : Z) (symbol : string),
    getOperationSymbol (Question.operation q) = Some symbol
    /\ Question.text q = toString a ++ " " ++ symbol ++ " " ++ toString b
    /\ Question.answer q
       = Some (of_Z (result_of (Question.operation q) a b))
    /\ 0 <= result_of (Question.operation q) a b <= 400
    /\ (Question.operation q = "division" -> b <> 0 /\ a mod b = 0).
Proof.
  intros Hr Hown q. subst q.
  pose proof (generateQuestion_dispatch operation difficulty r) as Hgen.
  cbv zeta in Hgen.
  set (r' := if String.eqb operation "mixed" then next r else r) in Hgen.
  assert (Hr' : in_unit_interval r')
    by (subst r'; destruct (String.eqb operation "mixed");
        [apply in_unit_interval_next |]; exact Hr).
  clearbody r'.
  destruct Hgen as [Hgen | [Hgen | [Hgen | Hgen]]]; rewrite Hgen.
  - destruct (_generateAddition_agrees difficulty r' Hr' Hown)
      as (a & b & Ha & Hb & ->).
    exists a, b, "+". cbn. repeat split; try lia; discriminate.
  - destruct (_generateSubtraction_agrees difficulty r' Hr' Hown)
      as (a & b & Hb & Ha & ->).
    exists a, b, "-". cbn. repeat split; try lia; discriminate.
  - destruct (_generateMultiplication_agrees difficulty r' Hr')
      as (a & b & _ & _ & [Ha Hb] & ->).
    exists a, b, "×". cbn. repeat split; try nia; discriminate.
  - destruct (_generateDivision_exact difficulty r' Hr')
      as (divisor & quotient & dividend & He & Hm & Hh & Hdiv & Htext
          & Hanswer & Hmod & Hquot).
    rewrite _generateDivision_operation.
    assert (Hrange : 2 <= divisor <= 13 /\ 1 <= quotient <= 30).
    { destruct (String.eqb_spec difficulty "easy") as [E | E];
        [specialize (He E); lia |].
      destruct (String.eqb_spec difficulty "medium") as [M | M];
        [specialize (Hm M); lia |].
      specialize (Hh E M). lia. }
    exists dividend, divisor, "÷". unfold result_of.
    cbn [String.eqb Ascii.eqb Bool.eqb].
    rewrite Hquot.
    split; [reflexivity |]. split; [exact Htext |].
    split; [exact Hanswer |]. split; [lia |].
    intros _. split; [lia | exact Hmod].
Qed.

(** X1. Text, operation and answer of a generated question agree, for a
    difficulty that is not the name of an inherited member: the operation
    is one of the four concrete ones (the one asked for when it is one of
    them, in mixed mode the element of [operations] at
    [Math.floor(x * 4)] for the next random value [x], addition when it is
    unknown), the text is the two operands around the symbol of the
    operation, and the answer is what the operation gives on them, a whole
    number of 0 .. 400; a division has a divisor that is not 0 and divides
    the dividend. *)
Theorem generated_question_agrees :
  forall (operation difficulty : string) (r : source),
    in_unit_interval r ->
    ~ In difficulty Object_prototype ->
    let q := fst (generateQuestion operation difficulty r) in
    In (Question.operation q) operations
    /\ (In operation operations -> Question.operation q = operation)
    /\ (operation = "mixed" ->
        element operations
          (Math_floor (mul (draws r (cursor r)) (of_Z 4)))
        = Some (Question.operation q))
    /\ (~ In operation operations -> operation <> "mixed" ->
        Question.operation q = "addition")
    /\ exists (a b : Z) (symbol : string),
        getOperationSymbol (Question.operation q) = Some symbol
        /\ Question.text q = toString a ++ " " ++ symbol ++ " " ++ toString b
        /\ Question.answer q
           = Some (of_Z (result_of (Question.operation q) a b))
        /\ 0 <= result_of (Question.operation q) a b <= 400
        /\ (Question.operation q = "division" -> b <> 0 /\ a mod b = 0).
Proof.
  intros operation difficulty r Hr Hown q. subst q.
  assert (Hasked :
            (In operation operations ->
             Question.operation (fst (generateQuestion operation difficulty r))
             = operation)
            /\ (~ In operation operations -> operation <> "mixed" ->
                Question.operation
                  (fst (generateQuestion operation difficulty r))
                = "addition")).
  { unfold operations. cbn [In].
    destruct (String.eqb_spec operation "mixed") as [Hmixed | Hmixed].
    - split; [| congruence].
      intros [H | [H | [H | [H | []]]]]; rewrite Hmixed in H; discriminate.
    - rewrite (generateQuestion_not_mixed operation difficulty r Hmixed).
      destruct (String.eqb_spec operation "addition") as [H1 | H1];
        [rewrite _generateAddition_operation; easy |].
      destruct (String.eqb_spec operation "subtraction") as [H2 | H2];
        [rewrite _generateSubtraction_operation;
         split; [easy | intros Hn; exfalso; apply Hn; auto] |].
      destruct (String.eqb_spec operation "multiplication") as [H3 | H3];
        [rewrite _generateMultiplication_operation;
         split; [easy | intros Hn; exfalso; apply Hn; auto] |].
      destruct (String.eqb_spec operation "division") as [H4 | H4];
        [rewrite _generateDivision_operation;
         split; [easy | intros Hn; exfalso; apply Hn; auto 6] |].
      rewrite _generateAddition_operation. split; [| reflexivity].
      intros [H | [H | [H | [H | []]]]]; congruence. }
  split; [| split; [apply Hasked | split; [| split; [apply Hasked |]]]].
  - unfold operations. cbn [In].
    destruct (generateQuestion_dispatch operation difficulty r)
      as [Hgen | [Hgen | [Hgen | Hgen]]]; rewrite Hgen.
    + rewrite _generateAddition_operation. auto.
    + rewrite _generateSubtraction_operation. auto.
    + rewrite _generateMultiplication_operation. auto.
    + rewrite _generateDivision_operation. auto.
  - intros ->. apply generateQuestion_mixed, Hr.
  - exact (generateQuestion_operands operation difficulty r Hr Hown).
Qed.

Lemma generated_question_agrees_witness :
  let q := fst (generateQuestion "mixed" "hard" sevenths) in
  In (Question.operation q) operations
  /\ (In "mixed" operations -> Question.operation q = "mixed")
  /\ ("mixed" = "mixed" ->
      element operations
        (Math_floor (mul (draws sevenths (cursor sevenths)) (of_Z 4)))
      = Some (Question.operation q))
  /\ (~ In "mixed" operations -> "mixed" <> "mixed" ->
      Question.operation q = "addition")
  /\ exists (a b : Z) (symbol : string),
      getOperationSymbol (Question.operation q) = Some symbol
      /\ Question.text q = toString a ++ " " ++ symbol ++ " " ++ toString b
      /\ Question.answer q
         = Some (of_Z (result_of (Question.operation q) a b))
      /\ 0 <= result_of (Question.operation q) a b <= 400
      /\ (Question.operation q = "division" -> b <> 0 /\ a mod b = 0).
Proof.
  apply (generated_question_agrees "mixed" "hard" sevenths).
  - exact sevenths_in_unit_interval.
  - cbn [In Object_prototype]. intuition discriminate.
Defined.

Lemma integers_decided_400 : integers_decided 400 = true.
Proof. vm_compute. reflexivity. Qed.

Lemma integers_decided_spec (bound : nat) :
  integers_decided bound = true ->
  forall m n : Z,
    0 <= m <= Z.of_nat bound -> 0 <= n <= Z.of_nat bound ->
    validateAnswer (Str (toString m))
      (MathTugOfWar.answerValue (Some (of_Z n)))
    = (m =? n).
Proof.
  unfold integers_decided. intros Hall m n Hm Hn.
  rewrite forallb_forall in Hall.
  specialize (Hall n (In_upto bound n Hn)). cbv beta in Hall.
  rewrite forallb_forall in Hall.
  specialize (Hall m (In_upto bound m Hm)). cbv beta in Hall.
  apply Bool.eqb_prop in Hall. exact Hall.
Qed.

(** X3. Whatever question is generated for a difficulty that is not the
    name of an inherited member, its recorded answer is a whole number of
    0 .. 400, the decimal text of that number is judged correct by
    [validateAnswer] against the answer as [handleSubmit] passes it, and
    the text of every other whole number of 0 .. 400 is judged wrong. *)
Theorem recorded_answer_is_accepted :
  forall (operation difficulty : string) (r : source),
    in_unit_interval r ->
    ~ In difficulty Object_prototype ->
    let q := fst (generateQuestion operation difficulty r) in
    exists n : Z,
      Question.answer q = Some (of_Z n)
      /\ 0 <= n <= 400
      /\ validateAnswer (Str (toString n))
           (MathTugOfWar.answerValue (Question.answer q)) = true
      /\ forall m : Z,
          0 <= m <= 400 -> m <> n ->
          validateAnswer (Str (toString m))
            (MathTugOfWar.answerValue (Question.answer q)) = false.
Proof.
  intros operation difficulty r Hr Hown q.
  destruct (generateQuestion_operands operation difficulty r Hr Hown)
    as (a & b & symbol & _ & _ & Hanswer & Hrange & _).
  fold q in Hanswer, Hrange.
  exists (result_of (Question.operation q) a b).
  pose proof (integers_decided_spec 400 integers_decided_400) as Hdecided.
  change (Z.of_nat 400) with 400 in Hdecided.
  rewrite Hanswer. repeat split; try lia.
  - rewrite Hdecided by lia. apply Z.eqb_refl.
  - intros m Hm Hne. rewrite Hdecided by lia. apply Z.eqb_neq, Hne.
Qed.

Lemma recorded_answer_is_accepted_witness :
  let q := fst (generateQuestion "mixed" "hard" sevenths) in
  exists n : Z,
    Question.answer q = Some (of_Z n)
    /\ 0 <= n <= 400
    /\ validateAnswer (Str (toString n))
         (MathTugOfWar.answerValue (Question.answer q)) = true
    /\ forall m : Z,
        0 <= m <= 400 -> m <> n ->
        validateAnswer (Str (toString m))
          (MathTugOfWar.answerValue (Question.answer q)) = false.
Proof.
  apply (recorded_answer_is_accepted "mixed" "hard" sevenths).
  - exact sevenths_in_unit_interval.
  - cbn [In Object_prototype]. intuition discriminate.
Defined.

(** X4. What [validateAnswer] does with an expected value that is no
    finite number: against [undefined] or [NaN] every answer is wrong,
    [null] counts as 0, and an answer that converts to [Infinity] or
    [-Infinity], as the texts "Infinity", "-Infinity", "+Infinity" and
    "1e999" do, is wrong whatever is expected. *)
Theorem validateAnswer_without_a_number :
  forall userAnswer expected : value,
    validateAnswer userAnswer undefined = false
    /\ validateAnswer userAnswer (Num NaN) = false
    /\ validateAnswer userAnswer null = validateAnswer userAnswer (Num pos_zero)
    /\ (forall s : bool,
           Number userAnswer = S754_infinity s ->
           validateAnswer userAnswer expected = false)
    /\ Number (Str "Infinity") = S754_infinity false
    /\ Number (Str "-Infinity") = S754_infinity true
    /\ Number (Str "+Infinity") = S754_infinity false
    /\ Number (Str "1e999") = S754_infinity false
    /\ Number (Str "-1e999") = S754_infinity true.
Proof.
  intros userAnswer expected.
  assert (Hnan : forall x : number, lt (Math_abs (sub x NaN))
                                       (of_decimal false 1 (-2)) = false)
    by (intros [| | |]; reflexivity).
  assert (Hinf : forall (s : bool) (y : number),
             lt (Math_abs (sub (S754_infinity s) y))
                (of_decimal false 1 (-2)) = false)
    by (intros [|] [[|] | [|] | | [|] m e]; reflexivity).
  split; [| split; [| split; [| split]]].
  - unfold validateAnswer.
    destruct userAnswer as [| | [| ch rest] | x]; try reflexivity;
      destruct (is_nan _); try reflexivity; apply Hnan.
  - unfold validateAnswer.
    destruct userAnswer as [| | [| ch rest] | x]; try reflexivity;
      destruct (is_nan _); try reflexivity; apply Hnan.
  - reflexivity.
  - intros s Hs. unfold validateAnswer.
    destruct userAnswer as [| | [| ch rest] | x]; try reflexivity;
      rewrite Hs; cbn [is_nan]; apply Hinf.
  - repeat split; vm_compute; reflexivity.
Qed.

End Questions.

(* ================================================================== *)
(** * ScoreManager                                                      *)
(* ================================================================== *)

Section Scores.

(** X5. The three readings of the scores agree: [determineWinner] says
    'tie' exactly when [getScoreDifference] is 0 and otherwise names the
    player whose [getPlayerScore] is larger.  A player id other than 1 is
    read as player 2 by [getPlayerScore], and [updateScore] changes nothing
    for an id that is neither 1 nor 2. *)
Theorem determineWinner_agrees_with_scores :
  forall (sm : ScoreManager.t) (player points : Z),
    (ScoreManager.determineWinner sm = "tie"
     <-> ScoreManager.getScoreDifference sm = 0)
    /\ (ScoreManager.determineWinner sm = "player1"
        <-> ScoreManager.getPlayerScore 1 sm > ScoreManager.getPlayerScore 2 sm)
    /\ (ScoreManager.determineWinner sm = "player2"
        <-> ScoreManager.getPlayerScore 2 sm > ScoreManager.getPlayerScore 1 sm)
    /\ (player <> 1 ->
        ScoreManager.getPlayerScore player sm
        = ScoreManager.getPlayerScore 2 sm)
    /\ (player <> 1 -> player <> 2 ->
        ScoreManager.updateScore player points sm = sm)
    /\ ScoreManager.getPlayerScore 1 (ScoreManager.updateScore 1 points sm)
       = ScoreManager.getPlayerScore 1 sm + points
    /\ ScoreManager.getPlayerScore 2 (ScoreManager.updateScore 1 points sm)
       = ScoreManager.getPlayerScore 2 sm.
Proof.
  intros sm player points.
  unfold ScoreManager.determineWinner, ScoreManager.getScoreDifference,
    ScoreManager.getPlayerScore, ScoreManager.updateScore.
  cbn [Z.eqb Pos.eqb ScoreManager.scores player1 player2].
  rewrite !Z.gtb_ltb.
  destruct (Z.ltb_spec (player2 (ScoreManager.scores sm))
                       (player1 (ScoreManager.scores sm)));
    [| destruct (Z.ltb_spec (player1 (ScoreManager.scores sm))
                            (player2 (ScoreManager.scores sm)))];
    (repeat split; intros; try discriminate; try reflexivity; try lia);
    try (destruct (Z.eqb_spec player 1); [contradiction | reflexivity]);
    try (destruct (Z.eqb_spec player 1); [contradiction |];
         destruct (Z.eqb_spec player 2); [contradiction | reflexivity]).
Qed.

End Scores.

(* ================================================================== *)
(** * The controller: what holds in every state a page can reach      *)
(* ================================================================== *)

Lemma core_eq (c : MathTugOfWar.t) g sm snd0 ti tr n el rnd :
  core c = (g, sm, snd0, ti, tr, n, el, rnd) ->
  MathTugOfWar.gameState c = g /\ MathTugOfWar.scoreManager c = sm
  /\ MathTugOfWar.soundManager c = snd0
  /\ MathTugOfWar.timerInterval c = ti /\ MathTugOfWar.timeRemaining c = tr
  /\ MathTugOfWar.nextQuestionTimeouts c = n
  /\ MathTugOfWar.elements c = el /\ MathTugOfWar.random c = rnd.
Proof.
  unfold core. intros H. inversion H. repeat split.
Qed.

(** The eight equations of an equation between two cores. *)
Ltac core_fields H :=
  cbv zeta in H; apply core_eq in H;
  destruct H as (Hg & Hsm & Hsnd & Hti & Htr & Hn & Hel & Hrnd).

Section Core.
Import JS MathTugOfWar.

Lemma handleWin_core winner c :
  core (handleWin winner c)
  = (GameState.end_ (gameState c), scoreManager c, soundManager c, false,
     timeRemaining c, nextQuestionTimeouts c,
     elements (setInputEnabled false c), random c).
Proof.
  unfold handleWin, playSound, stopTimer, core.
  split_cases; try reflexivity.
  all: cbn in *;
    repeat match goal with H : timerInterval _ = false |- _ => rewrite H end;
    reflexivity.
Qed.

Lemma processAnswer_from_win_check isCorrect userAnswer c :
  processAnswer isCorrect userAnswer c
  = let this := beforeWinCheck isCorrect userAnswer c in
    match GameState.checkWinCondition (gameState this) with
    | Some winner => handleWin winner this
    | None =>
        if GameState.questionLimitEnabled (GameState.settings (gameState this))
           && (GameState.totalQuestions (GameState.stats (gameState this))
               >=? GameState.questionLimit
                     (GameState.settings (gameState this)))
           && negb (String.eqb
                      (ScoreManager.determineWinner (scoreManager this)) "tie")
        then handleWin (ScoreManager.determineWinner (scoreManager this)) this
        else set_nextQuestionTimeouts (S (nextQuestionTimeouts this))
               (set_gameState (GameState.switchPlayer (gameState this)) this)
    end.
Proof.
  change (processAnswer isCorrect userAnswer c)
    with (let this := beforeWinCheck isCorrect userAnswer c in
          match GameState.checkWinCondition (gameState this) with
          | Some winner => handleWin winner this
          | None =>
              let continue (this : t) : t :=
                let this :=
                  set_gameState (GameState.switchPlayer (gameState this))
                                this in
                set_nextQuestionTimeouts (S (nextQuestionTimeouts this))
                                         this in
              if GameState.questionLimitEnabled
                   (GameState.settings (gameState this))
              then
                if GameState.totalQuestions (GameState.stats (gameState this))
                   >=? GameState.questionLimit
                         (GameState.settings (gameState this))
                then
                  let scoreWinner :=
                    ScoreManager.determineWinner (scoreManager this) in
                  if String.eqb scoreWinner "tie"
                  then continue this
                  else handleWin scoreWinner this
                else continue this
              else continue this
          end).
  generalize (beforeWinCheck isCorrect userAnswer c). intros mid. cbv zeta.
  destruct (GameState.checkWinCondition (gameState mid)); [reflexivity |].
  destruct (GameState.questionLimitEnabled _); [| reflexivity].
  destruct (_ >=? _); [| reflexivity].
  destruct (String.eqb _ _); reflexivity.
Qed.

Lemma beforeWinCheck_core isCorrect userAnswer c :
  core (beforeWinCheck isCorrect userAnswer c)
  = (GameState.updateRopePosition isCorrect
       (GameState.updateStats isCorrect false (gameState c)),
     (if isCorrect
      then ScoreManager.updateScore
             (GameState.currentPlayer (gameState c)) 1 (scoreManager c)
      else scoreManager c),
     soundManager c, timerInterval c, timeRemaining c,
     nextQuestionTimeouts c, elements c, random c).
Proof.
  unfold beforeWinCheck, playSound, core.
  destruct isCorrect; destruct (SoundManager.enabled (soundManager c)) eqn:E;
    cbn; rewrite ?E; reflexivity.
Qed.

Lemma processAnswer_core isCorrect userAnswer c :
  let g1 :=
    GameState.updateRopePosition isCorrect
      (GameState.updateStats isCorrect false (gameState c)) in
  let sm1 :=
    if isCorrect
    then ScoreManager.updateScore
           (GameState.currentPlayer (gameState c)) 1 (scoreManager c)
    else scoreManager c in
  core (processAnswer isCorrect userAnswer c)
  = if round_over g1 sm1
    then (GameState.end_ g1, sm1, soundManager c, false, timeRemaining c,
          nextQuestionTimeouts c, elements (setInputEnabled false c),
          random c)
    else (GameState.switchPlayer g1, sm1, soundManager c, timerInterval c,
          timeRemaining c, S (nextQuestionTimeouts c), elements c, random c).
Proof.
  intros g1 sm1. rewrite processAnswer_from_win_check. cbv zeta.
  pose proof (beforeWinCheck_core isCorrect userAnswer c) as Hmid.
  fold g1 sm1 in Hmid.
  generalize dependent (beforeWinCheck isCorrect userAnswer c).
  intros mid Hmid. unfold core in Hmid.
  injection Hmid as Hg Hsm Hsnd Hti Htr Hn Hel Hrnd.
  unfold round_over. rewrite Hg, Hsm.
  assert (Hinput : elements (setInputEnabled false mid)
                   = elements (setInputEnabled false c))
    by (unfold setInputEnabled; cbn; rewrite Hel; reflexivity).
  split_cases; rewrite ?handleWin_core; unfold core; cbn;
    congruence.
Qed.

Lemma stopTimer_core c :
  core (stopTimer c)
  = (gameState c, scoreManager c, soundManager c, false, timeRemaining c,
     nextQuestionTimeouts c, elements c, random c).
Proof.
  unfold stopTimer, core. destruct (timerInterval c) eqn:E; cbn;
    rewrite ?E; reflexivity.
Qed.

Lemma nextQuestion_core c :
  let gen :=
    QuestionGenerator.generateQuestion
      (GameState.operation (GameState.settings (gameState c)))
      (GameState.difficulty (GameState.settings (gameState c)))
      (random c) in
  let timed := GameState.timerEnabled (GameState.settings (gameState c)) in
  core (nextQuestion c)
  = (GameState.setCurrentQuestion (fst gen) (gameState c), scoreManager c,
     soundManager c,
     (if timed then true else timerInterval c),
     (if timed
      then GameState.timerValue (GameState.settings (gameState c))
      else timeRemaining c),
     nextQuestionTimeouts c, elements (clearInput c), snd gen).
Proof.
  cbv zeta. unfold nextQuestion, startTimer, stopTimer, core.
  destruct (QuestionGenerator.generateQuestion _ _ _) as [question rnd].
  cbn [fst snd gameState set_gameState set_random emit clearInput
       set_elements GameState.settings GameState.setCurrentQuestion].
  destruct (GameState.timerEnabled _); [| reflexivity].
  cbn [timerInterval emit clearInput set_elements set_gameState set_random].
  destruct (timerInterval c); reflexivity.
Qed.

Lemma startGame_core c :
  let gen :=
    QuestionGenerator.generateQuestion
      (GameState.operation (GameState.settings (gameState c)))
      (GameState.difficulty (GameState.settings (gameState c)))
      (random c) in
  let timed := GameState.timerEnabled (GameState.settings (gameState c)) in
  core (startGame c)
  = (GameState.setCurrentQuestion (fst gen) (GameState.start (gameState c)),
     scoreManager c, soundManager c,
     (if timed then true else timerInterval c),
     (if timed
      then GameState.timerValue (GameState.settings (gameState c))
      else timeRemaining c),
     nextQuestionTimeouts c,
     elements
       (setButtonsDisabled true false
          (setInputEnabled true (clearInput (_setSettingsEnabled false c)))),
     snd gen).
Proof.
  cbv zeta.
  pose (inner := set_gameState (GameState.start (gameState c))
                   (emit settingsPanelHide (_setSettingsEnabled false c))).
  change (startGame c)
    with (setButtonsDisabled true false
            (setInputEnabled true (nextQuestion inner))).
  pose proof (nextQuestion_core inner) as H. cbv zeta in H.
  assert (Hinner : core inner
                   = (GameState.start (gameState c), scoreManager c,
                      soundManager c, timerInterval c, timeRemaining c,
                      nextQuestionTimeouts c,
                      elements (_setSettingsEnabled false c), random c))
    by reflexivity.
  clearbody inner. unfold core in *.
  injection H as Hg Hsm Hsnd Hti Htr Hn Hel Hrnd.
  injection Hinner as Ig Ism Isnd Iti Itr In_ Iel Irnd.
  rewrite Ig, ?Ism, ?Isnd, ?Iti, ?Itr, ?In_, ?Irnd in *.
  cbn [gameState scoreManager soundManager timerInterval timeRemaining
       nextQuestionTimeouts random setButtonsDisabled setInputEnabled
       set_elements].
  rewrite Hg, Hsm, Hsnd, Hti, Htr, Hn, Hrnd.
  unfold setButtonsDisabled, setInputEnabled, clearInput in *.
  cbn [elements set_elements answerInput_value answerInput_disabled
       submitBtn_disabled startBtn_disabled pauseBtn_disabled
       difficultySelect_disabled operationSelect_disabled
       timerToggle_disabled timerValueInput_disabled
       questionLimitToggle_disabled questionLimitInput_disabled] in *.
  rewrite Hel, Iel. reflexivity.
Qed.

Lemma resetGame_core c :
  core (resetGame c)
  = (GameState.reset (gameState c), ScoreManager.reset (scoreManager c),
     soundManager c, false, timeRemaining c, nextQuestionTimeouts c,
     elements
       (setButtonsDisabled false true
          (_setSettingsEnabled true
             (setInputEnabled false (clearInput c)))),
     random c).
Proof.
  unfold resetGame, stopTimer, core.
  destruct (timerInterval c) eqn:E; cbn; rewrite ?E; reflexivity.
Qed.

Lemma resolution_fields isCorrect g :
  let g1 :=
    GameState.updateRopePosition isCorrect
      (GameState.updateStats isCorrect false g) in
  GameState.currentPlayer g1 = GameState.currentPlayer g
  /\ GameState.scores g1 = GameState.scores g
  /\ GameState.settings g1 = GameState.settings g
  /\ GameState.gameStatus g1 = GameState.gameStatus g
  /\ GameState.currentQuestion g1 = GameState.currentQuestion g
  /\ GameState.stats g1
     = GameState.stats (GameState.updateStats isCorrect false g).
Proof. destruct isCorrect; repeat split. Qed.

Lemma generateQuestion_answer operation difficulty r :
  Question.answer
    (fst (QuestionGenerator.generateQuestion operation difficulty r)) <> None.
Proof.
  destruct (generateQuestion_dispatch operation difficulty r)
    as [H | [H | [H | H]]]; rewrite H;
    unfold QuestionGenerator._generateAddition,
      QuestionGenerator._generateSubtraction,
      QuestionGenerator._generateMultiplication,
      QuestionGenerator._generateDivision, bind, ret;
    repeat match goal with
           | |- context [QuestionGenerator._getRandomNumber ?d ?s] =>
               destruct (QuestionGenerator._getRandomNumber d s)
           end;
    split_cases; cbn; discriminate.
Qed.

(** [processAnswer] on a state in play whose countdown is stopped; the
    counters need the bound on timeouts only up to the wrong answer that is
    about to be counted. *)
Lemma processAnswer_game_invariant (isCorrect : bool) (userAnswer : string)
      (d : MathTugOfWar.t) :
  (GameState.currentPlayer (gameState d) = 1
   \/ GameState.currentPlayer (gameState d) = 2) ->
  GameState.scores (gameState d) = noScores ->
  0 <= player1 (ScoreManager.scores (scoreManager d))
  /\ 0 <= player2 (ScoreManager.scores (scoreManager d))
  /\ player1 (ScoreManager.scores (scoreManager d))
     + player2 (ScoreManager.scores (scoreManager d))
     = GameState.correctAnswers (GameState.stats (gameState d)) ->
  0 <= GameState.correctAnswers (GameState.stats (gameState d))
  /\ 0 <= GameState.timeouts (GameState.stats (gameState d))
     <= GameState.wrongAnswers (GameState.stats (gameState d))
        + (if isCorrect then 0 else 1) ->
  5 <= GameState.timerValue (GameState.settings (gameState d)) <= 60
  /\ 5 <= GameState.questionLimit (GameState.settings (gameState d)) <= 100 ->
  GameState.gameStatus (gameState d) = GameState.playing ->
  timerInterval d = false ->
  startBtn_disabled (elements d) = true
  /\ Question.answer (GameState.currentQuestion (gameState d)) <> None ->
  answerInput_disabled (elements d) = false
  /\ submitBtn_disabled (elements d) = false ->
  game_invariant (processAnswer isCorrect userAnswer d).
Proof.
  intros Hplayer Hunused Hscores Hstats Hsettings Hstatus Htimer Hstarted
         Hinput.
  pose proof (processAnswer_core isCorrect userAnswer d) as Hcore.
  cbv zeta in Hcore.
  destruct (round_over _ _); unfold core in Hcore;
    injection Hcore as Hg Hsm Hsnd Hti Htr Hn Hel Hrnd;
    (constructor; rewrite ?Hg, ?Hsm, ?Hti, ?Htr, ?Hel;
     unfold ScoreManager.updateScore;
     destruct isCorrect; destruct Hplayer as [Hp | Hp];
     cbn; rewrite ?Hp, ?Hstatus; cbn;
     intuition (try discriminate; try congruence; try lia)).
Qed.

End Core.

Section GameInvariant.
Import JS MathTugOfWar.



Lemma resetGame_game_invariant c : game_invariant (resetGame c).
Proof.
  pose proof (resetGame_core c) as H. core_fields H.
  constructor; rewrite ?Hg, ?Hsm, ?Hti, ?Htr, ?Hel; cbn;
    intuition (try discriminate; try congruence; try lia).
Qed.

Lemma startGame_game_invariant c :
  game_invariant c -> game_invariant (startGame c).
Proof.
  intros [I1 I2 I3 I4 I5 I6 I7 I8 I9].
  pose proof (startGame_core c) as H. core_fields H.
  pose proof (generateQuestion_answer
                (GameState.operation (GameState.settings (gameState c)))
                (GameState.difficulty (GameState.settings (gameState c)))
                (random c)) as Hanswer.
  constructor; rewrite ?Hg, ?Hsm, ?Hti, ?Htr, ?Hel; cbn;
    try assumption; try (intuition (try discriminate; try congruence; fail)).
  destruct (GameState.timerEnabled _); intros Hon;
    [split; [reflexivity | lia] | ].
  split; [reflexivity | apply I6, Hon].
Qed.

Lemma handleSubmit_game_invariant c :
  game_invariant c -> game_invariant (handleSubmit c).
Proof.
  intros Hinv. unfold handleSubmit.
  destruct (GameState.gameStatus (gameState c)) eqn:Hs; try exact Hinv.
  destruct Hinv as [I1 I2 I3 I4 I5 I6 I7 I8 I9].
  pose proof (stopTimer_core c) as H. core_fields H.
  rewrite Hs in *. cbn [is_playing negb] in I9.
  apply processAnswer_game_invariant;
    rewrite ?Hg, ?Hsm, ?Hti, ?Hel; try assumption; try reflexivity.
  - destruct (QuestionGenerator.validateAnswer _ _); lia.
  - apply I7. discriminate.
Qed.

Lemma timerCallback_game_invariant c :
  game_invariant c -> timerInterval c = true ->
  game_invariant (timerCallback c).
Proof.
  intros [I1 I2 I3 I4 I5 I6 I7 I8 I9] Hon.
  destruct (I6 Hon) as [Hs Hleft0]. rewrite Hs in *.
  cbn [is_playing negb] in I9.
  unfold timerCallback.
  cbn [timeRemaining set_timeRemaining emit].
  destruct (Z.leb_spec (timeRemaining c - 1) 0) as [Hout | Hleft].
  - unfold handleTimeout.
    pose proof (stopTimer_core
                  (emit (updateTimer (timeRemaining c - 1))
                        (set_timeRemaining (timeRemaining c - 1) c))) as H.
    core_fields H. cbn in Hg, Hsm, Hel.
    apply processAnswer_game_invariant;
      cbn [gameState scoreManager elements timerInterval set_gameState];
      rewrite ?Hg, ?Hsm, ?Hti, ?Hel; cbn; try assumption; try reflexivity;
      try lia.
    apply I7. discriminate.
  - constructor; cbn; rewrite ?Hs; try assumption.
    intros _. split; [reflexivity | lia].
Qed.

Lemma togglePause_game_invariant c :
  game_invariant c -> game_invariant (togglePause c).
Proof.
  intros Hinv. unfold togglePause.
  destruct (GameState.gameStatus (gameState c)) eqn:Hs; try exact Hinv;
    destruct Hinv as [I1 I2 I3 I4 I5 I6 I7 I8 I9]; rewrite Hs in *.
  - pose proof (stopTimer_core
                  (set_gameState (GameState.pause (gameState c)) c)) as H.
    core_fields H.
    constructor;
      cbn [gameState scoreManager elements timerInterval timeRemaining emit
           setInputEnabled set_elements];
      rewrite ?Hg, ?Hsm, ?Hti, ?Htr, ?Hel; cbn;
      try assumption;
      intuition (try discriminate; try congruence).
  - unfold startTimer.
    set (d := setInputEnabled true
                (set_gameState (GameState.resume (gameState c)) c)).
    pose proof (stopTimer_core d) as H. core_fields H.
    assert (Hoff : timerInterval c = false).
    { destruct (timerInterval c); [| reflexivity].
      destruct (I6 eq_refl) as [Habs _]. discriminate. }
    destruct (GameState.timerEnabled (GameState.settings (gameState d)));
      constructor;
      cbn [gameState scoreManager elements timerInterval timeRemaining emit
           set_timerInterval set_timeRemaining];
      rewrite ?Hg, ?Hsm, ?Hti, ?Htr, ?Hel; subst d; cbn;
      rewrite ?Hoff; try assumption;
      intuition (try discriminate; try congruence; try lia).
Qed.

Lemma nextQuestionCallback_game_invariant d :
  game_invariant d -> game_invariant (nextQuestionCallback d).
Proof.
  intros [I1 I2 I3 I4 I5 I6 I7 I8 I9].
  unfold nextQuestionCallback.
  destruct (GameState.gameStatus (gameState d)) eqn:Hs;
    try (constructor; rewrite ?Hs; assumption).
  pose proof (nextQuestion_core d) as H. core_fields H.
  pose proof (generateQuestion_answer
                (GameState.operation (GameState.settings (gameState d)))
                (GameState.difficulty (GameState.settings (gameState d)))
                (random d)) as Hanswer.
  try rewrite Hs in *.
  constructor; rewrite ?Hg, ?Hsm, ?Hti, ?Htr, ?Hel; cbn; rewrite ?Hs;
    try assumption; try (intuition (try discriminate; try congruence; fail)).
  destruct (GameState.timerEnabled _); intros Hon;
    [split; [reflexivity | lia] | ].
  split; [reflexivity | apply I6, Hon].
Qed.

Lemma step_game_invariant c e :
  round_invariant c -> game_invariant c -> game_invariant (step c e).
Proof.
  intros Hround Hinv. unfold step.
  destruct (occurs e c) eqn:Hoccurs; [| exact Hinv].
  destruct e; cbn [listener occurs] in *.
  - apply handleSubmit_game_invariant, Hinv.
  - unfold handleKeyPress.
    destruct (String.eqb key "Enter");
      [apply handleSubmit_game_invariant |]; exact Hinv.
  - destruct Hinv; constructor; assumption.
  - apply startGame_game_invariant, Hinv.
  - apply togglePause_game_invariant, Hinv.
  - apply resetGame_game_invariant.
  - destruct Hinv; constructor; assumption.
  - destruct Hinv; constructor; assumption.
  - apply startGame_game_invariant, resetGame_game_invariant.
  - destruct Hinv; constructor; assumption.
  - destruct Hinv; constructor; assumption.
  - destruct Hinv; constructor; assumption.
  - destruct (parseInt _) as [v |]; [| exact Hinv].
    destruct (Z.geb_spec v 5); [| exact Hinv].
    destruct (Z.leb_spec v 60); [| exact Hinv].
    destruct Hinv as [I1 I2 I3 I4 I5 I6 I7 I8 I9].
    constructor; cbn; try assumption; try lia.
    intros Hon. exfalso. destruct (I6 Hon) as [Hs _].
    destruct Hround as [_ Hlocked].
    assert (Hne : GameState.gameStatus (gameState c) <> GameState.idle)
      by (rewrite Hs; discriminate).
    specialize (Hlocked Hne). unfold settingsControls in Hlocked.
    assert (Hd : timerValueInput_disabled (elements c) = true) by congruence.
    rewrite Hd in Hoccurs. discriminate.
  - destruct Hinv; constructor; assumption.
  - destruct (parseInt _) as [v |]; [| exact Hinv].
    destruct (Z.geb_spec v 5); [| exact Hinv].
    destruct (Z.leb_spec v 100); [| exact Hinv].
    destruct Hinv as [I1 I2 I3 I4 I5 I6 I7 I8 I9].
    constructor; cbn; try assumption; lia.
  - destruct Hinv; constructor; assumption.
  - destruct Hinv; constructor; assumption.
  - apply timerCallback_game_invariant; assumption.
  - apply nextQuestionCallback_game_invariant.
    destruct Hinv; constructor; assumption.
Qed.

(** Every state of a game satisfies the three invariants. *)
Lemma reachable_invariants c :
  reachable c ->
  round_invariant c /\ data_invariant (gameState c) /\ game_invariant c.
Proof.
  intros Hreach.
  split; [apply reachable_invariant, Hreach |].
  split; [apply reachable_data_invariant, Hreach |].
  destruct Hreach as (page & rnd & es & ->). unfold run.
  assert (Hround : round_invariant (init (new page rnd)))
    by (split; [reflexivity | intros H; exfalso; apply H; reflexivity]).
  assert (Hgame : game_invariant (init (new page rnd)))
    by (constructor; cbn;
        intuition (try discriminate; try congruence; try lia)).
  revert Hround Hgame. generalize (init (new page rnd)).
  induction es as [| e es IH]; intros c Hround Hgame; cbn [fold_left].
  - exact Hgame.
  - apply IH; [apply step_invariant, Hround
              | apply step_game_invariant; assumption].
Qed.

End GameInvariant.

Section States.
Import JS MathTugOfWar.

Lemma reachable_run c es : reachable c -> reachable (run c es).
Proof.
  intros (page & rnd & es0 & ->). exists page, rnd, (es0 ++ es)%list.
  unfold run. rewrite fold_left_app. reflexivity.
Qed.

Lemma reachable_freshGame : reachable freshGame.
Proof. exists plainPage, zeros, []. reflexivity. Qed.

Lemma reachable_fifthQuestion : reachable fifthQuestion.
Proof. apply reachable_run, reachable_freshGame. Qed.

Lemma reachable_wonGame : reachable wonGame.
Proof. apply reachable_run, reachable_fifthQuestion. Qed.

Lemma reachable_lastSecond : reachable lastSecond.
Proof. apply reachable_run, reachable_freshGame. Qed.

Lemma reachable_pausedGame : reachable pausedGame.
Proof. apply reachable_run, reachable_freshGame. Qed.

(** X6. In every state of a game the rope position is in [[-10, 10]], the
    counters add up, totalQuestions = correctAnswers + wrongAnswers +
    timeouts, none is negative, and because a timeout is also counted as a
    wrong answer wrongAnswers is never below timeouts. *)
Theorem data_in_every_state :
  forall c : MathTugOfWar.t,
    reachable c ->
    let g := gameState c in
    -10 <= GameState.ropePosition g <= 10
    /\ GameState.totalQuestions (GameState.stats g)
       = GameState.correctAnswers (GameState.stats g)
         + GameState.wrongAnswers (GameState.stats g)
         + GameState.timeouts (GameState.stats g)
    /\ 0 <= GameState.correctAnswers (GameState.stats g)
    /\ 0 <= GameState.timeouts (GameState.stats g)
       <= GameState.wrongAnswers (GameState.stats g).
Proof.
  intros c Hreach g.
  destruct (reachable_invariants c Hreach) as (_ & [Hrope Hsum] & Hgame).
  destruct Hgame as [_ _ _ Hstats _ _ _ _ _].
  repeat split; try apply Hrope; try apply Hstats. exact Hsum.
Qed.

Lemma data_in_every_state_witness :
  let g := gameState wonGame in
  -10 <= GameState.ropePosition g <= 10
  /\ GameState.totalQuestions (GameState.stats g)
     = GameState.correctAnswers (GameState.stats g)
       + GameState.wrongAnswers (GameState.stats g)
       + GameState.timeouts (GameState.stats g)
  /\ 0 <= GameState.correctAnswers (GameState.stats g)
  /\ 0 <= GameState.timeouts (GameState.stats g)
     <= GameState.wrongAnswers (GameState.stats g).
Proof. apply (data_in_every_state wonGame), reachable_wonGame. Defined.

(** X7. In every state of a game the current player is 1 or 2, the scores
    kept by the ScoreManager are not negative and add up to
    correctAnswers, and the scores object of the GameState, which the
    controller never writes, is still 0-0. *)
Theorem players_and_scores_in_every_state :
  forall c : MathTugOfWar.t,
    reachable c ->
    (GameState.currentPlayer (gameState c) = 1
     \/ GameState.currentPlayer (gameState c) = 2)
    /\ 0 <= player1 (ScoreManager.scores (scoreManager c))
    /\ 0 <= player2 (ScoreManager.scores (scoreManager c))
    /\ player1 (ScoreManager.scores (scoreManager c))
       + player2 (ScoreManager.scores (scoreManager c))
       = GameState.correctAnswers (GameState.stats (gameState c))
    /\ GameState.scores (gameState c) = {| player1 := 0; player2 := 0 |}.
Proof.
  intros c Hreach.
  destruct (reachable_invariants c Hreach) as (_ & _ & Hgame).
  destruct Hgame as [Hplayer Hunused Hscores _ _ _ _ _ _].
  repeat split; try apply Hscores; assumption.
Qed.

Lemma players_and_scores_in_every_state_witness :
  (GameState.currentPlayer (gameState wonGame) = 1
   \/ GameState.currentPlayer (gameState wonGame) = 2)
  /\ 0 <= player1 (ScoreManager.scores (scoreManager wonGame))
  /\ 0 <= player2 (ScoreManager.scores (scoreManager wonGame))
  /\ player1 (ScoreManager.scores (scoreManager wonGame))
     + player2 (ScoreManager.scores (scoreManager wonGame))
     = GameState.correctAnswers (GameState.stats (gameState wonGame))
  /\ GameState.scores (gameState wonGame) = {| player1 := 0; player2 := 0 |}.
Proof.
  apply (players_and_scores_in_every_state wonGame), reachable_wonGame.
Defined.

(** X8. In every state of a game the two bounded settings are within their
    bounds: timerValue in [[5, 60]] and questionLimit in [[5, 100]]. *)
Theorem bounded_settings_in_every_state :
  forall c : MathTugOfWar.t,
    reachable c ->
    5 <= GameState.timerValue (GameState.settings (gameState c)) <= 60
    /\ 5 <= GameState.questionLimit (GameState.settings (gameState c)) <= 100.
Proof.
  intros c Hreach.
  destruct (reachable_invariants c Hreach) as (_ & _ & Hgame).
  apply Hgame.
Qed.

Lemma bounded_settings_in_every_state_witness :
  5 <= GameState.timerValue (GameState.settings (gameState fifthQuestion))
    <= 60
  /\ 5 <= GameState.questionLimit
            (GameState.settings (gameState fifthQuestion)) <= 100.
Proof.
  apply (bounded_settings_in_every_state fifthQuestion),
    reachable_fifthQuestion.
Defined.

Lemma handleTimeout_timeRemaining d :
  timeRemaining (handleTimeout d) = timeRemaining d.
Proof.
  unfold handleTimeout.
  set (e := set_gameState _ (stopTimer d)).
  assert (He : timeRemaining e = timeRemaining d).
  { subst e. unfold stopTimer. destruct (timerInterval d); reflexivity. }
  clearbody e.
  pose proof (processAnswer_core false "(timeout)" e) as H.
  cbv zeta in H. unfold core in H.
  destruct (round_over _ _);
    pose proof (f_equal (fun x => snd (fst (fst (fst x)))) H) as Htr;
    cbn [fst snd] in Htr; rewrite Htr; exact He.
Qed.

(** X9. A countdown runs only while the round is playing, and while it
    runs the time remaining is at least 1 and at most timerValue: the
    display never shows a negative number of seconds. *)
Theorem countdown_only_while_playing :
  forall c : MathTugOfWar.t,
    reachable c ->
    timerInterval c = true ->
    GameState.gameStatus (gameState c) = GameState.playing
    /\ 1 <= timeRemaining c
         <= GameState.timerValue (GameState.settings (gameState c))
    /\ 0 <= timeRemaining (step c timerFires) <= 59.
Proof.
  intros c Hreach Hon.
  destruct (reachable_invariants c Hreach) as (_ & _ & Hgame).
  destruct Hgame as [_ _ _ _ Hsettings Htimer _ _ _].
  destruct (Htimer Hon) as [Hs Hleft].
  split; [exact Hs |]. split; [exact Hleft |].
  unfold step. cbn [occurs listener]. rewrite Hon. unfold timerCallback.
  cbn [timeRemaining set_timeRemaining emit].
  destruct (Z.leb_spec (timeRemaining c - 1) 0).
  - rewrite handleTimeout_timeRemaining. cbn [timeRemaining emit set_timeRemaining]. lia.
  - cbn [timeRemaining emit set_timeRemaining]. lia.
Qed.

Lemma countdown_only_while_playing_witness :
  GameState.gameStatus (gameState lastSecond) = GameState.playing
  /\ 1 <= timeRemaining lastSecond
       <= GameState.timerValue (GameState.settings (gameState lastSecond))
  /\ 0 <= timeRemaining (step lastSecond timerFires) <= 59.
Proof.
  apply (countdown_only_while_playing lastSecond).
  - exact reachable_lastSecond.
  - vm_compute. reflexivity.
Defined.

(** X10. The page shows the status of the round: in every state of a game
    the answer field and the submit button are enabled exactly while the
    round is playing, and outside idle the start button is disabled and a
    generated question (with a number as its answer) is current. *)
Theorem page_shows_the_status :
  forall c : MathTugOfWar.t,
    reachable c ->
    occurs submitClick c
    = is_playing (GameState.gameStatus (gameState c))
    /\ occurs (answerTyped "") c
       = is_playing (GameState.gameStatus (gameState c))
    /\ (GameState.gameStatus (gameState c) <> GameState.idle ->
        occurs startClick c = false
        /\ Question.answer (GameState.currentQuestion (gameState c)) <> None).
Proof.
  intros c Hreach.
  destruct (reachable_invariants c Hreach) as (_ & _ & Hgame).
  destruct Hgame as [_ _ _ _ _ _ Hstarted _ [Hinput Hsubmit]].
  cbn [occurs]. rewrite Hinput, Hsubmit, !Bool.negb_involutive.
  repeat split; try reflexivity.
  - destruct (Hstarted H) as [-> _]. reflexivity.
  - apply Hstarted, H.
Qed.

Lemma page_shows_the_status_witness :
  occurs submitClick pausedGame
  = is_playing (GameState.gameStatus (gameState pausedGame))
  /\ occurs (answerTyped "") pausedGame
     = is_playing (GameState.gameStatus (gameState pausedGame))
  /\ (GameState.gameStatus (gameState pausedGame) <> GameState.idle ->
      occurs startClick pausedGame = false
      /\ Question.answer (GameState.currentQuestion (gameState pausedGame))
         <> None).
Proof. apply (page_shows_the_status pausedGame), reachable_pausedGame. Defined.

(** X11. An idle round is a pristine one: in every state of a game whose
    status is idle the rope is at the centre, the counters and the scores
    are zero, player 1 is to answer and no countdown runs. *)
Theorem idle_is_pristine :
  forall c : MathTugOfWar.t,
    reachable c ->
    GameState.gameStatus (gameState c) = GameState.idle ->
    GameState.ropePosition (gameState c) = 0
    /\ GameState.stats (gameState c)
       = {| GameState.totalQuestions := 0; GameState.correctAnswers := 0;
            GameState.wrongAnswers := 0; GameState.timeouts := 0 |}
    /\ ScoreManager.scores (scoreManager c)
       = {| player1 := 0; player2 := 0 |}
    /\ GameState.currentPlayer (gameState c) = 1
    /\ timerInterval c = false.
Proof.
  intros c Hreach Hidle.
  destruct (reachable_invariants c Hreach) as ([Hoff _] & _ & Hgame).
  destruct Hgame as [_ _ _ _ _ _ _ Hpristine _].
  destruct (Hpristine Hidle) as (Hrope & Hstats & Hscores & Hplayer).
  repeat split; try assumption. apply Hoff, Hidle.
Qed.

Lemma idle_is_pristine_witness :
  GameState.ropePosition (gameState (step wonGame resetClick)) = 0
  /\ GameState.stats (gameState (step wonGame resetClick))
     = {| GameState.totalQuestions := 0; GameState.correctAnswers := 0;
          GameState.wrongAnswers := 0; GameState.timeouts := 0 |}
  /\ ScoreManager.scores (scoreManager (step wonGame resetClick))
     = {| player1 := 0; player2 := 0 |}
  /\ GameState.currentPlayer (gameState (step wonGame resetClick)) = 1
  /\ timerInterval (step wonGame resetClick) = false.
Proof.
  apply (idle_is_pristine (step wonGame resetClick)).
  - apply (reachable_run wonGame [resetClick]), reachable_wonGame.
  - vm_compute. reflexivity.
Defined.

(** What the events of the answer field and the two callbacks do to a
    state that is not playing, has the answer field and the submit button
    disabled and no countdown. *)
Lemma step_outside_playing (c : MathTugOfWar.t) :
  GameState.gameStatus (gameState c) <> GameState.playing ->
  answerInput_disabled (elements c) = true ->
  submitBtn_disabled (elements c) = true ->
  timerInterval c = false ->
  step c submitClick = c
  /\ (forall key : string, step c (answerKeypress key) = c)
  /\ (forall text : string, step c (answerTyped text) = c)
  /\ step c timerFires = c
  /\ (step c nextQuestionTimeoutFires = c
      \/ step c nextQuestionTimeoutFires
         = set_nextQuestionTimeouts (Nat.pred (nextQuestionTimeouts c)) c).
Proof.
  intros Hstatus Hinput Hsubmit Hoff.
  unfold step. cbn [occurs]. rewrite Hinput, Hsubmit, Hoff. cbn [negb].
  repeat split.
  destruct (0 <? nextQuestionTimeouts c)%nat; [right | left; reflexivity].
  cbn [listener]. unfold nextQuestionCallback.
  cbn [gameState set_nextQuestionTimeouts].
  destruct (GameState.gameStatus (gameState c)); try reflexivity.
  contradiction.
Qed.

(** X12. Outside playing the round is frozen: in every state of a game
    whose status is not playing, a submit, a key press or typing in the
    answer field and a tick of the countdown leave the whole state as it
    is, and a next-question callback that was still pending only
    disappears. *)
Theorem frozen_outside_playing :
  forall c : MathTugOfWar.t,
    reachable c ->
    GameState.gameStatus (gameState c) <> GameState.playing ->
    step c submitClick = c
    /\ (forall key : string, step c (answerKeypress key) = c)
    /\ (forall text : string, step c (answerTyped text) = c)
    /\ step c timerFires = c
    /\ (step c nextQuestionTimeoutFires = c
        \/ step c nextQuestionTimeoutFires
           = set_nextQuestionTimeouts (Nat.pred (nextQuestionTimeouts c)) c).
Proof.
  intros c Hreach Hstatus.
  destruct (reachable_invariants c Hreach) as (_ & _ & Hgame).
  destruct Hgame as [_ _ _ _ _ Htimer _ _ [Hinput Hsubmit]].
  assert (Hnot : is_playing (GameState.gameStatus (gameState c)) = false)
    by (destruct (GameState.gameStatus (gameState c)); try reflexivity;
        contradiction).
  rewrite Hnot in Hinput, Hsubmit. cbn [negb] in Hinput, Hsubmit.
  assert (Hoff : timerInterval c = false).
  { destruct (timerInterval c); [| reflexivity].
    destruct (Htimer eq_refl) as [Habs _]. contradiction. }
  exact (step_outside_playing c Hstatus Hinput Hsubmit Hoff).
Qed.

Lemma frozen_outside_playing_witness :
  step pausedGame submitClick = pausedGame
  /\ (forall key : string, step pausedGame (answerKeypress key) = pausedGame)
  /\ (forall text : string, step pausedGame (answerTyped text) = pausedGame)
  /\ step pausedGame timerFires = pausedGame
  /\ (step pausedGame nextQuestionTimeoutFires = pausedGame
      \/ step pausedGame nextQuestionTimeoutFires
         = set_nextQuestionTimeouts
             (Nat.pred (nextQuestionTimeouts pausedGame)) pausedGame).
Proof.
  apply (frozen_outside_playing pausedGame).
  - exact reachable_pausedGame.
  - vm_compute. discriminate.
Defined.

(** X13. Ended is terminal: in every state of a game whose status is
    ended, no event other than the reset button and the play-again button
    changes the status, the rope, the counters, the scores, the player or
    the question. *)
Theorem ended_is_terminal :
  forall (c : MathTugOfWar.t) (e : Event),
    reachable c ->
    GameState.gameStatus (gameState c) = GameState.ended ->
    e <> resetClick -> e <> playAgainClick ->
    same_but_settings (gameState c) (gameState (step c e))
    /\ scoreManager (step c e) = scoreManager c
    /\ timerInterval (step c e) = false.
Proof.
  intros c e Hreach Hended Hreset Hagain.
  destruct (reachable_invariants c Hreach) as (_ & _ & Hgame).
  destruct Hgame as [_ _ _ _ _ Htimer Hstarted _ [Hinput Hdisabled]].
  rewrite Hended in Hinput, Hdisabled. cbn [is_playing negb] in Hinput, Hdisabled.
  assert (Hoff : timerInterval c = false).
  { destruct (timerInterval c); [| reflexivity].
    destruct (Htimer eq_refl) as [Habs _]. congruence. }
  destruct (step_outside_playing c) as (Hsubmit & Hkey & Htyped & Htick & Hnext);
    [rewrite Hended; discriminate | assumption | assumption | assumption |].
  assert (Hstart : startBtn_disabled (elements c) = true)
    by (apply Hstarted; rewrite Hended; discriminate).
  assert (Hsame : same_but_settings (gameState c) (gameState c))
    by (repeat split).
  destruct e; try contradiction;
    rewrite ?Hsubmit, ?Hkey, ?Htyped, ?Htick; try (repeat split; assumption);
    try (destruct Hnext as [-> | ->]; repeat split; assumption);
    unfold step; cbn [occurs]; rewrite ?Hstart; cbn [negb];
    try match goal with |- context [if negb ?b then _ else _] =>
          destruct (negb b) end;
    cbn [listener]; unfold togglePause, toggleSound, toggleTeacherMode;
    rewrite ?Hended; split_cases;
    repeat split; try assumption; try reflexivity.
Qed.

Lemma ended_is_terminal_witness :
  same_but_settings (gameState wonGame) (gameState (step wonGame pauseClick))
  /\ scoreManager (step wonGame pauseClick) = scoreManager wonGame
  /\ timerInterval (step wonGame pauseClick) = false.
Proof.
  apply (ended_is_terminal wonGame pauseClick).
  - exact reachable_wonGame.
  - vm_compute. reflexivity.
  - discriminate.
  - discriminate.
Defined.

Lemma processAnswer_log_over isCorrect userAnswer c :
  let g1 :=
    GameState.updateRopePosition isCorrect
      (GameState.updateStats isCorrect false (gameState c)) in
  let sm1 :=
    if isCorrect
    then ScoreManager.updateScore
           (GameState.currentPlayer (gameState c)) 1 (scoreManager c)
    else scoreManager c in
  round_over g1 sm1 = true ->
  hd_error (log (processAnswer isCorrect userAnswer c))
  = Some (showWinOverlay (announced g1 sm1) (ScoreManager.scores sm1)).
Proof.
  intros g1 sm1. rewrite processAnswer_from_win_check. cbv zeta.
  pose proof (beforeWinCheck_core isCorrect userAnswer c) as Hmid.
  fold g1 sm1 in Hmid.
  generalize dependent (beforeWinCheck isCorrect userAnswer c).
  intros mid Hmid. unfold core in Hmid.
  pose proof (f_equal (fun x => fst (fst (fst (fst (fst (fst (fst x)))))))
                Hmid) as Hg.
  pose proof (f_equal (fun x => snd (fst (fst (fst (fst (fst (fst x)))))))
                Hmid) as Hsm.
  cbn [fst snd] in Hg, Hsm. clear Hmid.
  unfold round_over, announced. rewrite Hg, Hsm.
  destruct (GameState.checkWinCondition g1).
  - intros _. rewrite handleWin_log, Hsm. reflexivity.
  - intros ->. rewrite handleWin_log, Hsm. reflexivity.
Qed.

(** X14. When the answer brings the rope to the threshold the round ends
    there, whatever the question limit says: the status is ended, the
    countdown is off, the answer field and the submit button are disabled,
    the player is not switched, no next question is scheduled, and the
    overlay shown names the winner the rope gives, player1 at -8 or below
    and player2 at 8 or above, with the scores after this answer. *)
Theorem rope_win_ends_the_round :
  forall (c : MathTugOfWar.t) (isCorrect : bool) (userAnswer winner : string),
    let g1 :=
      GameState.updateRopePosition isCorrect
        (GameState.updateStats isCorrect false (gameState c)) in
    let sm1 :=
      if isCorrect
      then ScoreManager.updateScore
             (GameState.currentPlayer (gameState c)) 1 (scoreManager c)
      else scoreManager c in
    let c' := processAnswer isCorrect userAnswer c in
    GameState.checkWinCondition g1 = Some winner ->
    gameState c' = GameState.end_ g1
    /\ GameState.gameStatus (gameState c') = GameState.ended
    /\ GameState.currentPlayer (gameState c')
       = GameState.currentPlayer (gameState c)
    /\ scoreManager c' = sm1
    /\ timerInterval c' = false
    /\ nextQuestionTimeouts c' = nextQuestionTimeouts c
    /\ answerInput_disabled (elements c') = true
    /\ submitBtn_disabled (elements c') = true
    /\ hd_error (log c')
       = Some (showWinOverlay winner (ScoreManager.scores sm1))
    /\ ((winner = "player1" /\ GameState.ropePosition g1 <= -8)
        \/ (winner = "player2" /\ GameState.ropePosition g1 >= 8)).
Proof.
  intros c isCorrect userAnswer winner g1 sm1 c' Hwin.
  assert (Hover : round_over g1 sm1 = true)
    by (unfold round_over; rewrite Hwin; reflexivity).
  pose proof (processAnswer_core isCorrect userAnswer c) as H.
  pose proof (processAnswer_log_over isCorrect userAnswer c) as Hlog.
  cbv zeta in H, Hlog. fold g1 sm1 c' in H, Hlog.
  rewrite Hover in H. specialize (Hlog Hover).
  unfold announced in Hlog. rewrite Hwin in Hlog.
  core_fields H.
  destruct (resolution_fields isCorrect (gameState c)) as (Hp & _).
  fold g1 in Hp.
  rewrite Hg, Hsm, Hti, Hn, Hel, Hlog.
  repeat split; try assumption.
  revert Hwin. unfold GameState.checkWinCondition, GameState.WIN_THRESHOLD.
  cbn [Z.opp].
  destruct (Z.leb_spec (GameState.ropePosition g1) (-8)).
  - intros Hw. inversion Hw. left. split; [reflexivity | lia].
  - destruct (Z.geb_spec (GameState.ropePosition g1) 8).
    + intros Hw. inversion Hw. right. split; [reflexivity | lia].
    + discriminate.
Qed.

Lemma rope_win_ends_the_round_witness :
  let g1 :=
    GameState.updateRopePosition true
      (GameState.updateStats true false (gameState ropeAtMinusSix)) in
  let sm1 :=
    ScoreManager.updateScore
      (GameState.currentPlayer (gameState ropeAtMinusSix)) 1
      (scoreManager ropeAtMinusSix) in
  let c' := processAnswer true "2" ropeAtMinusSix in
  gameState c' = GameState.end_ g1
  /\ GameState.gameStatus (gameState c') = GameState.ended
  /\ GameState.currentPlayer (gameState c')
     = GameState.currentPlayer (gameState ropeAtMinusSix)
  /\ scoreManager c' = sm1
  /\ timerInterval c' = false
  /\ nextQuestionTimeouts c' = nextQuestionTimeouts ropeAtMinusSix
  /\ answerInput_disabled (elements c') = true
  /\ submitBtn_disabled (elements c') = true
  /\ hd_error (log c')
     = Some (showWinOverlay "player1" (ScoreManager.scores sm1))
  /\ (("player1" = "player1" /\ GameState.ropePosition g1 <= -8)
      \/ ("player1" = "player2" /\ GameState.ropePosition g1 >= 8)).
Proof.
  apply (rope_win_ends_the_round ropeAtMinusSix true "2" "player1").
  vm_compute. reflexivity.
Defined.

(** X15. When the resolution of an answer does not end the round, it
    passes the turn and nothing else: the current player becomes the other
    one, one next-question callback is scheduled, and the question, the
    countdown and the elements of the page, so the enabled answer field,
    stay as they are until that callback runs. *)
Theorem round_goes_on_with_the_other_player :
  forall (c : MathTugOfWar.t) (isCorrect : bool) (userAnswer : string),
    let g1 :=
      GameState.updateRopePosition isCorrect
        (GameState.updateStats isCorrect false (gameState c)) in
    let sm1 :=
      if isCorrect
      then ScoreManager.updateScore
             (GameState.currentPlayer (gameState c)) 1 (scoreManager c)
      else scoreManager c in
    let c' := processAnswer isCorrect userAnswer c in
    round_over g1 sm1 = false ->
    gameState c' = GameState.switchPlayer g1
    /\ GameState.currentPlayer (gameState c')
       = (if GameState.currentPlayer (gameState c) =? 1 then 2 else 1)
    /\ GameState.gameStatus (gameState c')
       = GameState.gameStatus (gameState c)
    /\ GameState.currentQuestion (gameState c')
       = GameState.currentQuestion (gameState c)
    /\ scoreManager c' = sm1
    /\ timerInterval c' = timerInterval c
    /\ elements c' = elements c
    /\ nextQuestionTimeouts c' = S (nextQuestionTimeouts c).
Proof.
  intros c isCorrect userAnswer g1 sm1 c' Hon.
  pose proof (processAnswer_core isCorrect userAnswer c) as H.
  cbv zeta in H. fold g1 sm1 c' in H. rewrite Hon in H. core_fields H.
  destruct (resolution_fields isCorrect (gameState c))
    as (Hp & _ & _ & Hs & Hq & _).
  fold g1 in Hp, Hs, Hq.
  rewrite Hg. cbn [GameState.switchPlayer GameState.set_currentPlayer
                   GameState.currentPlayer GameState.gameStatus
                   GameState.currentQuestion].
  rewrite Hp. repeat split; assumption.
Qed.

Lemma round_goes_on_with_the_other_player_witness :
  let g1 :=
    GameState.updateRopePosition true
      (GameState.updateStats true false (gameState playingGame)) in
  let sm1 :=
    ScoreManager.updateScore
      (GameState.currentPlayer (gameState playingGame)) 1
      (scoreManager playingGame) in
  let c' := processAnswer true "2" playingGame in
  gameState c' = GameState.switchPlayer g1
  /\ GameState.currentPlayer (gameState c')
     = (if GameState.currentPlayer (gameState playingGame) =? 1
        then 2 else 1)
  /\ GameState.gameStatus (gameState c')
     = GameState.gameStatus (gameState playingGame)
  /\ GameState.currentQuestion (gameState c')
     = GameState.currentQuestion (gameState playingGame)
  /\ scoreManager c' = sm1
  /\ timerInterval c' = timerInterval playingGame
  /\ elements c' = elements playingGame
  /\ nextQuestionTimeouts c' = S (nextQuestionTimeouts playingGame).
Proof.
  apply (round_goes_on_with_the_other_player playingGame true "2").
  vm_compute. reflexivity.
Defined.

(** X16. A submit is not held back until the next question arrives: when
    an answer has been resolved and the round goes on, the submit button
    stays enabled, the question and the text in the answer field stay, and
    the turn has passed; a second submit is then resolved as well, for the
    other player against the same question, so that totalQuestions has
    grown by 2. *)
Theorem second_submit_is_resolved_too :
  forall c : MathTugOfWar.t,
    GameState.gameStatus (gameState c) = GameState.playing ->
    GameState.gameStatus (gameState (handleSubmit c)) = GameState.playing ->
    let c1 := handleSubmit c in
    occurs submitClick c1 = occurs submitClick c
    /\ GameState.currentQuestion (gameState c1)
       = GameState.currentQuestion (gameState c)
    /\ answerInput_value (elements c1) = answerInput_value (elements c)
    /\ GameState.currentPlayer (gameState c1)
       = (if GameState.currentPlayer (gameState c) =? 1 then 2 else 1)
    /\ nextQuestionTimeouts c1 = S (nextQuestionTimeouts c)
    /\ GameState.totalQuestions (GameState.stats (gameState (handleSubmit c1)))
       = GameState.totalQuestions (GameState.stats (gameState c)) + 2.
Proof.
  intros c Hplaying Hstill c1.
  assert (Hc1 : c1 = processAnswer
                       (QuestionGenerator.validateAnswer
                          (Str (answerInput_value (elements (stopTimer c))))
                          (answerValue
                             (Question.answer
                                (GameState.currentQuestion
                                   (gameState (stopTimer c))))))
                       (answerInput_value (elements (stopTimer c)))
                       (stopTimer c))
    by (subst c1; unfold handleSubmit; rewrite Hplaying; reflexivity).
  set (isCorrect := QuestionGenerator.validateAnswer _ _) in Hc1.
  clearbody isCorrect.
  pose proof (stopTimer_core c) as Hstop. core_fields Hstop.
  pose proof (processAnswer_core isCorrect
                (answerInput_value (elements (stopTimer c))) (stopTimer c))
    as H.
  cbv zeta in H. rewrite <- Hc1 in H.
  destruct (round_over _ _) eqn:Hover.
  { exfalso. unfold core in H.
    pose proof (f_equal (fun x => fst (fst (fst (fst (fst (fst (fst x)))))))
                  H) as Habs.
    cbn [fst] in Habs. fold c1 in Hstill. rewrite Habs in Hstill.
    discriminate. }
  clear Hg. rename Hn into Hn0. rename Hel into Hel0.
  unfold core in H.
  pose proof (f_equal (fun x => fst (fst (fst (fst (fst (fst (fst x)))))))
                H) as Hg.
  pose proof (f_equal (fun x => snd (fst (fst x))) H) as Hn.
  pose proof (f_equal (fun x => snd (fst x)) H) as Hel.
  cbn [fst snd] in Hg, Hn, Hel.
  assert (Hstopg : gameState (stopTimer c) = gameState c)
    by (unfold stopTimer; destruct (timerInterval c); reflexivity).
  rewrite Hstopg in Hg.
  destruct (resolution_fields isCorrect (gameState c))
    as (Hp & _ & _ & _ & Hq & Hst).
  repeat split.
  - cbn [occurs]. rewrite Hel, Hel0. reflexivity.
  - rewrite Hg. unfold GameState.switchPlayer, GameState.set_currentPlayer.
    cbn [GameState.currentQuestion]. exact Hq.
  - rewrite Hel, Hel0. reflexivity.
  - rewrite Hg. unfold GameState.switchPlayer, GameState.set_currentPlayer.
    cbn [GameState.currentPlayer]. rewrite Hp. reflexivity.
  - rewrite Hn, Hn0. reflexivity.
  - unfold handleSubmit. fold c1 in Hstill. rewrite Hstill.
    rewrite processAnswer_stats.
    assert (Hstop1 : gameState (stopTimer c1) = gameState c1)
      by (unfold stopTimer; destruct (timerInterval c1); reflexivity).
    generalize (QuestionGenerator.validateAnswer
                  (Str (answerInput_value (elements (stopTimer c1))))
                  (answerValue
                     (Question.answer
                        (GameState.currentQuestion
                           (gameState (stopTimer c1)))))).
    intros second. rewrite Hstop1, Hg.
    destruct second, isCorrect; cbn; lia.
Qed.

Lemma second_submit_is_resolved_too_witness :
  let c1 := handleSubmit playingGame in
  occurs submitClick c1 = occurs submitClick playingGame
  /\ GameState.currentQuestion (gameState c1)
     = GameState.currentQuestion (gameState playingGame)
  /\ answerInput_value (elements c1)
     = answerInput_value (elements playingGame)
  /\ GameState.currentPlayer (gameState c1)
     = (if GameState.currentPlayer (gameState playingGame) =? 1
        then 2 else 1)
  /\ nextQuestionTimeouts c1 = S (nextQuestionTimeouts playingGame)
  /\ GameState.totalQuestions (GameState.stats (gameState (handleSubmit c1)))
     = GameState.totalQuestions (GameState.stats (gameState playingGame)) + 2.
Proof.
  apply (second_submit_is_resolved_too playingGame);
    vm_compute; reflexivity.
Defined.

Lemma pending_callback_runs (c : MathTugOfWar.t) :
  (0 < nextQuestionTimeouts c)%nat ->
  GameState.gameStatus (gameState c) = GameState.playing ->
  step c nextQuestionTimeoutFires
  = nextQuestion
      (set_nextQuestionTimeouts (Nat.pred (nextQuestionTimeouts c)) c).
Proof.
  intros Hpending Hs. unfold step.
  assert (Hoccurs : occurs nextQuestionTimeoutFires c = true)
    by (apply Nat.ltb_lt, Hpending).
  rewrite Hoccurs.
  change (listener nextQuestionTimeoutFires c)
    with (nextQuestionCallback
            (set_nextQuestionTimeouts (Nat.pred (nextQuestionTimeouts c)) c)).
  unfold nextQuestionCallback.
  change (gameState
            (set_nextQuestionTimeouts (Nat.pred (nextQuestionTimeouts c)) c))
    with (gameState c).
  rewrite Hs. reflexivity.
Qed.

Lemma startGame_after_resetGame (c : MathTugOfWar.t) :
  nextQuestionTimeouts (resetGame c) = nextQuestionTimeouts c
  /\ nextQuestionTimeouts (startGame (resetGame c)) = nextQuestionTimeouts c
  /\ GameState.gameStatus (gameState (startGame (resetGame c)))
     = GameState.playing.
Proof.
  pose proof (resetGame_core c) as Hreset. core_fields Hreset.
  rename Hn into Hn0. clear Hg Hsm Hsnd Hti Htr Hel Hrnd.
  pose proof (startGame_core (resetGame c)) as Hstart.
  core_fields Hstart.
  split; [exact Hn0 |]. split; [rewrite Hn; exact Hn0 |].
  rewrite Hg.
  generalize (fst (QuestionGenerator.generateQuestion
             (GameState.operation
                (GameState.settings (gameState (resetGame c))))
             (GameState.difficulty
                (GameState.settings (gameState (resetGame c))))
             (random (resetGame c)))).
  reflexivity.
Qed.

Lemma pending_callback_question (c : MathTugOfWar.t) :
  (0 < nextQuestionTimeouts c)%nat ->
  GameState.gameStatus (gameState c) = GameState.playing ->
  occurs nextQuestionTimeoutFires c = true
  /\ GameState.currentQuestion (gameState (step c nextQuestionTimeoutFires))
     = fst (QuestionGenerator.generateQuestion
              (GameState.operation (GameState.settings (gameState c)))
              (GameState.difficulty (GameState.settings (gameState c)))
              (random c))
  /\ random (step c nextQuestionTimeoutFires)
     = snd (QuestionGenerator.generateQuestion
              (GameState.operation (GameState.settings (gameState c)))
              (GameState.difficulty (GameState.settings (gameState c)))
              (random c)).
Proof.
  intros Hpending Hs.
  split; [apply Nat.ltb_lt, Hpending |].
  rewrite (pending_callback_runs c Hpending Hs).
  pose proof (nextQuestion_core
                (set_nextQuestionTimeouts (Nat.pred (nextQuestionTimeouts c))
                                          c)) as Hnext.
  core_fields Hnext.
  rewrite Hg, Hrnd.
  change (gameState
            (set_nextQuestionTimeouts (Nat.pred (nextQuestionTimeouts c)) c))
    with (gameState c).
  change (random
            (set_nextQuestionTimeouts (Nat.pred (nextQuestionTimeouts c)) c))
    with (random c).
  generalize (QuestionGenerator.generateQuestion
                (GameState.operation (GameState.settings (gameState c)))
                (GameState.difficulty (GameState.settings (gameState c)))
                (random c)).
  intros gen. split; reflexivity.
Qed.

(** X17. [resetGame()] does not cancel a next-question callback that is
    still pending: after a reset and a new start the callback is still
    there, and when it runs it finds the new round playing and puts
    another generated question in the place of the first one. *)
Theorem reset_keeps_the_pending_callback :
  forall c : MathTugOfWar.t,
    (0 < nextQuestionTimeouts c)%nat ->
    let c' := startGame (resetGame c) in
    nextQuestionTimeouts (resetGame c) = nextQuestionTimeouts c
    /\ nextQuestionTimeouts c' = nextQuestionTimeouts c
    /\ occurs nextQuestionTimeoutFires c' = true
    /\ GameState.currentQuestion (gameState (step c' nextQuestionTimeoutFires))
       = fst (QuestionGenerator.generateQuestion
                (GameState.operation (GameState.settings (gameState c')))
                (GameState.difficulty (GameState.settings (gameState c')))
                (random c'))
    /\ random (step c' nextQuestionTimeoutFires)
       = snd (QuestionGenerator.generateQuestion
                (GameState.operation (GameState.settings (gameState c')))
                (GameState.difficulty (GameState.settings (gameState c')))
                (random c')).
Proof.
  intros c Hpending.
  destruct (startGame_after_resetGame c) as (Hn0 & Hn' & Hs).
  generalize dependent (startGame (resetGame c)). intros c' Hn' Hs.
  cbv zeta.
  split; [exact Hn0 |]. split; [exact Hn' |].
  apply pending_callback_question; [rewrite Hn'; exact Hpending | exact Hs].
Qed.

Lemma reset_keeps_the_pending_callback_witness :
  let c := handleSubmit playingGame in
  let c' := startGame (resetGame c) in
  nextQuestionTimeouts (resetGame c) = nextQuestionTimeouts c
  /\ nextQuestionTimeouts c' = nextQuestionTimeouts c
  /\ occurs nextQuestionTimeoutFires c' = true
  /\ GameState.currentQuestion (gameState (step c' nextQuestionTimeoutFires))
     = fst (QuestionGenerator.generateQuestion
              (GameState.operation (GameState.settings (gameState c')))
              (GameState.difficulty (GameState.settings (gameState c')))
              (random c'))
  /\ random (step c' nextQuestionTimeoutFires)
     = snd (QuestionGenerator.generateQuestion
              (GameState.operation (GameState.settings (gameState c')))
              (GameState.difficulty (GameState.settings (gameState c')))
              (random c')).
Proof.
  apply (reset_keeps_the_pending_callback (handleSubmit playingGame)).
  vm_compute. apply le_n.
Defined.

Lemma togglePause_playing_core (c : MathTugOfWar.t) :
  GameState.gameStatus (gameState c) = GameState.playing ->
  core (togglePause c)
  = (GameState.pause (gameState c), scoreManager c, soundManager c, false,
     timeRemaining c, nextQuestionTimeouts c,
     elements (setInputEnabled false c), random c).
Proof.
  intros Hs. unfold togglePause. rewrite Hs. unfold stopTimer.
  cbn [timerInterval set_gameState].
  destruct (timerInterval c) eqn:E; unfold core; cbn; rewrite ?E;
    reflexivity.
Qed.

Lemma togglePause_paused_core (c : MathTugOfWar.t) :
  GameState.gameStatus (gameState c) = GameState.paused ->
  let timed := GameState.timerEnabled (GameState.settings (gameState c)) in
  core (togglePause c)
  = (GameState.resume (gameState c), scoreManager c, soundManager c,
     (if timed then true else timerInterval c),
     (if timed
      then GameState.timerValue (GameState.settings (gameState c))
      else timeRemaining c),
     nextQuestionTimeouts c, elements (setInputEnabled true c), random c).
Proof.
  intros Hs timed. subst timed. unfold togglePause. rewrite Hs.
  cbn [gameState setInputEnabled set_elements set_gameState
       GameState.settings GameState.resume GameState.set_gameStatus].
  destruct (GameState.timerEnabled (GameState.settings (gameState c)));
    [unfold startTimer, stopTimer;
     cbn [timerInterval setInputEnabled set_elements set_gameState];
     destruct (timerInterval c) |];
    reflexivity.
Qed.

(** X18. Pause and resume: pausing a playing round stops the countdown and
    disables the answer field; resuming gives back the game state as it
    was, and when the timer is enabled the countdown starts again from the
    full timerValue, whatever time was left at the pause. *)
Theorem pause_then_resume :
  forall c : MathTugOfWar.t,
    GameState.gameStatus (gameState c) = GameState.playing ->
    let p := togglePause c in
    let r := togglePause p in
    GameState.gameStatus (gameState p) = GameState.paused
    /\ timerInterval p = false
    /\ answerInput_disabled (elements p) = true
    /\ gameState r = gameState c
    /\ answerInput_disabled (elements r) = false
    /\ (GameState.timerEnabled (GameState.settings (gameState c)) = true ->
        timerInterval r = true
        /\ timeRemaining r
           = GameState.timerValue (GameState.settings (gameState c)))
    /\ (GameState.timerEnabled (GameState.settings (gameState c)) = false ->
        timerInterval r = false /\ timeRemaining r = timeRemaining c).
Proof.
  intros c Hplaying p r.
  pose proof (togglePause_playing_core c Hplaying) as Hp. fold p in Hp.
  assert (Hpaused : GameState.gameStatus (gameState p) = GameState.paused).
  { apply core_eq in Hp. destruct Hp as [-> _]. reflexivity. }
  pose proof (togglePause_paused_core p Hpaused) as Hr. fold r in Hr.
  clearbody r. clearbody p.
  apply core_eq in Hp.
  destruct Hp as (Pg & _ & _ & Pti & Ptr & _ & Pel & _).
  core_fields Hr.
  assert (Hgc : GameState.resume (GameState.pause (gameState c)) = gameState c).
  { unfold GameState.resume, GameState.pause, GameState.set_gameStatus.
    cbn [GameState.currentPlayer GameState.ropePosition GameState.scores
         GameState.settings GameState.gameStatus GameState.currentQuestion
         GameState.stats].
    rewrite <- Hplaying. destruct (gameState c); reflexivity. }
  assert (Hset : GameState.settings (gameState p)
                 = GameState.settings (gameState c))
    by (rewrite Pg; reflexivity).
  rewrite Hset, Pti, Ptr in *. rewrite Pg in Hg. rewrite Hgc in Hg.
  split; [exact Hpaused |]. split; [reflexivity |].
  split; [rewrite Pel; reflexivity |]. split; [exact Hg |].
  split; [rewrite Hel; reflexivity |].
  rewrite Hti, Htr.
  split; intros ->; split; reflexivity.
Qed.

Lemma pause_then_resume_witness :
  let c := step (step playingGame timerFires) timerFires in
  let p := togglePause c in
  let r := togglePause p in
  GameState.gameStatus (gameState p) = GameState.paused
  /\ timerInterval p = false
  /\ answerInput_disabled (elements p) = true
  /\ gameState r = gameState c
  /\ answerInput_disabled (elements r) = false
  /\ (GameState.timerEnabled (GameState.settings (gameState c)) = true ->
      timerInterval r = true
      /\ timeRemaining r
         = GameState.timerValue (GameState.settings (gameState c)))
  /\ (GameState.timerEnabled (GameState.settings (gameState c)) = false ->
      timerInterval r = false /\ timeRemaining r = timeRemaining c).
Proof.
  apply (pause_then_resume (step (step playingGame timerFires) timerFires)).
  vm_compute. reflexivity.
Defined.

(** X19. [resetGame()] does not touch the SoundManager: the sound stays
    off if it was off, while the soundEnabled setting is back to true; the
    sound toggle, for its part, flips the SoundManager and writes the new
    state into the setting. *)
Theorem reset_keeps_the_sound_switch :
  forall c : MathTugOfWar.t,
    soundManager (resetGame c) = soundManager c
    /\ GameState.soundEnabled (GameState.settings (gameState (resetGame c)))
       = true
    /\ SoundManager.enabled (soundManager (toggleSound c))
       = negb (SoundManager.enabled (soundManager c))
    /\ GameState.soundEnabled (GameState.settings (gameState (toggleSound c)))
       = SoundManager.enabled (soundManager (toggleSound c))
    /\ (SoundManager.enabled (soundManager c) = true ->
        SoundManager.enabled (soundManager (resetGame (toggleSound c)))
        = false
        /\ GameState.soundEnabled
             (GameState.settings (gameState (resetGame (toggleSound c))))
           = true).
Proof.
  intros c.
  assert (Hreset : forall d, soundManager (resetGame d) = soundManager d
                             /\ GameState.soundEnabled
                                  (GameState.settings (gameState (resetGame d)))
                                = true).
  { intros d. pose proof (resetGame_core d) as H. core_fields H.
    rewrite Hg, Hsnd. split; reflexivity. }
  split; [apply Hreset |]. split; [apply Hreset |].
  split; [reflexivity |]. split; [reflexivity |].
  intros Hon. destruct (Hreset (toggleSound c)) as [-> ->].
  split; [| reflexivity]. cbn. rewrite Hon. reflexivity.
Qed.

Lemma countdown_ticks (n : nat) :
  forall c : MathTugOfWar.t,
    timerInterval c = true ->
    Z.of_nat n < timeRemaining c ->
    core (run c (repeat timerFires n))
    = (gameState c, scoreManager c, soundManager c, true,
       timeRemaining c - Z.of_nat n, nextQuestionTimeouts c, elements c,
       random c).
Proof.
  induction n as [| n IH]; intros c Hon Hleft.
  - unfold core. cbn [run repeat fold_left]. rewrite Hon.
    replace (timeRemaining c - Z.of_nat 0) with (timeRemaining c) by lia.
    reflexivity.
  - cbn [repeat]. unfold run. cbn [fold_left]. fold (run (step c timerFires)
                                                        (repeat timerFires n)).
    assert (Hstep : step c timerFires
                    = emit (updateTimer (timeRemaining c - 1))
                           (set_timeRemaining (timeRemaining c - 1) c)).
    { unfold step. cbn [occurs listener]. rewrite Hon. unfold timerCallback.
      cbn [timeRemaining set_timeRemaining emit].
      destruct (Z.leb_spec (timeRemaining c - 1) 0); [lia | reflexivity]. }
    rewrite Hstep. rewrite IH.
    + cbn [gameState scoreManager soundManager timeRemaining
           nextQuestionTimeouts elements random emit set_timeRemaining].
      replace (timeRemaining c - 1 - Z.of_nat n)
        with (timeRemaining c - Z.of_nat (S n)) by lia.
      reflexivity.
    + exact Hon.
    + cbn [timeRemaining emit set_timeRemaining]. lia.
Qed.

(** X20. The countdown counts whole ticks: while fewer ticks have come than
    the time remaining, they change nothing but the time remaining, which
    drops by one a tick, and the display; the tick that brings it to 0 is
    the one that resolves the question as timed out. *)
Theorem countdown_runs_to_zero :
  forall (c : MathTugOfWar.t) (n : nat),
    timerInterval c = true ->
    Z.of_nat n < timeRemaining c ->
    let c' := run c (repeat timerFires n) in
    gameState c' = gameState c
    /\ scoreManager c' = scoreManager c
    /\ timerInterval c' = true
    /\ timeRemaining c' = timeRemaining c - Z.of_nat n
    /\ (timeRemaining c' = 1 ->
        GameState.timeouts
          (GameState.stats (gameState (step c' timerFires)))
        = GameState.timeouts (GameState.stats (gameState c)) + 1
        /\ timerInterval (step c' timerFires)
           = false).
Proof.
  intros c n Hon Hleft c'.
  pose proof (countdown_ticks n c Hon Hleft) as H. fold c' in H.
  clearbody c'. core_fields H.
  split; [exact Hg |]. split; [exact Hsm |]. split; [exact Hti |].
  split; [exact Htr |]. clear Htr. intros Hlast.
  assert (Hstep : step c' timerFires
                  = handleTimeout (emit (updateTimer 0)
                                        (set_timeRemaining 0 c'))).
  { unfold step. cbn [occurs listener]. rewrite Hti. unfold timerCallback.
    cbn [timeRemaining set_timeRemaining emit]. rewrite Hlast.
    reflexivity. }
  rewrite Hstep. unfold handleTimeout.
  set (d := set_gameState _ (stopTimer _)).
  assert (Hd : timerInterval d = false
               /\ GameState.stats (gameState d)
                  = GameState.stats
                      (GameState.updateStats false true (gameState c'))).
  { subst d. unfold stopTimer.
    cbn [timerInterval emit set_timeRemaining].
    destruct (timerInterval c'); [split; reflexivity | discriminate]. }
  destruct Hd as [Hoff Hstats]. clearbody d.
  split.
  - rewrite processAnswer_stats.
    unfold GameState.updateStats at 1.
    cbn [GameState.stats GameState.set_stats GameState.timeouts].
    rewrite Hstats, Hg. reflexivity.
  - pose proof (processAnswer_core false "(timeout)" d) as Hcore.
    cbv zeta in Hcore.
    destruct (round_over _ _); apply core_eq in Hcore;
      destruct Hcore as (_ & _ & _ & -> & _); [reflexivity | exact Hoff].
Qed.

Lemma countdown_runs_to_zero_witness :
  let c' := run playingGame (repeat timerFires 19) in
  gameState c' = gameState playingGame
  /\ scoreManager c' = scoreManager playingGame
  /\ timerInterval c' = true
  /\ timeRemaining c' = timeRemaining playingGame - Z.of_nat 19
  /\ (timeRemaining c' = 1 ->
      GameState.timeouts
        (GameState.stats (gameState (step c' timerFires)))
      = GameState.timeouts (GameState.stats (gameState playingGame)) + 1
      /\ timerInterval (step c' timerFires) = false).
Proof.
  apply (countdown_runs_to_zero playingGame 19);
    vm_compute; reflexivity.
Defined.

End States.
